(** * ANP fuel prices endpoint (ANP_GRU)

    A shallow embedding of the serverless handlers that fetch the ANP weekly
    spreadsheet, keep the rows of Guarulhos, and answer with the prices of the
    latest period:

    - [src/mnt_fuel-prices.js]      fixed URL, no cache header
    - [src/api_fuel-prices.js]      fixed URL, fixed cache header
    - [src/api/api_fuel-prices.js]  fixed URL, cache until 07:00 (two copies)
    - [src/api/fuel-prices.js]      URL discovered on the ANP index page

    The first part holds the definitions: the fragment of the JavaScript
    runtime the handlers rely on, then the functions of the sources under
    their own names.  The second part holds the theorems. *)

From Stdlib Require Import ZArith QArith Qround Qabs Ascii String List Lia.
From Stdlib Require Import DecimalString Permutation.
From stdpp Require Import base option list strings gmap.

Local Open Scope Z_scope.

(* ===================================================================== *)
(** * Part I. Definitions *)
(* ===================================================================== *)

(** ** Numbers

    A JavaScript number is NaN, an infinity or a finite value.  A finite
    value is kept as the rational it stands for, and the two zeros are
    identified.  The operations round their exact result to binary64
    ([round64]), as the engine does. *)

Inductive number : Type :=
| NaN
| Infinity (negative : bool)
| Finite (q : Q).

Definition ofZ (z : Z) : number := Finite (inject_Z z).

(** [n / d] rounded to the nearest integer, a tie going to the even one;
    [d] is positive. *)
Definition roundHalfEven (n d : Z) : Z :=
  let q := n / d in
  match 2 * (n mod d) ?= d with
  | Lt => q
  | Gt => q + 1
  | Eq => if Z.even q then q else q + 1
  end.

(** The binary exponent of [n / d], for positive [n] and [d]: the [e] with
    [2^e <= n / d < 2^(e + 1)]. *)
Definition exponentOf (n d : Z) : Z :=
  let e := Z.log2 n - Z.log2 d in
  if (if 0 <=? e then d * 2 ^ e <=? n else d <=? n * 2 ^ (- e)) then e else e - 1.

(** The binary64 value nearest to [num / den], ties to the even
    significand: 53 significant bits from the exponent -1022 up, multiples
    of [2^-1074] below, and an infinity from [2^1024] on. *)
Definition binary64 (num : Z) (den : positive) : number :=
  let n := Z.abs num in
  let d := Z.pos den in
  if n =? 0 then Finite 0
  else
    let e := Z.max (exponentOf n d) (- 1022) in
    let u := e - 52 in
    if 0 <=? u then
      let m := roundHalfEven n (d * 2 ^ u) in
      if 2 ^ (1024 - u) <=? m then Infinity (num <? 0)
      else Finite (inject_Z (Z.sgn num * (m * 2 ^ u)))
    else
      let m := roundHalfEven (n * 2 ^ (- u)) d in
      Finite (Qred (Qmake (Z.sgn num * m) (Z.to_pos (2 ^ (- u))))).

(** The number a rational rounds to. *)
Definition round64 (q : Q) : number :=
  let r := Qred q in binary64 (Qnum r) (Qden r).

Definition Number_isNaN (n : number) : bool :=
  match n with NaN => true | _ => false end.

Definition Number_isFinite (n : number) : bool :=
  match n with Finite _ => true | _ => false end.

(** [a - b] *)
Definition num_sub (a b : number) : number :=
  match a, b with
  | NaN, _ | _, NaN => NaN
  | Infinity s, Infinity t => if Bool.eqb s t then NaN else Infinity s
  | Infinity s, Finite _ => Infinity s
  | Finite _, Infinity t => Infinity (negb t)
  | Finite p, Finite q => round64 (p - q)
  end.

(** [a * b] *)
Definition num_mul (a b : number) : number :=
  match a, b with
  | NaN, _ | _, NaN => NaN
  | Infinity s, Infinity t => Infinity (xorb s t)
  | Infinity s, Finite q | Finite q, Infinity s =>
      match Qcompare q 0 with
      | Eq => NaN
      | Lt => Infinity (negb s)
      | Gt => Infinity s
      end
  | Finite p, Finite q => round64 (p * q)
  end.

Definition Math_floor (n : number) : number :=
  match n with
  | Finite q => ofZ (Qfloor q)
  | _ => n
  end.

(** [a < b] on numbers: false as soon as one side is NaN. *)
Definition num_lt (a b : number) : bool :=
  match a, b with
  | NaN, _ | _, NaN => false
  | Infinity s, Infinity t => s && negb t
  | Infinity s, Finite _ => s
  | Finite _, Infinity t => negb t
  | Finite p, Finite q => match Qcompare p q with Lt => true | _ => false end
  end.

(** [a === b] on numbers: NaN is not equal to itself. *)
Definition num_eq (a b : number) : bool :=
  match a, b with
  | Infinity s, Infinity t => Bool.eqb s t
  | Finite p, Finite q => Qeq_bool p q
  | _, _ => false
  end.

(** ** Dates

    A Date object is its time value: an integral number of milliseconds
    since the Unix epoch, or NaN for the Invalid Date ([None]). *)

Abbreviation Date := (option Z).

Definition msPerDay : Z := 86400000.

(** TimeClip of ECMAScript: the time value [new Date(n)] holds. *)
Definition TimeClip (n : number) : Date :=
  match n with
  | Finite q =>
      if Qle_bool (Qabs q) (inject_Z 8640000000000000)
      then Some (if Qle_bool 0 q then Qfloor q else Qceiling q)
      else None
  | _ => None
  end.

(** [d.getTime()] *)
Definition getTime (d : Date) : number :=
  match d with
  | Some t => ofZ t
  | None => NaN
  end.

(** ** Values held by the cells of a row *)

Inductive value : Type :=
| Undefined
| Null
| Bool (b : bool)
| Num (n : number)
| Str (s : string)
| DateV (d : Date).

Definition ToBoolean (v : value) : bool :=
  match v with
  | Undefined | Null => false
  | Bool b => b
  | Num NaN => false
  | Num (Infinity _) => true
  | Num (Finite q) => negb (Qeq_bool q 0)
  | Str s => negb (String.eqb s "")
  | DateV _ => true
  end.

(** [a || b] *)
Definition or_else (a b : value) : value :=
  if ToBoolean a then a else b.

(** ** Strings

    Strings are byte strings holding UTF-8 text.  The search for an ASCII
    needle and the comparison with an ASCII text give on the bytes what
    JavaScript gives on the UTF-16 code units. *)

Definition is_lower (c : ascii) : bool :=
  (Ascii.leb "a" c && Ascii.leb c "z")%char.

Definition is_digit (c : ascii) : bool :=
  (Ascii.leb "0" c && Ascii.leb c "9")%char.

Definition upper_ascii (c : ascii) : ascii :=
  if is_lower c then ascii_of_nat (nat_of_ascii c - 32) else c.

(** Upper case of the ASCII letters; the other bytes stay. *)
Fixpoint asciiUpperCase (s : string) : string :=
  match s with
  | EmptyString => EmptyString
  | String c s' => String (upper_ascii c) (asciiUpperCase s')
  end.

(** All the bytes of [s] are ASCII characters. *)
Fixpoint isAscii (s : string) : bool :=
  match s with
  | EmptyString => true
  | String c s' => Nat.ltb (nat_of_ascii c) 128 && isAscii s'
  end.

(** [s.startsWith(p)] *)
Definition startsWith (p s : string) : bool := String.prefix p s.

(** [s.includes(p)] *)
Fixpoint includes (p s : string) : bool :=
  String.prefix p s ||
  match s with
  | EmptyString => false
  | String _ s' => includes p s'
  end.

(** [s.split(sep)[0]] for a one-character separator. *)
Fixpoint split_head (sep : ascii) (s : string) : string :=
  match s with
  | EmptyString => EmptyString
  | String c s' =>
      if Ascii.eqb c sep then EmptyString else String c (split_head sep s')
  end.

(** Longest prefix of [s] whose characters satisfy [p], and the rest. *)
Fixpoint span (p : ascii -> bool) (s : string) : string * string :=
  match s with
  | EmptyString => (EmptyString, EmptyString)
  | String c s' =>
      if p c then let '(a, b) := span p s' in (String c a, b)
      else (EmptyString, s)
  end.

Fixpoint string_rev_onto (acc s : string) : string :=
  match s with
  | EmptyString => acc
  | String c s' => string_rev_onto (String c acc) s'
  end.

Definition string_rev (s : string) : string := string_rev_onto EmptyString s.

Fixpoint bytes (l : list nat) : string :=
  match l with
  | [] => EmptyString
  | n :: l' => String (ascii_of_nat n) (bytes l')
  end.

(** The white space and line terminators of ECMAScript, in UTF-8: TAB, LF,
    VT, FF, CR, SP, U+00A0, U+1680, U+2000 to U+200A, U+2028, U+2029,
    U+202F, U+205F, U+3000 and U+FEFF. *)
Definition whiteSpace : list string :=
  map bytes
    [ [9]; [10]; [11]; [12]; [13]; [32]; [194; 160]; [225; 154; 128];
      [226; 128; 128]; [226; 128; 129]; [226; 128; 130]; [226; 128; 131];
      [226; 128; 132]; [226; 128; 133]; [226; 128; 134]; [226; 128; 135];
      [226; 128; 136]; [226; 128; 137]; [226; 128; 138]; [226; 128; 168];
      [226; 128; 169]; [226; 128; 175]; [226; 129; 159]; [227; 128; 128];
      [239; 187; 191] ]%nat.

Fixpoint string_drop (n : nat) (s : string) : string :=
  match n, s with
  | S n', String _ s' => string_drop n' s'
  | _, _ => s
  end.

(** [s] without the leading sequences of [seps]; [fuel] bounds their
    number. *)
Fixpoint strip (seps : list string) (fuel : nat) (s : string) : string :=
  match fuel with
  | O => s
  | S fuel' =>
      match List.find (fun w => String.prefix w s) seps with
      | Some w => strip seps fuel' (string_drop (String.length w) s)
      | None => s
      end
  end.

Definition trimStart (s : string) : string :=
  strip whiteSpace (String.length s) s.

Definition trim (s : string) : string :=
  let r := string_rev (trimStart s) in
  string_rev (strip (map string_rev whiteSpace) (String.length r) r).

(** ** Numeric literals *)

(** Value of a hexadecimal digit, if [c] is one. *)
Definition hex_val (c : ascii) : option Z :=
  let n := Z.of_nat (nat_of_ascii c) in
  if (48 <=? n) && (n <=? 57) then Some (n - 48)
  else if (65 <=? n) && (n <=? 70) then Some (n - 55)
  else if (97 <=? n) && (n <=? 102) then Some (n - 87)
  else None.

(** Value of a string of digits in base [radix], read left to right;
    [None] when a character is not a digit of that base. *)
Fixpoint digits_val (radix : Z) (acc : Z) (s : string) : option Z :=
  match s with
  | EmptyString => Some acc
  | String c s' =>
      match hex_val c with
      | Some d => if d <? radix then digits_val radix (acc * radix + d) s' else None
      | None => None
      end
  end.

Definition decimal_val (s : string) : Z :=
  default 0 (digits_val 10 0 s).

(** [m * 10^e] *)
Definition scale10 (m e : Z) : Q :=
  if 0 <=? e then inject_Z (m * 10 ^ e)
  else Qred (Qmake m (Z.to_pos (10 ^ (- e)))).

(** The optional ExponentPart at the head of [s]: its value and what
    follows it; exponent 0 and [s] itself when there is none. *)
Definition scanExponent (s : string) : Z * string :=
  match s with
  | String c s1 =>
      if (Ascii.eqb c "e" || Ascii.eqb c "E")%char then
        let '(neg, s2) :=
          match s1 with
          | String "-"%char s2 => (true, s2)
          | String "+"%char s2 => (false, s2)
          | _ => (false, s1)
          end in
        let '(ds, rest) := span is_digit s2 in
        if String.eqb ds "" then (0, s)
        else ((if neg then - decimal_val ds else decimal_val ds), rest)
      else (0, s)
  | EmptyString => (0, s)
  end.

(** The longest prefix of [s] that is a StrUnsignedDecimalLiteral:
    its value and the rest of the string. *)
Definition scanUnsignedDecimal (s : string) : option (number * string) :=
  if String.prefix "Infinity" s
  then Some (Infinity false, String.substring 8 (String.length s - 8) s)
  else
    let '(ip, s1) := span is_digit s in
    let '(fp, s2, dotted) :=
      match s1 with
      | String "."%char s1' =>
          let '(fp, s2) := span is_digit s1' in
          if String.eqb ip "" && String.eqb fp "" then (EmptyString, s1, false)
          else (fp, s2, true)
      | _ => (EmptyString, s1, false)
      end in
    if String.eqb ip "" && negb dotted then None
    else
      let '(e, rest) := scanExponent s2 in
      let m := decimal_val (ip +:+ fp) in
      Some (round64 (scale10 m (e - Z.of_nat (String.length fp))), rest).

Definition num_neg (n : number) : number :=
  match n with
  | NaN => NaN
  | Infinity s => Infinity (negb s)
  | Finite q => Finite (Qred (- q))
  end.

(** The longest prefix of [s] that is a StrDecimalLiteral (sign allowed). *)
Definition scanDecimal (s : string) : option (number * string) :=
  match s with
  | String "-"%char s' =>
      match scanUnsignedDecimal s' with
      | Some (n, rest) => Some (num_neg n, rest)
      | None => None
      end
  | String "+"%char s' => scanUnsignedDecimal s'
  | _ => scanUnsignedDecimal s
  end.

(** NonDecimalIntegerLiteral: [0x], [0o] and [0b] literals, unsigned. *)
Definition scanNonDecimal (s : string) : option number :=
  match s with
  | String "0"%char (String c ds) =>
      let radix :=
        if (Ascii.eqb c "x" || Ascii.eqb c "X")%char then Some 16
        else if (Ascii.eqb c "o" || Ascii.eqb c "O")%char then Some 8
        else if (Ascii.eqb c "b" || Ascii.eqb c "B")%char then Some 2
        else None in
      match radix with
      | Some r =>
          if String.eqb ds "" then None
          else option_map (fun z => round64 (inject_Z z)) (digits_val r 0 ds)
      | None => None
      end
  | _ => None
  end.

(** [parseFloat(s)] on a string. *)
Definition parseFloat_str (s : string) : number :=
  match scanDecimal (trimStart s) with
  | Some (n, _) => n
  | None => NaN
  end.

(** ToNumber on a string (StringToNumber): the whole trimmed string has to
    be a numeric literal, and the empty string is zero. *)
Definition StringToNumber (s : string) : number :=
  let t := trim s in
  if String.eqb t "" then ofZ 0
  else
    match scanDecimal t with
    | Some (n, EmptyString) => n
    | _ =>
        match scanNonDecimal t with
        | Some n => n
        | None => NaN
        end
    end.


(** ** Printing integers and dates *)

(** ToString of a number that holds an integer, in decimal. *)
Definition Z_toString (z : Z) : string :=
  NilZero.string_of_int (Z.to_int z).

Fixpoint zeros (n : nat) : string :=
  match n with
  | O => EmptyString
  | S n' => String "0" (zeros n')
  end.

(** The decimal digits of [z >= 0], padded with zeros to [width]. *)
Definition pad (width : nat) (z : Z) : string :=
  let ds := Z_toString z in
  zeros (width - String.length ds) +:+ ds.

(** Day number and time within the day of a time value. *)
Definition Day (t : Z) : Z := t / msPerDay.
Definition TimeWithinDay (t : Z) : Z := t mod msPerDay.

(** Day number of the first day of year [y]. *)
Definition DayFromYear (y : Z) : Z :=
  365 * (y - 1970) + (y - 1969) / 4 - (y - 1901) / 100 + (y - 1601) / 400.

Definition DaysInYear (y : Z) : Z := DayFromYear (y + 1) - DayFromYear y.

(** The year a day number falls in: an estimate from the 400-year cycle of
    146097 days, moved by one year where it is off. *)
Definition YearFromDay (day : Z) : Z :=
  let y := 1970 + (day * 400) / 146097 in
  if day <? DayFromYear y then y - 1
  else if DayFromYear (y + 1) <=? day then y + 1
  else y.

(** Month (1 to 12) and day of the month of the [d]-th day (from 0) of a
    year with [leap] extra days in February. *)
Definition MonthAndDate (d leap : Z) : Z * Z :=
  if d <? 31 then (1, d + 1)
  else if d <? 59 + leap then (2, d - 30)
  else if d <? 90 + leap then (3, d - 58 - leap)
  else if d <? 120 + leap then (4, d - 89 - leap)
  else if d <? 151 + leap then (5, d - 119 - leap)
  else if d <? 181 + leap then (6, d - 150 - leap)
  else if d <? 212 + leap then (7, d - 180 - leap)
  else if d <? 243 + leap then (8, d - 211 - leap)
  else if d <? 273 + leap then (9, d - 242 - leap)
  else if d <? 304 + leap then (10, d - 272 - leap)
  else if d <? 334 + leap then (11, d - 303 - leap)
  else (12, d - 333 - leap).

Definition isoYear (y : Z) : string :=
  if (0 <=? y) && (y <=? 9999) then pad 4 y
  else (if y <? 0 then "-" else "+") +:+ pad 6 (Z.abs y).

(** [d.toISOString()] of a valid date: [YYYY-MM-DDTHH:mm:ss.sssZ] in UTC. *)
Definition toISOString (t : Z) : string :=
  let day := Day t in
  let y := YearFromDay day in
  let '(m, d) := MonthAndDate (day - DayFromYear y) (DaysInYear y - 365) in
  let ms := TimeWithinDay t in
  isoYear y +:+ "-" +:+ pad 2 m +:+ "-" +:+ pad 2 d +:+ "T" +:+
  pad 2 (ms / 3600000) +:+ ":" +:+ pad 2 (ms / 60000 mod 60) +:+ ":" +:+
  pad 2 (ms / 1000 mod 60) +:+ "." +:+ pad 3 (ms mod 1000) +:+ "Z".


(** ** Errors *)

(** A thrown error: its [name] and its [message]. *)
Record exn : Type := mkExn { name : string; message : string }.

Definition Error (msg : string) : exn := mkExn "Error" msg.
Definition TypeError (msg : string) : exn := mkExn "TypeError" msg.
Definition RangeError (msg : string) : exn := mkExn "RangeError" msg.

(** A computation that returns a value or throws. *)
Inductive result (A : Type) : Type :=
| Ok (a : A)
| Throw (e : exn).

Arguments Ok {A} a.
Arguments Throw {A} e.

Definition bind {A B : Type} (r : result A) (k : A -> result B) : result B :=
  match r with
  | Ok a => k a
  | Throw e => Throw e
  end.

Notation "'try!' x ':=' r 'in' k" := (bind r (fun x => k))
  (at level 10, x name, r at level 100, k at level 200).

(** ** Host functions

    What is left to the engine or the machine, or is too large to spell
    out: the text of a number and of a date, the parsing of date strings
    ([new Date(s)], whose accepted formats vary between engines), the offset
    of local time from UTC, in milliseconds, taken to be constant, and the
    Unicode case mapping of [String.prototype.toUpperCase], of which only
    the effect on ASCII text is fixed here. *)

Class Host : Type := {
  Number_toString : number -> string;
  Date_toString : Date -> string;
  Date_parse : string -> Date;
  LocalTZA : Z;
  toUpperCase : string -> string;
  toUpperCase_ascii :
    forall s : string, isAscii s = true -> toUpperCase s = asciiUpperCase s
}.

(** ** Rows

    [sheet_to_json] yields one object per data row, keyed by the column
    headers; reading a key the object lacks yields [undefined]. *)

Abbreviation Row := (gmap string value).

Definition get (row : Row) (key : string) : value :=
  default Undefined (row !! key).

Record Prices : Type := mkPrices {
  gasolinaComum : option number;
  etanol : option number;
  diesel : option number;
  gnv : option number
}.

(** The success object [fetchAndProcessExcel] returns; [sourceUrl] is set
    by the discovery variant only. *)
Record Payload : Type := mkPayload {
  success : bool;
  data : Prices;
  periodStart : string;
  periodEnd : string;
  sourceUrl : option string;
  updatedAt : string
}.

Section Runtime.
Context `{Host}.

(** ToString: [String(v)], which is [v.toString()] wherever the sources
    call that method (never on [null] or [undefined]). *)
Definition ToString (v : value) : string :=
  match v with
  | Undefined => "undefined"
  | Null => "null"
  | Bool true => "true"
  | Bool false => "false"
  | Num n => Number_toString n
  | Str s => s
  | DateV d => Date_toString d
  end.

(** ToNumber; a Date converts to its time value. *)
Definition ToNumber (v : value) : number :=
  match v with
  | Undefined => NaN
  | Null => ofZ 0
  | Bool true => ofZ 1
  | Bool false => ofZ 0
  | Num n => n
  | Str s => StringToNumber s
  | DateV d => getTime d
  end.

(** The global [isNaN(v)] *)
Definition isNaN (v : value) : bool := Number_isNaN (ToNumber v).

(** The global [parseFloat(v)]: the text of [v] is parsed; a number reads
    back from its own text as itself. *)
Definition parseFloat (v : value) : number :=
  match v with
  | Num n => n
  | _ => parseFloat_str (ToString v)
  end.

(** *** [excelDateToJS] and [formatDate] *)

Definition excelDateToJS (serial : value) : Date :=
  match serial with
  | DateV d => d
  | Str s => Date_parse s
  | _ =>
      let utcDays := Math_floor (num_sub (ToNumber serial) (ofZ 25569)) in
      TimeClip (num_mul (num_mul utcDays (ofZ 86400)) (ofZ 1000))
  end.

(** [date] is a Date or [null] ([None]). *)
Definition formatDate (date : option Date) : result string :=
  match date with
  | None => Throw (TypeError "Cannot read properties of null (reading 'toISOString')")
  | Some None => Throw (RangeError "Invalid time value")
  | Some (Some t) => Ok (split_head "T" (toISOString t))
  end.

(** *** The extraction of [fetchAndProcessExcel]

    The statements after [sheet_to_json]; they are the same in the five
    copies of the function. *)

Definition isGuarulhos (row : Row) : bool :=
  let municipio := or_else (get row "MUNICÍPIO") (get row "MUNICIPIO") in
  ToBoolean municipio &&
  String.eqb (toUpperCase (ToString municipio)) "GUARULHOS".

(** [a > b] and [a < b] on Date objects compare the time values. *)
Definition date_gt (a b : Date) : bool := num_lt (getTime b) (getTime a).
Definition date_lt (a b : Date) : bool := num_lt (getTime a) (getTime b).

(** Body of the first [forEach]: [maxDate] is [null] or a Date. *)
Definition maxDate_step (maxDate : option Date) (row : Row) : option Date :=
  let dataFinal := excelDateToJS (get row "DATA FINAL") in
  match maxDate with
  | None => Some dataFinal
  | Some m => if date_gt dataFinal m then Some dataFinal else maxDate
  end.

Definition isLatest (maxDate : Date) (row : Row) : bool :=
  let dataFinal := excelDateToJS (get row "DATA FINAL") in
  num_eq (getTime dataFinal) (getTime maxDate).

Definition minDate_step (minDate : option Date) (row : Row) : option Date :=
  let dataInicial := excelDateToJS (get row "DATA INICIAL") in
  match minDate with
  | None => Some dataInicial
  | Some m => if date_lt dataInicial m then Some dataInicial else minDate
  end.

(** [preco !== null && !isNaN(preco) ? parseFloat(preco) : null] *)
Definition priceOf (preco : value) : option number :=
  if negb (match preco with Null => true | _ => false end) && negb (isNaN preco)
  then Some (parseFloat preco)
  else None.

Definition produtoOf (row : Row) : string :=
  toUpperCase (ToString (or_else (get row "PRODUTO") (Str ""))).

(** Body of the last [forEach]. *)
Definition prices_step (prices : Prices) (row : Row) : Prices :=
  let produto := produtoOf row in
  let preco := get row "PREÇO MÉDIO REVENDA" in
  if includes "GASOLINA COMUM" produto then
    mkPrices (priceOf preco) (etanol prices) (diesel prices) (gnv prices)
  else if includes "ETANOL" produto then
    mkPrices (gasolinaComum prices) (priceOf preco) (diesel prices) (gnv prices)
  else if includes "DIESEL" produto && negb (includes "S10" produto) then
    mkPrices (gasolinaComum prices) (etanol prices) (priceOf preco) (gnv prices)
  else if includes "GNV" produto then
    mkPrices (gasolinaComum prices) (etanol prices) (diesel prices) (priceOf preco)
  else prices.

Definition noPrices : Prices := mkPrices None None None None.

Definition guarulhosData (jsonData : list Row) : list Row :=
  List.filter isGuarulhos jsonData.

(** From the parsed rows to the success object; [url] is the [sourceUrl]
    to report, [now] the time value of the [new Date()] behind
    [updatedAt]. *)
Definition processRows (jsonData : list Row) (url : option string) (now : Z)
  : result Payload :=
  let guarulhos := guarulhosData jsonData in
  if (length guarulhos =? 0)%nat then
    Throw (Error "Nenhum dado encontrado para Guarulhos")
  else
    let maxDate := fold_left maxDate_step guarulhos None in
    match maxDate with
    | None => Throw (TypeError "Cannot read properties of null (reading 'getTime')")
    | Some maxD =>
        let latestData := List.filter (isLatest maxD) guarulhos in
        let minDate := fold_left minDate_step latestData None in
        let prices := fold_left prices_step latestData noPrices in
        try! periodStart := formatDate minDate in
        try! periodEnd := formatDate maxDate in
        Ok (mkPayload true prices periodStart periodEnd url (toISOString now))
    end.

End Runtime.

(** ** Fetching

    What [await fetch(url)] can do: reject (a network failure, or the abort
    the timeout fires), or resolve with a status and a body.  For the
    spreadsheet the body is taken through [XLSX.read] and [sheet_to_json],
    which throw or give the rows. *)

Inductive fetched (A : Type) : Type :=
| Rejected (e : exn)
| Responded (status : Z) (body : A).

Arguments Rejected {A} e.
Arguments Responded {A} status body.

(** [response.ok] *)
Definition ok (status : Z) : bool := (200 <=? status) && (status <=? 299).

Abbreviation Workbook := (result (list Row)).

(** ** Requests and responses *)

Record Request : Type := mkRequest {
  method : string;
  refresh : option string    (* [req.query.refresh] *)
}.

Inductive Body : Type :=
| NoBody                      (* [res.end()] *)
| JsonPayload (p : Payload)
| JsonError (msg : string).   (* [{ success: false, error: msg }] *)

Record Response : Type := mkResponse {
  headers : gmap string string;
  statusCode : Z;
  body : Body
}.

Definition corsHeaders : gmap string string :=
  <["Access-Control-Allow-Headers" := "Content-Type"]>
  (<["Access-Control-Allow-Methods" := "GET, OPTIONS"]>
  (<["Access-Control-Allow-Origin" := "*"]> ∅)).

Definition noStore : string := "no-cache, no-store, must-revalidate".

(** [`s-maxage=${cacheSeconds}, stale-while-revalidate=${swr}`] *)
Definition sMaxAge (cacheSeconds swr : Z) : string :=
  "s-maxage=" +:+ Z_toString cacheSeconds +:+
  ", stale-while-revalidate=" +:+ Z_toString swr.

Definition EXCEL_URL : string :=
  "https://www.gov.br/anp/pt-br/assuntos/precos-e-defesa-da-concorrencia/precos/precos-revenda-e-de-distribuicao-combustiveis/shlp/semanal/semanal-municipio-2024-2025.xlsx".

Section Handlers.
Context `{Host}.

(** [target.setHours(7, 0, 0, 0)]: 07:00 of the local day of [now]. *)
Definition setHours7 (now : Z) : Z :=
  Day (now + LocalTZA) * msPerDay + 7 * 3600000 - LocalTZA.

(** The time value of the next 07:00 local time, as [getSecondsUntil7AM]
    computes [target]; [setDate(getDate() + 1)] moves it one day on. *)
Definition target7AM (now : Z) : Z :=
  let target := setHours7 now in
  if target <=? now then target + msPerDay else target.

(** The fixed-URL [fetchAndProcessExcel] of [mnt_fuel-prices.js],
    [api_fuel-prices.js] and the two copies in [api/api_fuel-prices.js];
    [excel] is what the fetch of [EXCEL_URL] does. *)
Definition fetchAndProcessExcel (excel : fetched Workbook) (now : Z)
  : result Payload :=
  match excel with
  | Rejected e => Throw e
  | Responded status workbook =>
      if negb (ok status) then
        Throw (Error ("Failed to fetch Excel: " +:+ Z_toString status))
      else
        try! jsonData := workbook in
        processRows jsonData None now
  end.

End Handlers.

(** *** [src/mnt_fuel-prices.js] *)
Module Mnt.
Section Mnt.
Context `{Host}.

Definition handler (req : Request) (excel : fetched Workbook) (now : Z)
  : Response :=
  if String.eqb (method req) "OPTIONS" then mkResponse corsHeaders 200 NoBody
  else
    match fetchAndProcessExcel excel now with
    | Ok result => mkResponse corsHeaders 200 (JsonPayload result)
    | Throw error => mkResponse corsHeaders 500 (JsonError (message error))
    end.

End Mnt.
End Mnt.

(** *** [src/api_fuel-prices.js] *)
Module Api.
Section Api.
Context `{Host}.

Definition handler (req : Request) (excel : fetched Workbook) (now : Z)
  : Response :=
  let hs := <["Cache-Control" := "s-maxage=3600, stale-while-revalidate"]> corsHeaders in
  if String.eqb (method req) "OPTIONS" then mkResponse hs 200 NoBody
  else
    match fetchAndProcessExcel excel now with
    | Ok result => mkResponse hs 200 (JsonPayload result)
    | Throw error => mkResponse hs 500 (JsonError (message error))
    end.

End Api.
End Api.

(** *** [src/api/api_fuel-prices.js], first copy

    [now] is the clock at the [new Date()] of [fetchAndProcessExcel],
    [now7] the clock at the one of [getSecondsUntil7AM]. *)
Module ApiApi1.
Section ApiApi1.
Context `{Host}.

Definition getSecondsUntil7AM (now : Z) : Z :=
  Z.max 60 ((target7AM now - now) / 1000).

Definition handler (req : Request) (excel : fetched Workbook) (now now7 : Z)
  : Response :=
  if String.eqb (method req) "OPTIONS" then mkResponse corsHeaders 200 NoBody
  else
    let forceRefresh := bool_decide (refresh req = Some "true") in
    match fetchAndProcessExcel excel now with
    | Ok result =>
        let cacheSeconds := getSecondsUntil7AM now7 in
        let cc := if negb forceRefresh then sMaxAge cacheSeconds 300 else noStore in
        mkResponse (<["Cache-Control" := cc]> corsHeaders) 200 (JsonPayload result)
    | Throw error =>
        mkResponse (<["Cache-Control" := noStore]> corsHeaders) 500
                   (JsonError (message error))
    end.

End ApiApi1.
End ApiApi1.

(** *** [src/api/api_fuel-prices.js], second copy *)
Module ApiApi2.
Section ApiApi2.
Context `{Host}.

Definition getSecondsUntil7AM (now : Z) : Z :=
  let diffMs := target7AM now - now in
  let diffSeconds := diffMs / 1000 in
  Z.max 60 (Z.min diffSeconds 86400).

Definition handler (req : Request) (excel : fetched Workbook) (now now7 : Z)
  : Response :=
  if String.eqb (method req) "OPTIONS" then mkResponse corsHeaders 200 NoBody
  else
    let forceRefresh := bool_decide (refresh req = Some "true") in
    match fetchAndProcessExcel excel now with
    | Ok result =>
        let cacheSeconds := getSecondsUntil7AM now7 in
        let cc := if negb forceRefresh then sMaxAge cacheSeconds 60 else noStore in
        mkResponse (<["Cache-Control" := cc]> corsHeaders) 200 (JsonPayload result)
    | Throw error =>
        mkResponse (<["Cache-Control" := noStore]> corsHeaders) 500
                   (JsonError (message error))
    end.

End ApiApi2.
End ApiApi2.

(** ** Regular expressions

    The two patterns of [findLatestExcelUrl] are built from literal
    characters, [\d], a greedy negated class under a star, and capturing
    groups.  Both carry the flags [g] and [i]: a character of the pattern
    matches a character of the text when their upper-case forms agree. *)

Inductive regex : Type :=
| Eps
| Chr (c : ascii)
| Digit
| StarNot (c : ascii)
| Seq (r1 r2 : regex)
| Group (i : nat) (r : regex).

Declare Scope regex_scope.
Delimit Scope regex_scope with re.
Bind Scope regex_scope with regex.
Infix "·" := Seq (at level 60, right associativity) : regex_scope.

(** The characters of [s], one after the other. *)
Fixpoint lit (s : string) : regex :=
  match s with
  | EmptyString => Eps
  | String c s' => Seq (Chr c) (lit s')
  end.

(** [\d{4}] *)
Definition d4 : regex := (Digit · Digit · Digit · Digit)%re.

Definition same_char (c a : ascii) : bool :=
  Ascii.eqb (upper_ascii c) (upper_ascii a).

Abbreviation Captures := (gmap nat string).

(** Greedy star over a character class: the longest run first, then
    shorter ones, until the continuation [k] accepts the rest. *)
Fixpoint star {R : Type} (p : ascii -> bool) (s : string)
  (k : string -> option R) : option R :=
  match s with
  | String a s' =>
      if p a then
        match star p s' k with
        | Some r => Some r
        | None => k s
        end
      else k s
  | EmptyString => k s
  end.

(** The text [s] lost on the way to its suffix [s']. *)
Definition consumed (s s' : string) : string :=
  String.substring 0 (String.length s - String.length s') s.

(** Backtracking matcher: [rmatch r s caps k] matches [r] at the head of
    [s] and hands the rest of the text and the captures to [k]. *)
Fixpoint rmatch {R : Type} (r : regex) (s : string) (caps : Captures)
  (k : string -> Captures -> option R) : option R :=
  match r with
  | Eps => k s caps
  | Chr c =>
      match s with
      | String a s' => if same_char c a then k s' caps else None
      | EmptyString => None
      end
  | Digit =>
      match s with
      | String a s' => if is_digit a then k s' caps else None
      | EmptyString => None
      end
  | StarNot c => star (fun a => negb (same_char c a)) s (fun s' => k s' caps)
  | Seq r1 r2 => rmatch r1 s caps (fun s' caps' => rmatch r2 s' caps' k)
  | Group i r1 =>
      rmatch r1 s caps (fun s' caps' => k s' (<[i := consumed s s']> caps'))
  end.

(** One attempt of [exec] at the head of [s]: the text after the match and
    the captured groups. *)
Definition exec_at (r : regex) (s : string) : option (string * Captures) :=
  rmatch r s ∅ (fun s' caps => Some (s', caps)).

(** The loop [while ((match = pattern.exec(html)) !== null)] of a global
    pattern that cannot match the empty string: the successive matches,
    each searched from the end of the one before; [skip] counts the
    characters still inside the last match. *)
Fixpoint execAll (r : regex) (s : string) (skip : nat) : list Captures :=
  match s with
  | EmptyString => []
  | String _ s' =>
      match skip with
      | S n => execAll r s' n
      | O =>
          match exec_at r s with
          | Some (rest, caps) =>
              caps :: execAll r s' (String.length s - String.length rest - 1)
          | None => execAll r s' 0
          end
      end
  end.

(** [match[i]] *)
Definition group (caps : Captures) (i : nat) : string :=
  default EmptyString (caps !! i).

(** ** [src/api/fuel-prices.js]: discovery of the latest file *)

Module Discovery.

Definition dquote : ascii := ascii_of_nat 34.

(** The pattern [/href=Q([^Q]*semanal-municipio-(\d{4})-(\d{4})\.xlsx)Q/gi],
    where Q stands for the double quote character. *)
Definition municipioPattern : regex :=
  (lit "href=" · Chr dquote ·
   Group 1 (StarNot dquote · lit "semanal-municipio-" ·
            Group 2 d4 · Chr "-" · Group 3 d4 · lit ".xlsx") ·
   Chr dquote)%re.

(** [/semanal-municipio-(\d{4})-(\d{4})\.xlsx/gi] *)
Definition altPattern : regex :=
  (lit "semanal-municipio-" · Group 1 d4 · Chr "-" · Group 2 d4 · lit ".xlsx")%re.

(** [parseInt(s)] without a radix: leading white space, a sign, then
    hexadecimal digits after [0x] and decimal digits otherwise; the integer
    read is rounded to a number. *)
Definition parseInt (s : string) : number :=
  let t := trimStart s in
  let '(neg, t) :=
    match t with
    | String "-"%char t' => (true, t')
    | String "+"%char t' => (false, t')
    | _ => (false, t)
    end in
  let sign := fun z : Z => if neg then - z else z in
  if String.prefix "0x" t || String.prefix "0X" t then
    let ds := fst (span (fun c => bool_decide (is_Some (hex_val c)))
                        (String.substring 2 (String.length t - 2) t)) in
    if String.eqb ds "" then NaN
    else round64 (inject_Z (sign (default 0 (digits_val 16 0 ds))))
  else
    let ds := fst (span is_digit t) in
    if String.eqb ds "" then NaN else round64 (inject_Z (sign (decimal_val ds))).

Record Candidate : Type := mkCandidate {
  url : string;
  startYear : number;
  endYear : number
}.

Definition shlpDir : string :=
  "https://www.gov.br/anp/pt-br/assuntos/precos-e-defesa-da-concorrencia/precos/precos-revenda-e-de-distribuicao-combustiveis/shlp/semanal/".

Definition hrefCandidate (m : Captures) : Candidate :=
  mkCandidate (group m 1) (parseInt (group m 2)) (parseInt (group m 3)).

Definition altCandidate (m : Captures) : Candidate :=
  mkCandidate
    (shlpDir +:+ "semanal-municipio-" +:+ group m 1 +:+ "-" +:+ group m 2 +:+ ".xlsx")
    (parseInt (group m 1)) (parseInt (group m 2)).

(** [b.endYear - a.endYear || b.startYear - a.startYear] *)
Definition compareFn (a b : Candidate) : number :=
  let d := num_sub (endYear b) (endYear a) in
  if ToBoolean (Num d) then d else num_sub (startYear b) (startYear a).

(** [Array.prototype.sort]: stable; [a] goes before [b] when
    [compareFn(a, b) < 0].  Insertion from the right keeps equal elements
    in their order. *)
Fixpoint insert (cmp : Candidate -> Candidate -> number) (x : Candidate)
  (l : list Candidate) : list Candidate :=
  match l with
  | [] => [x]
  | y :: l' =>
      if num_lt (cmp y x) (ofZ 0) then y :: insert cmp x l' else x :: l
  end.

Definition sort (cmp : Candidate -> Candidate -> number) (l : list Candidate)
  : list Candidate :=
  foldr (insert cmp) [] l.

(** The [matches] array before sorting, from the page text. *)
Definition collect (html : string) : list Candidate :=
  let matches := map hrefCandidate (execAll municipioPattern html 0) in
  if (length matches =? 0)%nat
  then map altCandidate (execAll altPattern html 0)
  else matches.

(** Ensure the URL is absolute. *)
Definition absolute (latestUrl : string) : string :=
  if startsWith "/" latestUrl then "https://www.gov.br" +:+ latestUrl
  else if negb (startsWith "http" latestUrl) then shlpDir +:+ latestUrl
  else latestUrl.

(** [findLatestExcelUrl] from the text of the page on. *)
Definition latestIn (html : string) : result string :=
  let matches := collect html in
  if (length matches =? 0)%nat then
    Throw (Error "No municipality Excel files found on ANP page")
  else
    match sort compareFn matches with
    | [] => Throw (TypeError "Cannot read properties of undefined (reading 'url')")
    | first :: _ => Ok (absolute (url first))
    end.

Definition findLatestExcelUrl (page : fetched string) : result string :=
  match page with
  | Rejected e => Throw e
  | Responded status html =>
      if negb (ok status) then
        Throw (Error ("Failed to fetch ANP page: " +:+ Z_toString status))
      else latestIn html
  end.

Section Discovery.
Context `{Host}.

(** [excel] answers the fetch of the spreadsheet at a given URL. *)
Definition fetchAndProcessExcel (page : fetched string)
  (excel : string -> fetched Workbook) (now : Z) : result Payload :=
  try! excelUrl := findLatestExcelUrl page in
  match excel excelUrl with
  | Rejected e => Throw e
  | Responded status workbook =>
      if negb (ok status) then
        Throw (Error ("Failed to fetch Excel: " +:+ Z_toString status))
      else
        try! jsonData := workbook in
        processRows jsonData (Some excelUrl) now
  end.

Definition getSecondsUntil7AM (now : Z) : Z :=
  Z.max 60 ((target7AM now - now) / 1000).

Definition handler (req : Request) (page : fetched string)
  (excel : string -> fetched Workbook) (now now7 : Z) : Response :=
  if String.eqb (method req) "OPTIONS" then mkResponse corsHeaders 200 NoBody
  else
    let forceRefresh := bool_decide (refresh req = Some "true") in
    match fetchAndProcessExcel page excel now with
    | Ok result =>
        let cacheSeconds := getSecondsUntil7AM now7 in
        let cc := if negb forceRefresh then sMaxAge cacheSeconds 300 else noStore in
        mkResponse (<["Cache-Control" := cc]> corsHeaders) 200 (JsonPayload result)
    | Throw error =>
        mkResponse (<["Cache-Control" := noStore]> corsHeaders) 500
                   (JsonError (message error))
    end.

End Discovery.
End Discovery.


(** ** Vocabulary of the properties *)

Inductive Fuel : Type := GasolinaComum | Etanol | Diesel | Gnv.

#[global] Instance Fuel_eq_dec : EqDecision Fuel.
Proof. solve_decision. Defined.

Definition field (c : Fuel) (p : Prices) : option number :=
  match c with
  | GasolinaComum => gasolinaComum p
  | Etanol => etanol p
  | Diesel => diesel p
  | Gnv => gnv p
  end.

Definition setField (c : Fuel) (v : option number) (p : Prices) : Prices :=
  match c with
  | GasolinaComum => mkPrices v (etanol p) (diesel p) (gnv p)
  | Etanol => mkPrices (gasolinaComum p) v (diesel p) (gnv p)
  | Diesel => mkPrices (gasolinaComum p) (etanol p) v (gnv p)
  | Gnv => mkPrices (gasolinaComum p) (etanol p) (diesel p) v
  end.

(** The categories in their order of priority, each with its test on the
    upper-case product name. *)
Definition priority : list (Fuel * (string -> bool)) :=
  [ (GasolinaComum, includes "GASOLINA COMUM");
    (Etanol, includes "ETANOL");
    (Diesel, fun produto => includes "DIESEL" produto && negb (includes "S10" produto));
    (Gnv, includes "GNV") ].

(** The category of a product name: the first one, in the order of
    priority, whose test the name passes. *)
Definition categoryOf (produto : string) : option Fuel :=
  fst <$> List.find (fun ct => snd ct produto) priority.

(** What a run shows apart from [updatedAt]. *)
Definition observable (r : result Payload)
  : result (bool * Prices * string * string * option string) :=
  match r with
  | Ok p => Ok (success p, data p, periodStart p, periodEnd p, sourceUrl p)
  | Throw e => Throw e
  end.

Definition threw {A : Type} (r : result A) : bool :=
  match r with
  | Ok _ => false
  | Throw _ => true
  end.

(** What a successful match of [r] is: from the text [s] and the captures
    [caps] it leaves the text [s'] and the captures [caps']. *)
Fixpoint matched (r : regex) (s : string) (caps : Captures)
  (s' : string) (caps' : Captures) : Prop :=
  match r with
  | Eps => s' = s /\ caps' = caps
  | Chr c => exists a, s = String a s' /\ same_char c a = true /\ caps' = caps
  | Digit => exists a, s = String a s' /\ is_digit a = true /\ caps' = caps
  | StarNot c =>
      (exists run, s = run +:+ s' /\
                   forallb (fun a => negb (same_char c a)) (list_ascii_of_string run) = true) /\
      caps' = caps
  | Seq r1 r2 =>
      exists s1 caps1, matched r1 s caps s1 caps1 /\ matched r2 s1 caps1 s' caps'
  | Group i r1 =>
      exists caps1, matched r1 s caps s' caps1 /\ caps' = <[i := consumed s s']> caps1
  end.

(** The pattern [r] matches somewhere in [text]: at the head of one of
    its suffixes. *)
Definition occurs (r : regex) (text : string) : Prop :=
  exists before s rest caps, text = before +:+ s /\ matched r s ∅ rest caps.

(** All the characters of [s] are decimal digits. *)
Fixpoint all_digits (s : string) : bool :=
  match s with
  | EmptyString => true
  | String a s' => is_digit a && all_digits s'
  end.

(** The year a number holds, when it holds a whole number. *)
Definition yearOf (n : number) : Z :=
  match n with
  | Finite q => Qfloor q
  | _ => 0
  end.

(** Both years of the candidate are whole numbers, small enough for their
    differences to be exact. *)
Definition wholeYears (c : Discovery.Candidate) : Prop :=
  (Discovery.endYear c = ofZ (yearOf (Discovery.endYear c)) /\
   Discovery.startYear c = ofZ (yearOf (Discovery.startYear c))) /\
  Z.abs (yearOf (Discovery.endYear c)) <= 2 ^ 52 /\
  Z.abs (yearOf (Discovery.startYear c)) <= 2 ^ 52.

(** [c] does not come after [best]: its end year is smaller, or the end
    years are equal and its start year is not greater. *)
Definition notLater (c best : Discovery.Candidate) : Prop :=
  yearOf (Discovery.endYear c) < yearOf (Discovery.endYear best) \/
  (yearOf (Discovery.endYear c) = yearOf (Discovery.endYear best) /\
   yearOf (Discovery.startYear c) <= yearOf (Discovery.startYear best)).

(** The error of an empty selection. *)
Definition noData : exn := Error "Nenhum dado encontrado para Guarulhos".

(** The date part of the ISO text of a time value. *)
Definition isoDate (t : Z) : string := split_head "T" (toISOString t).

Section Vocabulary.
Context `{Host}.

Definition dataFinalOf (row : Row) : Date := excelDateToJS (get row "DATA FINAL").
Definition dataInicialOf (row : Row) : Date := excelDateToJS (get row "DATA INICIAL").
Definition precoOf (row : Row) : value := get row "PREÇO MÉDIO REVENDA".

(** The locality cell the filter reads. *)
Definition municipioOf (row : Row) : value :=
  or_else (get row "MUNICÍPIO") (get row "MUNICIPIO").

(** The row populates the field of category [c]: whatever the prices so
    far, the loop body stores the price of the row there and leaves the
    other fields alone. *)
Definition populates (c : Fuel) (row : Row) : Prop :=
  forall prices : Prices,
    prices_step prices row = setField c (priceOf (precoOf row)) prices.

(** Both dates of the row are valid dates. *)
Definition datesValid (row : Row) : bool :=
  bool_decide (is_Some (dataFinalOf row)) && bool_decide (is_Some (dataInicialOf row)).

(** The row is in the period that ends at [t]. *)
Definition endsAt (t : Z) (row : Row) : bool :=
  bool_decide (dataFinalOf row = Some t).


End Vocabulary.

(** ** A host and sample data to run the definitions on *)

(** Day number of a calendar date. *)
Definition MakeDay (y m d : Z) : Z :=
  let leap := DaysInYear y - 365 in
  let before :=
    match m with
    | 1 => 0 | 2 => 31 | 3 => 59 + leap | 4 => 90 + leap | 5 => 120 + leap
    | 6 => 151 + leap | 7 => 181 + leap | 8 => 212 + leap | 9 => 243 + leap
    | 10 => 273 + leap | 11 => 304 + leap | _ => 334 + leap
    end in
  DayFromYear y + before + d - 1.

(** The date-only ISO form [YYYY-MM-DD], read as UTC midnight. *)
Definition parseIsoDate (s : string) : Date :=
  let y := String.substring 0 4 s in
  let m := String.substring 5 2 s in
  let d := String.substring 8 2 s in
  let t := MakeDay (decimal_val y) (decimal_val m) (decimal_val d) * msPerDay in
  if String.eqb (split_head "T" (toISOString t)) s then Some t else None.

(** The text of a finite number with a terminating decimal expansion of
    moderate size: integer part, then up to [n] fractional digits. *)
Fixpoint fraction_digits (n : nat) (r : Q) : string :=
  match n with
  | O => EmptyString
  | S n' =>
      if Qeq_bool r 0 then EmptyString
      else
        let d := Qfloor (r * 10) in
        Z_toString d +:+ fraction_digits n' (Qred (r * 10 - inject_Z d))
  end.

Definition decimalText (q : Q) : string :=
  let a := Qabs q in
  let i := Qfloor a in
  let f := fraction_digits 20 (Qred (a - inject_Z i)) in
  (if Qle_bool 0 q then "" else "-") +:+ Z_toString i +:+
  (if String.eqb f "" then "" else "." +:+ f).

Definition dayName (w : Z) : string :=
  match w with
  | 0 => "Sun" | 1 => "Mon" | 2 => "Tue" | 3 => "Wed" | 4 => "Thu" | 5 => "Fri"
  | _ => "Sat"
  end.

Definition monthName (m : Z) : string :=
  match m with
  | 1 => "Jan" | 2 => "Feb" | 3 => "Mar" | 4 => "Apr" | 5 => "May" | 6 => "Jun"
  | 7 => "Jul" | 8 => "Aug" | 9 => "Sep" | 10 => "Oct" | 11 => "Nov"
  | _ => "Dec"
  end.

(** [d.toString()] at three hours behind UTC, as in
    [Wed May 08 2024 00:00:00 GMT-0300 (Brasilia Standard Time)]. *)
Definition brasiliaText (d : Date) : string :=
  match d with
  | None => "Invalid Date"
  | Some t =>
      let l := t - 3 * 3600000 in
      let day := Day l in
      let y := YearFromDay day in
      let '(m, dd) := MonthAndDate (day - DayFromYear y) (DaysInYear y - 365) in
      let ms := TimeWithinDay l in
      dayName ((day + 4) mod 7) +:+ " " +:+ monthName m +:+ " " +:+ pad 2 dd +:+ " " +:+
      (if y <? 0 then "-" else "") +:+ pad 4 (Z.abs y) +:+ " " +:+
      pad 2 (ms / 3600000) +:+ ":" +:+ pad 2 (ms / 60000 mod 60) +:+ ":" +:+
      pad 2 (ms / 1000 mod 60) +:+ " GMT-0300 (Brasilia Standard Time)"
  end.

(** A host in the time zone of Brasilia (UTC-3) that reads date strings in
    the ISO date-only form and no other, and maps the case of ASCII letters
    only. *)
Definition sampleHost : Host := {|
  Number_toString := fun n =>
    match n with
    | NaN => "NaN"
    | Infinity false => "Infinity"
    | Infinity true => "-Infinity"
    | Finite q => decimalText q
    end;
  Date_toString := brasiliaText;
  Date_parse := parseIsoDate;
  LocalTZA := - 3 * 3600000;
  toUpperCase := asciiUpperCase;
  toUpperCase_ascii := fun s _ => eq_refl
|}.

Definition mkRow (municipio produto : string) (dataInicial dataFinal preco : value)
  : Row :=
  list_to_map
    [ ("MUNICÍPIO", Str municipio); ("PRODUTO", Str produto);
      ("DATA INICIAL", dataInicial); ("DATA FINAL", dataFinal);
      ("PREÇO MÉDIO REVENDA", preco) ].

(** 2024-04-28, 2024-05-01, 2024-05-05 and 2024-05-08 as time values. *)
Definition may5to8 (produto : string) (preco : value) : Row :=
  mkRow "GUARULHOS" produto (DateV (Some 1714867200000)) (DateV (Some 1715126400000)) preco.

Definition apr28 : Z := 1714262400000.
Definition may01 : Z := 1714521600000.
Definition may05 : Z := 1714867200000.
Definition may08 : Z := 1715126400000.


(** Two weeks of Guarulhos and a row of another town; the later week gives
    its dates as day serials in one row and as text in another. *)
Definition sampleRows : list Row :=
  [ mkRow "GUARULHOS" "GASOLINA COMUM" (DateV (Some apr28)) (DateV (Some may01))
          (Num (Finite (550 # 100)));
    mkRow "SAO PAULO" "ETANOL HIDRATADO" (DateV (Some may05)) (DateV (Some may08))
          (Num (Finite (399 # 100)));
    mkRow "Guarulhos" "GASOLINA COMUM" (DateV (Some may05)) (DateV (Some may08))
          (Num (Finite (579 # 100)));
    mkRow "GUARULHOS" "OLEO DIESEL S10" (Num (ofZ 45417)) (Num (ofZ 45420))
          (Num (Finite (610 # 100)));
    mkRow "GUARULHOS" "OLEO DIESEL" (Str "2024-05-05") (Str "2024-05-08")
          (Str "5.99");
    mkRow "GUARULHOS" "GNV" (DateV (Some may05)) (DateV (Some may08)) Null ].


(** A product name that passes the tests of two categories. *)
Definition blendRow : Row := may5to8 "ETANOL E DIESEL" (Num (Finite (429 # 100))).

Definition dieselRow : Row := may5to8 "OLEO DIESEL" (Num (Finite (599 # 100))).

(** Two rows of common gasoline in the same period, the second without a
    readable price, then a row of diesel. *)
Definition gasolinePriced : Row := may5to8 "GASOLINA COMUM" (Num (Finite (579 # 100))).
Definition gasolineUnpriced : Row := may5to8 "GASOLINA COMUM" (Str "n/d").
Definition duplicateRows : list Row := [gasolinePriced; gasolineUnpriced; dieselRow].

Definition duplicatePayload : Payload :=
  mkPayload true (mkPrices None None (Some (Finite (599 # 100))) None)
            "2024-05-05" "2024-05-08" None "1970-01-01T00:00:00.000Z".

(** A page that lists the file of 2024-2025 before the one of 2025-2026,
    and the same links in the other order. *)
Definition anchor (href : string) : string :=
  "<a href=" +:+ String Discovery.dquote href +:+ String Discovery.dquote ">xlsx</a>".

Definition pageOldFirst : string :=
  anchor "/anp/shlp/semanal/semanal-municipio-2024-2025.xlsx" +:+
  anchor "/anp/shlp/semanal/semanal-municipio-2025-2026.xlsx".

Definition pageNewFirst : string :=
  anchor "/anp/shlp/semanal/semanal-municipio-2025-2026.xlsx" +:+
  anchor "/anp/shlp/semanal/semanal-municipio-2024-2025.xlsx".

(** A row of the locality without date columns, and one whose period start
    is a text that is no date. *)
Definition undatedRow : Row := mkRow "GUARULHOS" "GNV" Undefined Undefined Null.
Definition badStartRow : Row :=
  mkRow "GUARULHOS" "GNV" (Str "n/d") (DateV (Some 1715126400000)) Null.

Definition lowerCaseRow : Row :=
  mkRow "Guarulhos" "GNV" (DateV (Some 1714867200000)) (DateV (Some 1715126400000)) Null.

(** 06:00 in Brasilia on 2024-05-08. *)
Definition sixAM : Z := 1715126400000 + 9 * 3600000.

(** The row has a valid period end. *)
Definition hasDataFinal `{Host} (row : Row) : bool :=
  bool_decide (is_Some (dataFinalOf row)).

(** A row of another town, and a row of the locality whose period end is
    no date. *)
Definition otherTownRow : Row :=
  mkRow "SAO PAULO" "GNV" (DateV (Some 1714867200000)) (DateV (Some 1715126400000))
        (Num (Finite (450 # 100))).
Definition noEndRow : Row :=
  mkRow "GUARULHOS" "ETANOL" (DateV (Some 1714867200000)) (Str "n/d")
        (Num (Finite (399 # 100))).

(** The character [c] does not occur in [s]. *)
Fixpoint lacks (c : ascii) (s : string) : bool :=
  match s with
  | EmptyString => true
  | String a s' => negb (Ascii.eqb a c) && lacks c s'
  end.

(** ** Vocabulary of the links of a page *)

(** The two texts are equal but for the case of their ASCII letters. *)
Definition sameText (a b : string) : bool :=
  String.eqb (asciiUpperCase a) (asciiUpperCase b).

(** Four decimal digits. *)
Definition fourDigits (d : string) : bool :=
  (String.length d =? 4)%nat && all_digits d.

(** The name of the file of the years [d1] to [d2]. *)
Definition fileName (d1 d2 : string) : string :=
  "semanal-municipio-" +:+ d1 +:+ "-" +:+ d2 +:+ ".xlsx".

(** The text of the page names, in any letter case, the file of the years
    [d1] to [d2]. *)
Definition namesFile (html d1 d2 : string) : Prop :=
  fourDigits d1 = true /\ fourDigits d2 = true /\
  exists before name after : string,
    html = before +:+ name +:+ after /\
    sameText name (fileName d1 d2) = true.

(** The text of the page holds a link to the file of the years [d1] to
    [d2]: the letters [href=] in any case, a double quote, the address
    [u], which holds no double quote and ends with the name of the file,
    and a double quote. *)
Definition hrefLink (html u d1 d2 : string) : Prop :=
  fourDigits d1 = true /\ fourDigits d2 = true /\
  lacks Discovery.dquote u = true /\
  (exists pre name : string,
     u = pre +:+ name /\ sameText name (fileName d1 d2) = true) /\
  exists before h after : string,
    html = before +:+ h +:+
           String Discovery.dquote (u +:+ String Discovery.dquote after) /\
    sameText h "href=" = true.

(** The years [d1] to [d2] do not come after the years [e1] to [e2]: the
    end year is smaller, or it is the same and the start year is not
    greater. *)
Definition yearsNotAfter (d1 d2 e1 e2 : string) : Prop :=
  decimal_val d2 < decimal_val e2 \/
  (decimal_val d2 = decimal_val e2 /\ decimal_val d1 <= decimal_val e1).

(** The local time of day of a time value, in milliseconds. *)
Definition localTimeOfDay `{Host} (now : Z) : Z := (now + LocalTZA) mod msPerDay.

(** Noon of 2024-05-08 in UTC. *)
Definition may08noon : Z := 1715126400000 + 12 * 3600000.

(** The answers of the five handlers to one request: [excel] is what the
    fetch of the fixed URL does, [page] and [excelAt] what the fetches of
    the discovery variant do. *)
Definition responses `{Host} (req : Request) (page : fetched string)
  (excelAt : string -> fetched Workbook) (excel : fetched Workbook)
  (now now7 : Z) : list Response :=
  [ Mnt.handler req excel now;
    Api.handler req excel now;
    ApiApi1.handler req excel now now7;
    ApiApi2.handler req excel now now7;
    Discovery.handler req page excelAt now now7 ].

Definition getRequest : Request := mkRequest "GET" None.

(** What the extraction returns on [sampleRows] at time 0, and with the
    source found on [pageOldFirst]; the price read from the text 5.99 is
    the number nearest to it. *)
Definition samplePayload : Payload :=
  mkPayload true
    (mkPrices (Some (Finite (579 # 100))) None (Some (round64 (599 # 100))) None)
    "2024-05-05" "2024-05-08" None "1970-01-01T00:00:00.000Z".

Definition latestUrl2026 : string :=
  "https://www.gov.br/anp/shlp/semanal/semanal-municipio-2025-2026.xlsx".

Definition discoveredPayload : Payload :=
  mkPayload true
    (mkPrices (Some (Finite (579 # 100))) None (Some (round64 (599 # 100))) None)
    "2024-05-05" "2024-05-08" (Some latestUrl2026) "1970-01-01T00:00:00.000Z".

(** A page that names a file in capitals outside any link. *)
Definition plainPage : string :=
  "Arquivo: SEMANAL-MUNICIPIO-2024-2025.XLSX (atualizado)".

Definition candidate2026 : Discovery.Candidate :=
  Discovery.mkCandidate "/anp/shlp/semanal/semanal-municipio-2025-2026.xlsx"
                        (ofZ 2025) (ofZ 2026).

(** A row with both spellings of the locality column. *)
Definition twoColumnsRow : Row :=
  <["MUNICIPIO" := Str "GUARULHOS"]>
    (mkRow "SAO PAULO" "GNV" (DateV (Some 1714867200000)) (DateV (Some 1715126400000)) Null).

(* ===================================================================== *)
(** * Part II. Theorems *)
(* ===================================================================== *)

(** ** Numbers and dates *)

Lemma num_lt_ofZ (a b : Z) : num_lt (ofZ a) (ofZ b) = (a <? b).
Proof.
  unfold num_lt, ofZ, Qcompare, Z.ltb. simpl. rewrite !Z.mul_1_r.
  destruct (a ?= b); reflexivity.
Qed.

Lemma num_eq_ofZ (a b : Z) : num_eq (ofZ a) (ofZ b) = (a =? b).
Proof.
  unfold num_eq, ofZ, Qeq_bool. simpl. rewrite !Z.mul_1_r.
  reflexivity.
Qed.

Lemma Qred_inject_Z (z : Z) : Qred (inject_Z z) = inject_Z z.
Proof.
  unfold Qred, inject_Z.
  pose proof (Z.ggcd_gcd z 1) as Hg.
  pose proof (Z.ggcd_correct_divisors z 1) as Hd.
  destruct (Z.ggcd z 1) as [g [aa bb]]. cbn [fst snd] in *.
  rewrite Z.gcd_1_r in Hg. subst g. destruct Hd as [Ha Hb].
  rewrite Z.mul_1_l in Ha, Hb. subst aa bb. reflexivity.
Qed.

(** *** Rounding of whole numbers

    A whole number up to [2^53] in magnitude is a binary64 value; a larger
    one rounds to a whole number that is no smaller than [2^53], or to an
    infinity. *)

Lemma exponentOf_Z (n : Z) : 0 < n -> exponentOf n 1 = Z.log2 n.
Proof.
  intros Hn. unfold exponentOf. change (Z.log2 1) with 0. rewrite Z.sub_0_r.
  pose proof (Z.log2_nonneg n) as He.
  destruct (Z.leb_spec 0 (Z.log2 n)) as [_|]; [|lia].
  destruct (Z.log2_spec n Hn) as [Hlo _].
  destruct (Z.leb_spec (1 * 2 ^ Z.log2 n) n); [reflexivity | lia].
Qed.

Lemma roundHalfEven_ge (n d : Z) : n / d <= roundHalfEven n d.
Proof.
  unfold roundHalfEven. destruct (2 * (n mod d) ?= d); [|lia..].
  destruct (Z.even (n / d)); lia.
Qed.

Lemma roundHalfEven_multiple (a d : Z) : 0 < d -> roundHalfEven (a * d) d = a.
Proof.
  intros Hd. unfold roundHalfEven.
  rewrite Z.mod_mul, Z.div_mul by lia.
  change (2 * 0) with 0. destruct (Z.compare_spec 0 d); [lia | reflexivity | lia].
Qed.

Lemma roundHalfEven_1 (n : Z) : roundHalfEven n 1 = n.
Proof.
  rewrite <- (Z.mul_1_r n) at 1. by apply roundHalfEven_multiple.
Qed.

Lemma binary64_small (z : Z) : Z.abs z <= 2 ^ 53 -> binary64 z 1 = ofZ z.
Proof.
  intros Hz. unfold binary64.
  destruct (Z.eqb_spec (Z.abs z) 0) as [H0|H0].
  { assert (z = 0) as -> by lia. reflexivity. }
  assert (Hpos : 0 < Z.abs z) by lia.
  rewrite (exponentOf_Z _ Hpos).
  pose proof (Z.log2_nonneg (Z.abs z)) as He.
  destruct (Z.log2_spec _ Hpos) as [Hlo Hhi].
  assert (He53 : Z.log2 (Z.abs z) <= 53).
  { rewrite <- (Z.log2_pow2 53) by lia. by apply Z.log2_le_mono. }
  rewrite Z.max_l by lia.
  set (e := Z.log2 (Z.abs z)) in *.
  assert (Hsgn : Z.sgn z * Z.abs z = z) by (rewrite Z.mul_comm; apply Z.abs_sgn).
  destruct (Z.leb_spec 0 (e - 52)) as [Hu|Hu].
  - assert (He' : e = 52 \/ e = 53) by lia.
    destruct He' as [He'|He']; rewrite He' in *.
    + change (52 - 52) with 0. change (Z.pos 1 * 2 ^ 0) with 1.
      rewrite roundHalfEven_1.
      change (1024 - 0) with 1024.
      destruct (Z.leb_spec (2 ^ 1024) (Z.abs z)) as [Hbig|_].
      { assert (2 ^ 53 < 2 ^ 1024) by (apply Z.pow_lt_mono_r; lia). lia. }
      unfold ofZ. do 2 f_equal. change (2 ^ 0) with 1. rewrite Z.mul_1_r. exact Hsgn.
    + assert (Hz' : Z.abs z = 2 ^ 53) by lia.
      assert (Hcases : z = 2 ^ 53 \/ z = - 2 ^ 53) by lia.
      destruct Hcases as [-> | ->]; vm_compute; reflexivity.
  - set (k := - (e - 52)).
    assert (Hk : 0 < 2 ^ k) by (apply Z.pow_pos_nonneg; lia).
    change (Z.pos 1) with 1. rewrite roundHalfEven_1. fold k.
    unfold ofZ. f_equal. rewrite <- (Qred_inject_Z z). apply Qred_complete.
    unfold Qeq, inject_Z. cbn [Qnum Qden]. rewrite Z2Pos.id by lia. nia.
Qed.

Lemma binary64_large (z B : Z) :
  0 < B <= 2 ^ 53 -> B <= Z.abs z ->
  (exists negative, binary64 z 1 = Infinity negative) \/
  (exists z', binary64 z 1 = ofZ z' /\ B <= Z.abs z').
Proof.
  intros HB Hz.
  destruct (Z.le_gt_cases (Z.abs z) (2 ^ 53)) as [Hsmall|Hbig].
  { right. exists z. split; [by apply binary64_small | exact Hz]. }
  assert (Hpos : 0 < Z.abs z) by lia.
  unfold binary64.
  destruct (Z.eqb_spec (Z.abs z) 0) as [H0|_]; [lia|].
  rewrite (exponentOf_Z _ Hpos).
  destruct (Z.log2_spec _ Hpos) as [Hlo Hhi].
  assert (He53 : 53 <= Z.log2 (Z.abs z)).
  { rewrite <- (Z.log2_pow2 53) by lia. apply Z.log2_le_mono. lia. }
  rewrite Z.max_l by lia.
  set (e := Z.log2 (Z.abs z)) in *.
  destruct (Z.leb_spec 0 (e - 52)) as [_|]; [|lia].
  change (Z.pos 1 * 2 ^ (e - 52)) with (1 * 2 ^ (e - 52)). rewrite Z.mul_1_l.
  set (m := roundHalfEven (Z.abs z) (2 ^ (e - 52))).
  destruct (2 ^ (1024 - (e - 52)) <=? m); [left; by eexists|].
  right. exists (Z.sgn z * (m * 2 ^ (e - 52))). split; [reflexivity|].
  assert (Hu : 0 < 2 ^ (e - 52)) by (apply Z.pow_pos_nonneg; lia).
  assert (Hsplit : 2 ^ e = 2 ^ 52 * 2 ^ (e - 52)).
  { rewrite <- Z.pow_add_r by lia. f_equal. lia. }
  assert (Hm : 2 ^ 52 <= m).
  { etransitivity; [|apply roundHalfEven_ge].
    apply Z.div_le_lower_bound; lia. }
  assert (He : 2 ^ 53 <= 2 ^ e) by (apply Z.pow_le_mono_r; lia).
  assert (Hsg : Z.abs (Z.sgn z) = 1) by lia.
  rewrite Z.abs_mul, Hsg, Z.mul_1_l, Z.abs_eq by nia. nia.
Qed.

Lemma round64_Z (z : Z) : round64 (inject_Z z) = binary64 z 1.
Proof. unfold round64. rewrite Qred_inject_Z. reflexivity. Qed.

Lemma num_sub_binary64 (a b : Z) : num_sub (ofZ a) (ofZ b) = binary64 (a - b) 1.
Proof.
  unfold num_sub, ofZ. rewrite <- round64_Z. unfold round64. do 2 f_equal;
    apply Qred_complete; unfold Qeq, inject_Z, Qminus, Qplus, Qopp; cbn; lia.
Qed.

Lemma num_mul_binary64 (a b : Z) : num_mul (ofZ a) (ofZ b) = binary64 (a * b) 1.
Proof.
  unfold num_mul, ofZ. rewrite <- round64_Z. unfold round64. do 2 f_equal;
    apply Qred_complete; unfold Qeq, inject_Z, Qmult; cbn; lia.
Qed.

Lemma num_sub_ofZ (a b : Z) :
  Z.abs (a - b) <= 2 ^ 53 -> num_sub (ofZ a) (ofZ b) = ofZ (a - b).
Proof. intros Hab. rewrite num_sub_binary64. by apply binary64_small. Qed.

Lemma num_mul_ofZ (a b : Z) :
  Z.abs (a * b) <= 2 ^ 53 -> num_mul (ofZ a) (ofZ b) = ofZ (a * b).
Proof. intros Hab. rewrite num_mul_binary64. by apply binary64_small. Qed.

Lemma TimeClip_ofZ (t : Z) :
  TimeClip (ofZ t) = if Z.abs t <=? 8640000000000000 then Some t else None.
Proof.
  unfold TimeClip, ofZ.
  assert (Habs : Qle_bool (Qabs (inject_Z t)) (inject_Z 8640000000000000)
                 = (Z.abs t <=? 8640000000000000)).
  { unfold Qle_bool, Qabs, inject_Z. cbn [Qnum Qden]. rewrite !Z.mul_1_r. reflexivity. }
  rewrite Habs. destruct (Z.abs t <=? 8640000000000000); [|reflexivity].
  rewrite Qfloor_Z, Qceiling_Z. destruct (Qle_bool 0 (inject_Z t)); reflexivity.
Qed.

(** [new Date(days * 86400 * 1000)] for a whole number of days: the
    products are exact as long as the time value is in the range of a
    Date, and stay out of that range beyond. *)
Lemma days_to_time (days : Z) :
  TimeClip (num_mul (num_mul (ofZ days) (ofZ 86400)) (ofZ 1000)) =
    if Z.abs (days * 86400000) <=? 8640000000000000
    then Some (days * 86400000) else None.
Proof.
  assert (H53 : 2 ^ 53 = 9007199254740992) by reflexivity.
  destruct (Z.le_gt_cases (Z.abs days) 100000000) as [Hin|Hout].
  - rewrite num_mul_ofZ by lia. rewrite num_mul_ofZ by lia.
    rewrite TimeClip_ofZ. replace (days * 86400 * 1000) with (days * 86400000) by lia.
    reflexivity.
  - destruct (Z.leb_spec (Z.abs (days * 86400000)) 8640000000000000) as [|_]; [lia|].
    rewrite num_mul_binary64.
    destruct (binary64_large (days * 86400) 8640000086400) as [[neg ->]|(z1 & -> & H1)];
      [lia | lia | reflexivity |].
    rewrite num_mul_binary64.
    destruct (binary64_large (z1 * 1000) 8640000086400000) as [[neg ->]|(z2 & -> & H2)];
      [lia | lia | reflexivity |].
    rewrite TimeClip_ofZ.
    destruct (Z.leb_spec (Z.abs z2) 8640000000000000); [lia | reflexivity].
Qed.

(** [YearFromDay] is the year of the day: the year starts on or before the
    day and the next year starts after it. *)
Lemma YearFromDay_spec (d : Z) :
  DayFromYear (YearFromDay d) <= d < DayFromYear (YearFromDay d + 1).
Proof.
  unfold YearFromDay.
  set (y := 1970 + d * 400 / 146097).
  assert (Hy : DayFromYear (y - 1) <= d < DayFromYear (y + 2)).
  { unfold y, DayFromYear. Z.to_euclidean_division_equations. lia. }
  destruct (Z.ltb_spec d (DayFromYear y)).
  - replace (y - 1 + 1) with y by lia. lia.
  - destruct (Z.leb_spec (DayFromYear (y + 1)) d).
    + replace (y + 1 + 1) with (y + 2) by lia. lia.
    + lia.
Qed.

Section DateFacts.
Context `{Host}.

Lemma date_gt_valid (a b : Z) : date_gt (Some a) (Some b) = (b <? a).
Proof. unfold date_gt. simpl. apply num_lt_ofZ. Qed.

Lemma date_lt_valid (a b : Z) : date_lt (Some a) (Some b) = (a <? b).
Proof. unfold date_lt. simpl. apply num_lt_ofZ. Qed.

Lemma isLatest_endsAt (t : Z) (row : Row) :
  isLatest (Some t) row = endsAt t row.
Proof.
  unfold isLatest, endsAt, dataFinalOf.
  destruct (excelDateToJS (get row "DATA FINAL")) as [u|]; unfold getTime.
  - rewrite num_eq_ofZ. destruct (Z.eqb_spec u t) as [->|Hne].
    + symmetry. apply bool_decide_eq_true. reflexivity.
    + symmetry. apply bool_decide_eq_false. congruence.
  - symmetry. apply bool_decide_eq_false. discriminate.
Qed.

End DateFacts.

(** ** The latest period *)

Section Period.
Context `{Host}.

(** The first loop from a valid running maximum [m]: the result is the
    largest of [m] and the period ends of the rows. *)
Lemma fold_maxDate_from (l : list Row) :
  forall m : Z,
  Forall (fun row => is_Some (dataFinalOf row)) l ->
  exists M : Z,
    fold_left maxDate_step l (Some (Some m)) = Some (Some M) /\
    m <= M /\
    (M = m \/ exists row, In row l /\ dataFinalOf row = Some M) /\
    (forall row t, In row l -> dataFinalOf row = Some t -> t <= M).
Proof.
  induction l as [|row l IH]; intros m Hv.
  - exists m. cbn [fold_left]. repeat split; [lia | by left | intros ? ? []].
  - inversion Hv as [|? ? [t Ht] Hv']; subst.
    cbn [fold_left]. unfold maxDate_step at 2. fold (dataFinalOf row).
    rewrite Ht, date_gt_valid.
    destruct (Z.ltb_spec m t) as [Hlt|Hge].
    + destruct (IH t Hv') as (M & HM & Hle & Hin & Hall).
      exists M. repeat split; [exact HM | lia | |].
      * right. destruct Hin as [->|(r & Hr & HrM)].
        -- exists row. split; [by left | exact Ht].
        -- exists r. split; [by right | exact HrM].
      * intros r u [<-|Hr] Hu; [rewrite Ht in Hu; injection Hu as <-; lia|].
        eapply Hall; eassumption.
    + destruct (IH m Hv') as (M & HM & Hle & Hin & Hall).
      exists M. repeat split; [exact HM | lia | |].
      * destruct Hin as [->|(r & Hr & HrM)]; [by left|].
        right. exists r. split; [by right | exact HrM].
      * intros r u [<-|Hr] Hu; [rewrite Ht in Hu; injection Hu as <-; lia|].
        eapply Hall; eassumption.
Qed.

(** The first loop over a non-empty list of rows with valid period ends
    yields their maximum. *)
Lemma fold_maxDate_max (l : list Row) :
  l <> [] ->
  Forall (fun row => is_Some (dataFinalOf row)) l ->
  exists M : Z,
    fold_left maxDate_step l None = Some (Some M) /\
    (exists row, In row l /\ dataFinalOf row = Some M) /\
    (forall row t, In row l -> dataFinalOf row = Some t -> t <= M).
Proof.
  destruct l as [|row l]; [congruence|]. intros _ Hv.
  inversion Hv as [|? ? [t Ht] Hv']; subst.
  cbn [fold_left]. unfold maxDate_step at 2. fold (dataFinalOf row). rewrite Ht.
  destruct (fold_maxDate_from l t Hv') as (M & HM & Hle & Hin & Hall).
  exists M. repeat split; [exact HM | |].
  - destruct Hin as [->|(r & Hr & HrM)].
    + exists row. split; [by left | exact Ht].
    + exists r. split; [by right | exact HrM].
  - intros r u [<-|Hr] Hu; [rewrite Ht in Hu; injection Hu as <-; lia|].
    eapply Hall; eassumption.
Qed.

Lemma fold_minDate_from (l : list Row) :
  forall m : Z,
  Forall (fun row => is_Some (dataInicialOf row)) l ->
  exists M : Z,
    fold_left minDate_step l (Some (Some m)) = Some (Some M) /\
    M <= m /\
    (M = m \/ exists row, In row l /\ dataInicialOf row = Some M) /\
    (forall row t, In row l -> dataInicialOf row = Some t -> M <= t).
Proof.
  induction l as [|row l IH]; intros m Hv.
  - exists m. cbn [fold_left]. repeat split; [lia | by left | intros ? ? []].
  - inversion Hv as [|? ? [t Ht] Hv']; subst.
    cbn [fold_left]. unfold minDate_step at 2. fold (dataInicialOf row).
    rewrite Ht, date_lt_valid.
    destruct (Z.ltb_spec t m) as [Hlt|Hge].
    + destruct (IH t Hv') as (M & HM & Hle & Hin & Hall).
      exists M. repeat split; [exact HM | lia | |].
      * right. destruct Hin as [->|(r & Hr & HrM)].
        -- exists row. split; [by left | exact Ht].
        -- exists r. split; [by right | exact HrM].
      * intros r u [<-|Hr] Hu; [rewrite Ht in Hu; injection Hu as <-; lia|].
        eapply Hall; eassumption.
    + destruct (IH m Hv') as (M & HM & Hle & Hin & Hall).
      exists M. repeat split; [exact HM | lia | |].
      * destruct Hin as [->|(r & Hr & HrM)]; [by left|].
        right. exists r. split; [by right | exact HrM].
      * intros r u [<-|Hr] Hu; [rewrite Ht in Hu; injection Hu as <-; lia|].
        eapply Hall; eassumption.
Qed.

Lemma fold_minDate_min (l : list Row) :
  l <> [] ->
  Forall (fun row => is_Some (dataInicialOf row)) l ->
  exists M : Z,
    fold_left minDate_step l None = Some (Some M) /\
    (exists row, In row l /\ dataInicialOf row = Some M) /\
    (forall row t, In row l -> dataInicialOf row = Some t -> M <= t).
Proof.
  destruct l as [|row l]; [congruence|]. intros _ Hv.
  inversion Hv as [|? ? [t Ht] Hv']; subst.
  cbn [fold_left]. unfold minDate_step at 2. fold (dataInicialOf row). rewrite Ht.
  destruct (fold_minDate_from l t Hv') as (M & HM & Hle & Hin & Hall).
  exists M. repeat split; [exact HM | |].
  - destruct Hin as [->|(r & Hr & HrM)].
    + exists row. split; [by left | exact Ht].
    + exists r. split; [by right | exact HrM].
  - intros r u [<-|Hr] Hu; [rewrite Ht in Hu; injection Hu as <-; lia|].
    eapply Hall; eassumption.
Qed.

Lemma filter_all {A : Type} (f : A -> bool) (l : list A) :
  (forall x, In x l -> f x = true) -> List.filter f l = l.
Proof.
  induction l as [|x l IH]; intros Hall; [reflexivity|].
  cbn [List.filter]. rewrite (Hall x) by (by left).
  f_equal. apply IH. intros y Hy. apply Hall. by right.
Qed.

(** [processRows] once the two loops are known to end on valid dates. *)
Lemma processRows_dates (jsonData : list Row) (url : option string) (now M m : Z) :
  guarulhosData jsonData <> [] ->
  fold_left maxDate_step (guarulhosData jsonData) None = Some (Some M) ->
  fold_left minDate_step (List.filter (endsAt M) (guarulhosData jsonData)) None
    = Some (Some m) ->
  processRows jsonData url now =
    Ok (mkPayload true
          (fold_left prices_step (List.filter (endsAt M) (guarulhosData jsonData))
                     noPrices)
          (isoDate m) (isoDate M) url (toISOString now)).
Proof.
  intros Hne Hmax Hmin. unfold processRows.
  destruct (guarulhosData jsonData) as [|r g] eqn:HG; [congruence|].
  cbn [length Nat.eqb]. rewrite Hmax.
  rewrite (List.filter_ext (isLatest (Some M)) (endsAt M) (isLatest_endsAt M)).
  rewrite Hmin. reflexivity.
Qed.

(** Once the running maximum is the Invalid Date it stays so. *)
Lemma fold_maxDate_invalid (l : list Row) :
  fold_left maxDate_step l (Some None) = Some None.
Proof.
  induction l as [|row l IH]; [reflexivity|].
  cbn [fold_left]. unfold maxDate_step at 2.
  replace (date_gt (excelDateToJS (get row "DATA FINAL")) None) with false; [exact IH|].
  unfold date_gt. cbn [getTime num_lt]. reflexivity.
Qed.

Lemma fold_minDate_invalid (l : list Row) :
  fold_left minDate_step l (Some None) = Some None.
Proof.
  induction l as [|row l IH]; [reflexivity|].
  cbn [fold_left]. unfold minDate_step at 2.
  replace (date_lt (excelDateToJS (get row "DATA INICIAL")) None) with false; [exact IH|].
  unfold date_lt. cbn [getTime]. destruct (excelDateToJS _) as [t|]; reflexivity.
Qed.

Lemma date_gt_invalid (m : Z) : date_gt None (Some m) = false.
Proof. reflexivity. Qed.

Lemma date_lt_invalid (m : Z) : date_lt None (Some m) = false.
Proof. reflexivity. Qed.

(** The first loop from a valid running maximum, whatever the rows hold:
    rows without a valid period end are passed over. *)
Lemma fold_maxDate_any (l : list Row) :
  forall m : Z,
  exists M : Z,
    fold_left maxDate_step l (Some (Some m)) = Some (Some M) /\
    m <= M /\
    (M = m \/ exists row, In row l /\ dataFinalOf row = Some M) /\
    (forall row t, In row l -> dataFinalOf row = Some t -> t <= M).
Proof.
  induction l as [|row l IH]; intros m.
  - exists m. cbn [fold_left]. repeat split; [lia | by left | intros ? ? []].
  - cbn [fold_left]. unfold maxDate_step at 2. fold (dataFinalOf row).
    destruct (dataFinalOf row) as [t|] eqn:Ht.
    + rewrite date_gt_valid. destruct (Z.ltb_spec m t) as [Hlt|Hge].
      * destruct (IH t) as (M & HM & Hle & Hin & Hall).
        exists M. repeat split; [exact HM | lia | |].
        -- right. destruct Hin as [->|(r & Hr & HrM)].
           ++ exists row. split; [by left | exact Ht].
           ++ exists r. split; [by right | exact HrM].
        -- intros r u [<-|Hr] Hu; [rewrite Ht in Hu; injection Hu as <-; lia|].
           eapply Hall; eassumption.
      * destruct (IH m) as (M & HM & Hle & Hin & Hall).
        exists M. repeat split; [exact HM | lia | |].
        -- destruct Hin as [->|(r & Hr & HrM)]; [by left|].
           right. exists r. split; [by right | exact HrM].
        -- intros r u [<-|Hr] Hu; [rewrite Ht in Hu; injection Hu as <-; lia|].
           eapply Hall; eassumption.
    + rewrite date_gt_invalid.
      destruct (IH m) as (M & HM & Hle & Hin & Hall).
      exists M. repeat split; [exact HM | lia | |].
      * destruct Hin as [->|(r & Hr & HrM)]; [by left|].
        right. exists r. split; [by right | exact HrM].
      * intros r u [<-|Hr] Hu; [rewrite Ht in Hu; discriminate Hu|].
        eapply Hall; eassumption.
Qed.

Lemma fold_minDate_any (l : list Row) :
  forall m : Z,
  exists M : Z, fold_left minDate_step l (Some (Some m)) = Some (Some M).
Proof.
  induction l as [|row l IH]; intros m; [by exists m|].
  cbn [fold_left]. unfold minDate_step at 2.
  destruct (excelDateToJS (get row "DATA INICIAL")) as [t|].
  - rewrite date_lt_valid. destruct (t <? m); apply IH.
  - rewrite date_lt_invalid. apply IH.
Qed.

Lemma isLatest_invalid (row : Row) : isLatest None row = false.
Proof.
  unfold isLatest. cbn [getTime]. destruct (excelDateToJS _) as [t|]; reflexivity.
Qed.

(** [processRows] once the first loop is done. *)
Lemma processRows_latest (jsonData : list Row) (url : option string) (now : Z)
  (first : Row) (G : list Row) (maxD : Date) :
  guarulhosData jsonData = first :: G ->
  fold_left maxDate_step (first :: G) None = Some maxD ->
  processRows jsonData url now =
    (try! periodStart :=
       formatDate (fold_left minDate_step (List.filter (isLatest maxD) (first :: G)) None) in
     try! periodEnd := formatDate (Some maxD) in
     Ok (mkPayload true
           (fold_left prices_step (List.filter (isLatest maxD) (first :: G)) noPrices)
           periodStart periodEnd url (toISOString now))).
Proof.
  intros HG Hmax. unfold processRows. rewrite HG. cbn [length Nat.eqb].
  rewrite Hmax. reflexivity.
Qed.




End Period.

Section LatestPeriod.
Context `{Host}.


End LatestPeriod.

(** ** Classification of the rows *)

Section Classification.
Context `{Host}.

Lemma categoryOf_chain (produto : string) :
  categoryOf produto =
    if includes "GASOLINA COMUM" produto then Some GasolinaComum
    else if includes "ETANOL" produto then Some Etanol
    else if includes "DIESEL" produto && negb (includes "S10" produto) then Some Diesel
    else if includes "GNV" produto then Some Gnv
    else None.
Proof.
  unfold categoryOf, priority. cbn [List.find snd fst fmap option_fmap option_map].
  destruct (includes "GASOLINA COMUM" produto); [reflexivity|].
  destruct (includes "ETANOL" produto); [reflexivity|].
  destruct (includes "DIESEL" produto && negb (includes "S10" produto)); [reflexivity|].
  destruct (includes "GNV" produto); reflexivity.
Qed.

(** The loop body writes the field of the category of the row, if any. *)
Lemma prices_step_category (prices : Prices) (row : Row) :
  prices_step prices row =
    match categoryOf (produtoOf row) with
    | Some c => setField c (priceOf (precoOf row)) prices
    | None => prices
    end.
Proof.
  rewrite categoryOf_chain. unfold prices_step, precoOf.
  destruct (includes "GASOLINA COMUM" (produtoOf row)); [reflexivity|].
  destruct (includes "ETANOL" (produtoOf row)); [reflexivity|].
  destruct (includes "DIESEL" (produtoOf row) && negb (includes "S10" (produtoOf row)));
    [reflexivity|].
  destruct (includes "GNV" (produtoOf row)); reflexivity.
Qed.

Lemma field_setField (c c' : Fuel) (v : option number) (prices : Prices) :
  field c' (setField c v prices) = if bool_decide (c = c') then v else field c' prices.
Proof. destruct c, c'; reflexivity. Qed.

Lemma prices_step_field (prices : Prices) (row : Row) (c : Fuel) :
  field c (prices_step prices row) =
    if bool_decide (categoryOf (produtoOf row) = Some c)
    then priceOf (precoOf row)
    else field c prices.
Proof.
  rewrite prices_step_category.
  destruct (categoryOf (produtoOf row)) as [c'|].
  - rewrite field_setField.
    destruct (decide (c' = c)) as [->|Hne].
    + rewrite !bool_decide_eq_true_2; reflexivity.
    + rewrite !bool_decide_eq_false_2; congruence.
  - rewrite bool_decide_eq_false_2; [reflexivity | discriminate].
Qed.

(** The last loop: the field of [c] holds the price of the last row of
    category [c]. *)
Lemma fold_prices_last (l2 : list Row) :
  forall (prices : Prices) (c : Fuel),
  Forall (fun r => categoryOf (produtoOf r) <> Some c) l2 ->
  field c (fold_left prices_step l2 prices) = field c prices.
Proof.
  induction l2 as [|r l2 IH]; intros prices c Hno; [reflexivity|].
  inversion Hno as [|? ? Hr Hno']; subst.
  cbn [fold_left]. rewrite (IH _ _ Hno'), prices_step_field.
  rewrite bool_decide_eq_false_2; [reflexivity | exact Hr].
Qed.

End Classification.

Section PriceFields.
Context `{Host}.

(** C10. The loop body writes at most one price field: the field of the
    first category, in the order GASOLINA COMUM, ETANOL, DIESEL without S10,
    GNV, whose test the upper-case product name passes; every other field
    keeps its value, also when the name passes the test of a later
    category. *)
Theorem C10_priority_order (prices : Prices) (row : Row) :
  let produto := produtoOf row in
  categoryOf produto =
    (if includes "GASOLINA COMUM" produto then Some GasolinaComum
     else if includes "ETANOL" produto then Some Etanol
     else if includes "DIESEL" produto && negb (includes "S10" produto) then Some Diesel
     else if includes "GNV" produto then Some Gnv
     else None) /\
  prices_step prices row =
    match categoryOf produto with
    | Some c => setField c (priceOf (precoOf row)) prices
    | None => prices
    end /\
  forall c : Fuel,
    field c (prices_step prices row) =
      if bool_decide (categoryOf produto = Some c)
      then priceOf (precoOf row)
      else field c prices.
Proof.
  intros produto. split; [apply categoryOf_chain|].
  split; [apply prices_step_category|].
  intros c. apply prices_step_field.
Qed.

(** C2, as amended. A row populates the diesel field if and only if its
    upper-case product name contains DIESEL, does not contain S10, and
    contains neither GASOLINA COMUM nor ETANOL, the two categories tried
    before diesel.  A row whose product cell is the text DIESEL S10 leaves
    the diesel field as it was; a row whose product cell is the text DIESEL
    populates it. *)
Theorem C2_diesel_rule (row : Row) :
  let produto := produtoOf row in
  (populates Diesel row <->
     includes "GASOLINA COMUM" produto = false /\
     includes "ETANOL" produto = false /\
     includes "DIESEL" produto = true /\
     includes "S10" produto = false) /\
  (get row "PRODUTO" = Str "DIESEL S10" ->
     forall prices, diesel (prices_step prices row) = diesel prices) /\
  (get row "PRODUTO" = Str "DIESEL" -> populates Diesel row).
Proof.
  intros produto.
  assert (Hcat : populates Diesel row <-> categoryOf produto = Some Diesel).
  { unfold populates. split.
    - intros Hpop.
      set (other := match priceOf (precoOf row) with
                    | Some _ => None
                    | None => Some NaN
                    end).
      assert (Hother : other <> priceOf (precoOf row)).
      { unfold other. destruct (priceOf (precoOf row)); discriminate. }
      specialize (Hpop (mkPrices other other other other)).
      rewrite prices_step_category in Hpop. fold produto in Hpop.
      destruct (categoryOf produto) as [[]|]; [| |reflexivity| |];
        cbn in Hpop; injection Hpop; intros; congruence.
    - intros Hc prices. rewrite prices_step_category. fold produto.
      rewrite Hc. reflexivity. }
  split; [|split].
  - rewrite Hcat, categoryOf_chain.
    destruct (includes "GASOLINA COMUM" produto), (includes "ETANOL" produto),
      (includes "DIESEL" produto), (includes "S10" produto),
      (includes "GNV" produto); cbn; split; try done;
      intros (? & ? & ? & ?); discriminate.
  - intros Hp prices.
    assert (Hprod : produto = "DIESEL S10").
    { unfold produto, produtoOf. rewrite Hp. unfold or_else. cbn [ToBoolean String.eqb negb ToString].
      by rewrite toUpperCase_ascii. }
    pose proof (prices_step_field prices row Diesel) as Hf.
    fold produto in Hf. rewrite Hprod in Hf. exact Hf.
  - intros Hp. apply Hcat.
    assert (Hprod : produto = "DIESEL").
    { unfold produto, produtoOf. rewrite Hp. unfold or_else. cbn [ToBoolean String.eqb negb ToString].
      by rewrite toUpperCase_ascii. }
    rewrite Hprod. reflexivity.
Qed.

(** C7. When the extraction succeeds, and the rows of the latest period
    are [l1], then [row], then [l2], where [row] is of category [c] and no
    row of [l2] is, the field of [c] in the output is the price derived from
    [row]: [null] when the cell of [row] does not parse, whatever the rows
    of [l1] held. *)
Theorem C7_last_row_wins (jsonData : list Row) (url : option string) (now : Z)
  (p : Payload) (maxD : Date) (l1 l2 : list Row) (row : Row) (c : Fuel) :
  processRows jsonData url now = Ok p ->
  fold_left maxDate_step (guarulhosData jsonData) None = Some maxD ->
  List.filter (isLatest maxD) (guarulhosData jsonData) = l1 ++ row :: l2 ->
  categoryOf (produtoOf row) = Some c ->
  forallb (fun r => negb (bool_decide (categoryOf (produtoOf r) = Some c))) l2 = true ->
  field c (data p) = priceOf (precoOf row).
Proof.
  intros Hok Hmax Hlatest Hc Hl2.
  unfold processRows in Hok.
  destruct (length (guarulhosData jsonData) =? 0)%nat; [discriminate|].
  rewrite Hmax, Hlatest in Hok.
  destruct (formatDate (fold_left minDate_step (l1 ++ row :: l2) None)) as [ps|];
    [|discriminate].
  destruct (formatDate (Some maxD)) as [pe|]; [|discriminate].
  cbn [bind] in Hok. injection Hok as <-. cbn [data].
  rewrite fold_left_app. cbn [fold_left].
  rewrite fold_prices_last.
  - rewrite prices_step_field, bool_decide_eq_true_2; [reflexivity | exact Hc].
  - apply List.Forall_forall. intros r Hr.
    rewrite forallb_forall in Hl2. specialize (Hl2 r Hr).
    apply negb_true_iff, bool_decide_eq_false in Hl2. exact Hl2.
Qed.

(** What [priceOf] makes of the usual cells. *)
Lemma priceOf_finite (q : Q) : priceOf (Num (Finite q)) = Some (Finite q).
Proof. reflexivity. Qed.

Lemma priceOf_null : priceOf Null = None.
Proof. reflexivity. Qed.

Lemma priceOf_undefined : priceOf Undefined = None.
Proof. reflexivity. Qed.

Lemma priceOf_not_a_number : priceOf (Num NaN) = None.
Proof. reflexivity. Qed.

(** [priceOf] gives [null] exactly on [null] and on what [isNaN] rejects. *)
Lemma priceOf_null_iff (preco : value) :
  priceOf preco = None <-> preco = Null \/ isNaN preco = true.
Proof.
  unfold priceOf. destruct preco as [| |b|n|s|d].
  - cbn. split; [intros _; by right | done].
  - cbn. split; [intros _; by left | done].
  - destruct (isNaN (Bool b)); cbn; split; try done; try (intros _; by right);
      intros [?|?]; discriminate.
  - destruct (isNaN (Num n)); cbn; split; try done; try (intros _; by right);
      intros [?|?]; discriminate.
  - destruct (isNaN (Str s)); cbn; split; try done; try (intros _; by right);
      intros [?|?]; discriminate.
  - destruct (isNaN (DateV d)); cbn; split; try done; try (intros _; by right);
      intros [?|?]; discriminate.
Qed.

Lemma may5to8_isGuarulhos (produto : string) (preco : value) :
  isGuarulhos (may5to8 produto preco) = true.
Proof.
  unfold isGuarulhos.
  replace (get (may5to8 produto preco) "MUNICÍPIO") with (Str "GUARULHOS")
    by reflexivity.
  cbn [or_else ToBoolean ToString String.eqb negb andb].
  rewrite toUpperCase_ascii by reflexivity. reflexivity.
Qed.

Lemma may5to8_produto (produto : string) (preco : value) :
  isAscii produto = true ->
  produtoOf (may5to8 produto preco) = asciiUpperCase produto.
Proof.
  intros Hascii. unfold produtoOf.
  replace (get (may5to8 produto preco) "PRODUTO") with (Str produto)
    by reflexivity.
  unfold or_else. cbn [ToBoolean].
  destruct (String.eqb_spec produto "") as [->|Hne]; cbn [negb ToString].
  - rewrite toUpperCase_ascii by reflexivity. reflexivity.
  - by rewrite toUpperCase_ascii.
Qed.

(** A single row of the week of 2024-05-05 to 2024-05-08 is the latest
    period by itself. *)
Lemma may5to8_alone (produto : string) (preco : value) (now : Z) :
  processRows [may5to8 produto preco] None now =
    Ok (mkPayload true (prices_step noPrices (may5to8 produto preco))
          "2024-05-05" "2024-05-08" None (toISOString now)).
Proof.
  assert (HG : guarulhosData [may5to8 produto preco] = [may5to8 produto preco]).
  { unfold guarulhosData. cbn [List.filter].
    by rewrite may5to8_isGuarulhos. }
  rewrite (processRows_dates _ None now 1715126400000 1714867200000);
    rewrite ?HG; try reflexivity; discriminate.
Qed.

(** C5, at the input where it fails. A row of the latest period named
    GASOLINA COMUM whose price cell is the empty text: [isNaN] takes the
    empty text for zero and lets it through, [parseFloat] finds no number in
    it, and the field of the output is NaN, not [null]. *)
Theorem C5_empty_text_price_is_NaN :
  isNaN (Str "") = false /\
  parseFloat (Str "") = NaN /\
  exists p : Payload,
    processRows [may5to8 "GASOLINA COMUM" (Str "")] None 0 = Ok p /\
    gasolinaComum (data p) = Some NaN.
Proof.
  split; [reflexivity|]. split; [reflexivity|].
  eexists. split; [apply may5to8_alone|].
  cbn [data]. unfold prices_step.
  rewrite may5to8_produto by reflexivity. reflexivity.
Qed.

End PriceFields.

(** ** The locality filter *)

Section Locality.
Context `{Host}.

Lemma formatDate_not_noData (d : option Date) : formatDate d <> Throw noData.
Proof. destruct d as [[t|]|]; discriminate. Qed.

Lemma processRows_noData_iff (jsonData : list Row) (url : option string) (now : Z) :
  processRows jsonData url now = Throw noData <-> guarulhosData jsonData = [].
Proof.
  unfold processRows. split.
  - destruct (guarulhosData jsonData) as [|r g]; [reflexivity|].
    cbn [length Nat.eqb].
    destruct (fold_left maxDate_step (r :: g) None) as [maxD|]; [|discriminate].
    intros Hthrow. exfalso.
    destruct (formatDate (fold_left minDate_step _ None)) as [ps|e] eqn:Hps;
      cbn [bind] in Hthrow.
    + destruct (formatDate (Some maxD)) as [pe|e] eqn:Hpe; cbn [bind] in Hthrow.
      * discriminate.
      * injection Hthrow as ->. exact (formatDate_not_noData _ Hpe).
    + injection Hthrow as ->. exact (formatDate_not_noData _ Hps).
  - intros ->. reflexivity.
Qed.

(** C3. The extraction throws the error "Nenhum dado encontrado para
    Guarulhos" if and only if no row has a locality cell that is present and
    whose upper-case text is GUARULHOS; the cell is the one of column
    MUNICÍPIO or, when that one is missing or empty, of column MUNICIPIO.
    For a text cell the test is the equality of the upper-case text with
    GUARULHOS, letter by letter without regard to case when the text is
    ASCII.  When the error is thrown there is no success object. *)
Theorem C3_no_data_iff (jsonData : list Row) (url : option string) (now : Z) :
  (processRows jsonData url now = Throw noData <->
     forall row, In row jsonData ->
       ~ (ToBoolean (municipioOf row) = true /\
          toUpperCase (ToString (municipioOf row)) = "GUARULHOS")) /\
  (forall row s, municipioOf row = Str s ->
     (isGuarulhos row = true <-> toUpperCase s = "GUARULHOS")) /\
  (forall row s, municipioOf row = Str s -> isAscii s = true ->
     (isGuarulhos row = true <-> asciiUpperCase s = "GUARULHOS")) /\
  (processRows jsonData url now = Throw noData ->
     forall p, processRows jsonData url now <> Ok p).
Proof.
  assert (Htext : forall row s, municipioOf row = Str s ->
            (isGuarulhos row = true <-> toUpperCase s = "GUARULHOS")).
  { intros row s Hm. unfold isGuarulhos. fold (municipioOf row). rewrite Hm.
    cbn [ToString ToBoolean]. rewrite andb_true_iff, String.eqb_eq, negb_true_iff.
    split; [tauto|]. intros Hs. split; [|exact Hs].
    destruct s; [|reflexivity].
    rewrite toUpperCase_ascii in Hs by reflexivity. discriminate Hs. }
  split; [|split; [exact Htext|split]].
  - rewrite processRows_noData_iff. unfold guarulhosData. split.
    + intros Hnil row Hin [Hb Hs].
      assert (Hg : In row (List.filter isGuarulhos jsonData)).
      { apply filter_In. split; [exact Hin|].
        unfold isGuarulhos. fold (municipioOf row). rewrite Hb, Hs. reflexivity. }
      rewrite Hnil in Hg. destruct Hg.
    + intros Hno.
      destruct (List.filter isGuarulhos jsonData) as [|r g] eqn:HG; [reflexivity|].
      assert (Hr : In r (List.filter isGuarulhos jsonData)) by (rewrite HG; by left).
      apply filter_In in Hr as [Hin Hg]. exfalso. apply (Hno r Hin).
      unfold isGuarulhos in Hg. fold (municipioOf r) in Hg.
      apply andb_true_iff in Hg as [Hb Hs]. split; [exact Hb|].
      by apply String.eqb_eq.
  - intros row s Hm Hascii. rewrite (Htext row s Hm).
    by rewrite toUpperCase_ascii.
  - intros -> p. discriminate.
Qed.

(** The handlers answer an empty selection with status 500 and the
    message of the error. *)
Lemma no_data_response (req : Request) (jsonData : list Row) (now : Z) :
  String.eqb (method req) "OPTIONS" = false ->
  guarulhosData jsonData = [] ->
  Mnt.handler req (Responded 200 (Ok jsonData)) now =
    mkResponse corsHeaders 500 (JsonError "Nenhum dado encontrado para Guarulhos").
Proof.
  intros Hm HG. unfold Mnt.handler, fetchAndProcessExcel. rewrite Hm.
  cbn [ok Z.leb negb andb bind].
  apply processRows_noData_iff with (url := None) (now := now) in HG.
  change (200 <=? 200) with true. change (200 <=? 299) with true.
  cbn [andb negb]. by rewrite HG.
Qed.

End Locality.

(** ** Day serials *)

Section Serials.
Context `{Host}.

(** The numeric branch of [excelDateToJS] after the subtraction: the whole
    days below the difference, scaled to milliseconds. *)
Lemma excelDateToJS_number (n : number) :
  excelDateToJS (Num n) =
    match num_sub n (ofZ 25569) with
    | Finite q =>
        let t := Qfloor q * 86400000 in
        if Z.abs t <=? 8640000000000000 then Some t else None
    | _ => None
    end.
Proof.
  unfold excelDateToJS. cbn [ToNumber].
  destruct (num_sub n (ofZ 25569)) as [|neg|q]; [reflexivity | reflexivity |].
  cbn [Math_floor]. apply days_to_time.
Qed.

(** C6. A numeric serial that is a day count (a whole number) is
    converted by subtracting 25569 days and scaling to milliseconds: the
    time value is (serial - 25569) * 86400000, and the Invalid Date when
    that lies beyond the 8.64e15 milliseconds a Date can hold.  NaN and the
    infinities give the Invalid Date.  A Date is returned as it is and a
    string is parsed by the host. *)
Theorem C6_serial_whole_days :
  (forall z : Z,
     excelDateToJS (Num (ofZ z)) =
       let t := (z - 25569) * 86400000 in
       if Z.abs t <=? 8640000000000000 then Some t else None) /\
  excelDateToJS (Num NaN) = None /\
  (forall negative : bool, excelDateToJS (Num (Infinity negative)) = None) /\
  (forall d : Date, excelDateToJS (DateV d) = d) /\
  (forall s : string, excelDateToJS (Str s) = Date_parse s).
Proof.
  split; [|split; [reflexivity|split; [intros []; reflexivity|split; reflexivity]]].
  intros z. rewrite excelDateToJS_number, num_sub_binary64. cbv zeta.
  assert (H53 : 2 ^ 53 = 9007199254740992) by reflexivity.
  destruct (Z.le_gt_cases (Z.abs (z - 25569)) (2 ^ 53)) as [Hin|Hout].
  - rewrite binary64_small by exact Hin. unfold ofZ. rewrite Qfloor_Z. reflexivity.
  - destruct (Z.leb_spec (Z.abs ((z - 25569) * 86400000)) 8640000000000000) as [|_];
      [lia|].
    destruct (binary64_large (z - 25569) (2 ^ 53)) as [[neg ->]|(z' & -> & Hz')];
      [lia | lia | reflexivity |].
    unfold ofZ. rewrite Qfloor_Z.
    destruct (Z.leb_spec (Z.abs (z' * 86400000)) 8640000000000000); [lia | reflexivity].
Qed.

End Serials.

(** ** Independence from the clock *)

Section Clock.
Context `{Host}.

Lemma processRows_observable (jsonData : list Row) (url : option string)
  (now1 now2 : Z) :
  observable (processRows jsonData url now1) =
  observable (processRows jsonData url now2).
Proof.
  unfold processRows.
  destruct (length (guarulhosData jsonData) =? 0)%nat; [reflexivity|].
  destruct (fold_left maxDate_step (guarulhosData jsonData) None) as [maxD|];
    [|reflexivity].
  destruct (formatDate (fold_left minDate_step _ None)) as [ps|e]; [|reflexivity].
  destruct (formatDate (Some maxD)) as [pe|e]; reflexivity.
Qed.

(** C8. For the same rows, two runs of the extraction at two times of the
    clock agree on everything but [updatedAt]: both throw the same error,
    or both succeed with the same prices, [periodStart] and [periodEnd].
    The same holds from the fetched spreadsheet on, in the fixed-URL
    variants and in the discovery variant. *)
Theorem C8_clock_independent (jsonData : list Row) (url : option string)
  (excel : fetched Workbook) (page : fetched string)
  (excelAt : string -> fetched Workbook) (now1 now2 : Z) :
  observable (processRows jsonData url now1) =
    observable (processRows jsonData url now2) /\
  observable (fetchAndProcessExcel excel now1) =
    observable (fetchAndProcessExcel excel now2) /\
  observable (Discovery.fetchAndProcessExcel page excelAt now1) =
    observable (Discovery.fetchAndProcessExcel page excelAt now2).
Proof.
  split; [apply processRows_observable|]. split.
  - unfold fetchAndProcessExcel. destruct excel as [e|status [rows|e]];
      [reflexivity| |]; destruct (negb (ok status)); try reflexivity.
    cbn [bind]. apply processRows_observable.
  - unfold Discovery.fetchAndProcessExcel.
    destruct (Discovery.findLatestExcelUrl page) as [u|e]; [|reflexivity].
    cbn [bind]. destruct (excelAt u) as [e|status [rows|e]];
      [reflexivity| |]; destruct (negb (ok status)); try reflexivity.
    cbn [bind]. apply processRows_observable.
Qed.

End Clock.

(** ** Cache headers *)

Section Cache.
Context `{Host}.

(** [target7AM now] is the first time after [now] at which the local clock
    shows 07:00:00.000. *)
Lemma target7AM_next (now : Z) :
  now < target7AM now <= now + msPerDay /\
  (target7AM now + LocalTZA) mod msPerDay = 7 * 3600000 /\
  forall t, now < t -> (t + LocalTZA) mod msPerDay = 7 * 3600000 ->
            target7AM now <= t.
Proof.
  unfold target7AM, setHours7, Day, msPerDay.
  pose proof (Z.div_mod (now + LocalTZA) 86400000 ltac:(lia)) as Hdm.
  pose proof (Z.mod_pos_bound (now + LocalTZA) 86400000 ltac:(lia)) as Hb.
  set (d := (now + LocalTZA) / 86400000) in *.
  set (r := (now + LocalTZA) mod 86400000) in *.
  assert (Hmod : forall k, (k * 86400000 + 7 * 3600000) mod 86400000 = 7 * 3600000).
  { intros k. rewrite Z.add_comm, Z.mod_add by lia. reflexivity. }
  assert (Hleast : forall k t, (t + LocalTZA) mod 86400000 = 7 * 3600000 ->
                               t + LocalTZA < k * 86400000 + 7 * 3600000 ->
                               t + LocalTZA <= (k - 1) * 86400000 + 7 * 3600000).
  { intros k t Ht Hlt.
    pose proof (Z.div_mod (t + LocalTZA) 86400000 ltac:(lia)) as Hdt.
    rewrite Ht in Hdt. lia. }
  destruct (Z.leb_spec (d * 86400000 + 7 * 3600000 - LocalTZA) now) as [Hle|Hgt].
  - split; [lia|]. split.
    + replace (d * 86400000 + 7 * 3600000 - LocalTZA + 86400000 + LocalTZA)
        with ((d + 1) * 86400000 + 7 * 3600000) by lia.
      apply Hmod.
    + intros t Hnow Ht.
      destruct (Z.le_gt_cases (d * 86400000 + 7 * 3600000 - LocalTZA + 86400000) t)
        as [|Hlt]; [assumption|].
      pose proof (Hleast (d + 1) t Ht ltac:(lia)). lia.
  - split; [lia|]. split.
    + replace (d * 86400000 + 7 * 3600000 - LocalTZA + LocalTZA)
        with (d * 86400000 + 7 * 3600000) by lia.
      apply Hmod.
    + intros t Hnow Ht.
      destruct (Z.le_gt_cases (d * 86400000 + 7 * 3600000 - LocalTZA) t)
        as [|Hlt]; [assumption|].
      pose proof (Hleast d t Ht ltac:(lia)). lia.
Qed.

Lemma sMaxAge_not_noStore (n swr : Z) : sMaxAge n swr <> noStore.
Proof. unfold sMaxAge, noStore. cbn. discriminate. Qed.

(** C9, as amended. In the handlers of [api/fuel-prices.js] and of the two
    copies of [api/api_fuel-prices.js], a request other than OPTIONS is
    answered with [Cache-Control] set to the no-store directive when the
    refresh was forced or the pipeline threw, and otherwise to
    [s-maxage=N, stale-while-revalidate=S], where N is the number of whole
    seconds until the next 07:00 local time, raised to 60 when smaller and,
    in the second copy, lowered to 86400 when larger.  The two directives
    are different texts.  An OPTIONS request is answered without that
    header.  The handler of [api_fuel-prices.js] always sends
    [s-maxage=3600, stale-while-revalidate] and the one of
    [mnt_fuel-prices.js] never sends the header. *)
Theorem C9_cache_control (req : Request) (page : fetched string)
  (excelAt : string -> fetched Workbook) (excel : fetched Workbook)
  (now now7 : Z) :
  let forced := bool_decide (refresh req = Some "true") in
  let options := String.eqb (method req) "OPTIONS" in
  let secs := (target7AM now7 - now7) / 1000 in
  (now7 < target7AM now7 <= now7 + msPerDay /\
   (target7AM now7 + LocalTZA) mod msPerDay = 7 * 3600000 /\
   forall t, now7 < t -> (t + LocalTZA) mod msPerDay = 7 * 3600000 ->
             target7AM now7 <= t) /\
  headers (Discovery.handler req page excelAt now now7) !! "Cache-Control" =
    (if options then None
     else if forced || threw (Discovery.fetchAndProcessExcel page excelAt now)
          then Some noStore
          else Some (sMaxAge (Z.max 60 secs) 300)) /\
  headers (ApiApi1.handler req excel now now7) !! "Cache-Control" =
    (if options then None
     else if forced || threw (fetchAndProcessExcel excel now)
          then Some noStore
          else Some (sMaxAge (Z.max 60 secs) 300)) /\
  headers (ApiApi2.handler req excel now now7) !! "Cache-Control" =
    (if options then None
     else if forced || threw (fetchAndProcessExcel excel now)
          then Some noStore
          else Some (sMaxAge (Z.max 60 (Z.min secs 86400)) 60)) /\
  headers (Api.handler req excel now) !! "Cache-Control" =
    Some "s-maxage=3600, stale-while-revalidate" /\
  headers (Mnt.handler req excel now) !! "Cache-Control" = None /\
  (forall n swr : Z, sMaxAge n swr <> noStore).
Proof.
  intros forced options secs.
  split; [apply target7AM_next|].
  unfold Discovery.handler, ApiApi1.handler, ApiApi2.handler, Api.handler,
    Mnt.handler, Discovery.getSecondsUntil7AM, ApiApi1.getSecondsUntil7AM,
    ApiApi2.getSecondsUntil7AM.
  fold forced options secs.
  repeat split.
  - destruct options; [reflexivity|].
    destruct (Discovery.fetchAndProcessExcel page excelAt now), forced;
      cbn [headers threw orb negb]; apply lookup_insert_eq.
  - destruct options; [reflexivity|].
    destruct (fetchAndProcessExcel excel now), forced;
      cbn [headers threw orb negb]; apply lookup_insert_eq.
  - destruct options; [reflexivity|].
    destruct (fetchAndProcessExcel excel now), forced;
      cbn [headers threw orb negb]; apply lookup_insert_eq.
  - destruct options; [apply lookup_insert_eq|].
    destruct (fetchAndProcessExcel excel now); apply lookup_insert_eq.
  - destruct options; [reflexivity|].
    destruct (fetchAndProcessExcel excel now); reflexivity.
  - apply sMaxAge_not_noStore.
Qed.

End Cache.

(** ** The regular expression engine *)

Lemma star_sound {R : Type} (p : ascii -> bool) (s : string)
  (k : string -> option R) (res : R) :
  star p s k = Some res ->
  exists run s', s = run +:+ s' /\
                 forallb p (list_ascii_of_string run) = true /\
                 k s' = Some res.
Proof.
  induction s as [|a s IH]; cbn [star].
  - intros Hk. exists EmptyString, EmptyString. by repeat split.
  - destruct (p a) eqn:Hp.
    + destruct (star p s k) as [r|] eqn:Hstar.
      * intros [= <-]. destruct (IH eq_refl) as (run & s' & -> & Hrun & Hk).
        exists (String a run), s'. repeat split; [|exact Hk].
        cbn [list_ascii_of_string forallb]. by rewrite Hp, Hrun.
      * intros Hk. exists EmptyString, (String a s). by repeat split.
    + intros Hk. exists EmptyString, (String a s). by repeat split.
Qed.

(** The star finds a continuation that accepts after some run of the
    class, if there is one. *)
Lemma star_complete {R : Type} (p : ascii -> bool) (run s' : string)
  (k : string -> option R) :
  forallb p (list_ascii_of_string run) = true ->
  is_Some (k s') -> is_Some (star p (run +:+ s') k).
Proof.
  induction run as [|a run IH]; simpl.
  - intros _ Hk. destruct s' as [|b s']; simpl; [exact Hk|].
    destruct (p b); [|exact Hk].
    destruct (star p s' k); [by eexists | exact Hk].
  - intros [Ha Hrun]%andb_true_iff Hk. rewrite Ha.
    destruct (IH Hrun Hk) as [r ->]. by eexists.
Qed.

(** Whatever the matcher accepts is a match. *)
Lemma rmatch_sound {R : Type} (r : regex) :
  forall (s : string) (caps : Captures) (k : string -> Captures -> option R)
         (res : R),
  rmatch r s caps k = Some res ->
  exists s' caps', matched r s caps s' caps' /\ k s' caps' = Some res.
Proof.
  induction r as [|c| |c|r1 IH1 r2 IH2|i r1 IH1]; intros s caps k res;
    cbn [rmatch matched].
  - intros Hk. by exists s, caps.
  - destruct s as [|a s']; [discriminate|].
    destruct (same_char c a) eqn:Hc; [|discriminate].
    intros Hk. exists s', caps. split; [|exact Hk]. by exists a.
  - destruct s as [|a s']; [discriminate|].
    destruct (is_digit a) eqn:Hd; [|discriminate].
    intros Hk. exists s', caps. split; [|exact Hk]. by exists a.
  - intros Hstar. apply star_sound in Hstar as (run & s' & -> & Hrun & Hk).
    exists s', caps. split; [|exact Hk]. split; [by exists run | reflexivity].
  - intros Hm. apply IH1 in Hm as (s1 & caps1 & Hm1 & Hm).
    apply IH2 in Hm as (s' & caps' & Hm2 & Hk).
    exists s', caps'. split; [|exact Hk]. by exists s1, caps1.
  - intros Hm. apply IH1 in Hm as (s' & caps1 & Hm1 & Hk).
    exists s', (<[i := consumed s s']> caps1). split; [|exact Hk].
    by exists caps1.
Qed.

(** The matcher accepts as soon as there is a match that the continuation
    accepts. *)
Lemma rmatch_complete {R : Type} (r : regex) :
  forall (s : string) (caps : Captures) (k : string -> Captures -> option R)
         (s' : string) (caps' : Captures),
  matched r s caps s' caps' -> is_Some (k s' caps') ->
  is_Some (rmatch r s caps k).
Proof.
  induction r as [|c| |c|r1 IH1 r2 IH2|i r1 IH1]; intros s caps k s' caps';
    cbn [rmatch matched].
  - by intros [-> ->].
  - intros (a & -> & Hc & ->) Hk. by rewrite Hc.
  - intros (a & -> & Hd & ->) Hk. by rewrite Hd.
  - intros [(run & -> & Hrun) ->] Hk. by apply star_complete.
  - intros (s1 & caps1 & Hm1 & Hm2) Hk.
    eapply IH1; [exact Hm1|]. eapply IH2; [exact Hm2 | exact Hk].
  - intros (caps1 & Hm1 & ->) Hk.
    eapply IH1; [exact Hm1 | exact Hk].
Qed.

(** Every element of the loop of [exec] is a match at the head of a suffix
    of the text. *)
Lemma execAll_matched (r : regex) (s : string) :
  forall (skip : nat) (caps : Captures),
  In caps (execAll r s skip) ->
  exists before s0 rest, s = before +:+ s0 /\ matched r s0 ∅ rest caps.
Proof.
  induction s as [|a s IH]; intros skip caps; cbn [execAll]; [intros []|].
  assert (Hlater : In caps (execAll r s 0) \/ (exists n, In caps (execAll r s n)) ->
                   exists before s0 rest,
                     String a s = before +:+ s0 /\ matched r s0 ∅ rest caps).
  { intros [Hin|[n Hin]]; apply IH in Hin as (before & s0 & rest & -> & Hm);
      exists (String a before), s0, rest; by split. }
  destruct skip as [|n]; [|intros Hin; apply Hlater; right; by exists n].
  destruct (exec_at r (String a s)) as [[rest caps0]|] eqn:Hex;
    [|intros Hin; apply Hlater; by left].
  intros [<-|Hin]; [|apply Hlater; right; by eexists].
  unfold exec_at in Hex. apply rmatch_sound in Hex as (s' & caps' & Hm & [= <- <-]).
  exists EmptyString, (String a s), s'. by split.
Qed.

(** The loop of [exec] finds a match exactly when the pattern, which needs
    at least one character, occurs in the text. *)
Lemma execAll_nonempty (r : regex) (text : string) :
  (forall rest caps, ~ matched r EmptyString ∅ rest caps) ->
  execAll r text 0 <> [] <-> occurs r text.
Proof.
  intros Hne. split.
  - destruct (execAll r text 0) as [|caps l] eqn:Hex; [congruence|]. intros _.
    destruct (execAll_matched r text 0 caps) as (before & s0 & rest & Ht & Hm);
      [rewrite Hex; by left|].
    by exists before, s0, rest, caps.
  - intros (before & s & rest & caps & -> & Hm).
    induction before as [|a before IH].
    + change (EmptyString +:+ s) with s.
      destruct s as [|a s]; [by apply Hne in Hm|]. cbn [execAll].
      assert (Hex : is_Some (exec_at r (String a s))).
      { unfold exec_at. eapply rmatch_complete; [exact Hm | by eexists]. }
      destruct Hex as [[rest' caps'] ->]. discriminate.
    + change (String a before +:+ s) with (String a (before +:+ s)).
      cbn [execAll].
      destruct (exec_at r (String a (before +:+ s))) as [[rest' caps']|];
        [discriminate | exact IH].
Qed.

Lemma matched_lit_caps (p s s' : string) (caps caps' : Captures) :
  matched (lit p) s caps s' caps' -> caps' = caps.
Proof.
  revert s caps. induction p as [|c p IH]; intros s caps; cbn [lit matched].
  - by intros [_ ->].
  - intros (s1 & caps1 & (a & _ & _ & ->) & Hm). by apply IH in Hm.
Qed.

Lemma consumed_4 (a b c d : ascii) (s' : string) :
  consumed (String a (String b (String c (String d s')))) s' =
  String a (String b (String c (String d EmptyString))).
Proof.
  unfold consumed. cbn [String.length].
  replace (S (S (S (S (String.length s')))) - String.length s')%nat
    with 4%nat by lia.
  cbn. destruct s'; reflexivity.
Qed.

(** A group around [\d{4}] captures four digits. *)
Lemma matched_group_d4 (i : nat) (s s' : string) (caps caps' : Captures) :
  matched (Group i d4) s caps s' caps' ->
  exists ds, caps' = <[i := ds]> caps /\
             String.length ds = 4%nat /\ all_digits ds = true.
Proof.
  unfold d4. cbn [matched].
  intros (caps1 & (s1 & c1 & (a & -> & Ha & ->) &
                   s2 & c2 & (b & -> & Hb & ->) &
                   s3 & c3 & (c & -> & Hc & ->) & (d & -> & Hd & ->)) & ->).
  rewrite consumed_4. eexists. split; [reflexivity|]. split; [reflexivity|].
  cbn [all_digits]. by rewrite Ha, Hb, Hc, Hd.
Qed.

Lemma municipioPattern_groups (s rest : string) (caps : Captures) :
  matched Discovery.municipioPattern s ∅ rest caps ->
  (String.length (group caps 2) = 4%nat /\ all_digits (group caps 2) = true) /\
  (String.length (group caps 3) = 4%nat /\ all_digits (group caps 3) = true).
Proof.
  unfold Discovery.municipioPattern. cbn [matched].
  intros (s1 & c1 & Hhref & s2 & c2 & (a2 & _ & _ & ->) &
          s3 & c3 & (c4 & (s5 & c5 & (_ & ->) & s6 & c6 & Hlit &
                           s7 & c7 & Hg2 & s8 & c8 & (a8 & _ & _ & ->) &
                           s9 & c9 & Hg3 & Hxlsx) & ->) &
          (a10 & _ & _ & ->)).
  apply matched_lit_caps in Hhref as ->.
  apply matched_lit_caps in Hlit as ->.
  apply matched_lit_caps in Hxlsx as ->.
  apply matched_group_d4 in Hg2 as (d2 & -> & Hl2 & Hd2).
  apply matched_group_d4 in Hg3 as (d3 & -> & Hl3 & Hd3).
  unfold group.
  rewrite !(lookup_insert_ne _ 1%nat 2%nat), !(lookup_insert_ne _ 3%nat 2%nat) by done.
  rewrite !(lookup_insert_ne _ 1%nat 3%nat) by done.
  rewrite !lookup_insert_eq. cbn [default]. auto.
Qed.

Lemma altPattern_groups (s rest : string) (caps : Captures) :
  matched Discovery.altPattern s ∅ rest caps ->
  (String.length (group caps 1) = 4%nat /\ all_digits (group caps 1) = true) /\
  (String.length (group caps 2) = 4%nat /\ all_digits (group caps 2) = true).
Proof.
  unfold Discovery.altPattern. cbn [matched].
  intros (s1 & c1 & Hlit & s2 & c2 & Hg1 & s3 & c3 & (a3 & _ & _ & ->) &
          s4 & c4 & Hg2 & Hxlsx).
  apply matched_lit_caps in Hlit as ->.
  apply matched_lit_caps in Hxlsx as ->.
  apply matched_group_d4 in Hg1 as (d1 & -> & Hl1 & Hd1).
  apply matched_group_d4 in Hg2 as (d2 & -> & Hl2 & Hd2).
  unfold group.
  rewrite !(lookup_insert_ne _ 2%nat 1%nat) by done.
  rewrite !lookup_insert_eq. cbn [default]. auto.
Qed.

(** ** Years captured by the patterns *)

Lemma is_digit_cases (a : ascii) :
  is_digit a = true ->
  (a = "0" \/ a = "1" \/ a = "2" \/ a = "3" \/ a = "4" \/
   a = "5" \/ a = "6" \/ a = "7" \/ a = "8" \/ a = "9")%char.
Proof.
  destruct a as [[] [] [] [] [] [] [] []]; cbn; intros Hd;
    try discriminate Hd; tauto.
Qed.

Lemma span_all_digits (s : string) :
  all_digits s = true -> span is_digit s = (s, EmptyString).
Proof.
  induction s as [|a s IH]; cbn [all_digits span]; [reflexivity|].
  intros [Ha Hs]%andb_true_iff. rewrite Ha, (IH Hs). reflexivity.
Qed.

Lemma prefix_letter_digits (c : ascii) (s : string) :
  is_digit c = false -> all_digits s = true ->
  String.prefix (String c EmptyString) s = false.
Proof.
  intros Hc. destruct s as [|b s]; cbn [String.prefix all_digits]; [reflexivity|].
  intros [Hb _]%andb_true_iff.
  destruct (ascii_dec c b) as [->|]; [congruence | reflexivity].
Qed.

Lemma trimStart_digit (a : ascii) (s : string) :
  is_digit a = true -> trimStart (String a s) = String a s.
Proof.
  intros Ha. unfold trimStart. cbn [String.length strip].
  destruct (is_digit_cases a Ha)
    as [->|[->|[->|[->|[->|[->|[->|[->|[->| ->]]]]]]]]]; reflexivity.
Qed.

Lemma hex_val_digit (a : ascii) :
  is_digit a = true -> exists d, hex_val a = Some d /\ 0 <= d <= 9.
Proof.
  intros Ha.
  destruct (is_digit_cases a Ha)
    as [->|[->|[->|[->|[->|[->|[->|[->|[->| ->]]]]]]]]];
    eexists; (split; [vm_compute; reflexivity | lia]).
Qed.

Lemma digits_val_bounds (s : string) :
  forall acc : Z,
  all_digits s = true -> 0 <= acc ->
  exists v, digits_val 10 acc s = Some v /\
            acc * 10 ^ Z.of_nat (String.length s) <= v
              < (acc + 1) * 10 ^ Z.of_nat (String.length s).
Proof.
  induction s as [|a s IH]; intros acc Hs Hacc.
  - exists acc. cbn [digits_val String.length Z.of_nat]. rewrite Z.pow_0_r.
    split; [reflexivity | lia].
  - cbn [all_digits] in Hs. apply andb_true_iff in Hs as [Ha Hs].
    destruct (hex_val_digit a Ha) as (d & Hd & Hrange).
    cbn [digits_val String.length]. rewrite Hd.
    assert (Hlt : (d <? 10) = true) by (apply Z.ltb_lt; lia). rewrite Hlt.
    destruct (IH (acc * 10 + d) Hs ltac:(lia)) as (v & Hv & Hb).
    exists v. split; [exact Hv|].
    rewrite Nat2Z.inj_succ, Z.pow_succ_r by lia.
    pose proof (Z.pow_pos_nonneg 10 (Z.of_nat (String.length s)) ltac:(lia) ltac:(lia)).
    nia.
Qed.

Lemma four_digits_year (ds : string) :
  String.length ds = 4%nat -> all_digits ds = true ->
  0 <= decimal_val ds <= 9999.
Proof.
  intros Hl Hd. unfold decimal_val.
  destruct (digits_val_bounds ds 0 Hd (Z.le_refl 0)) as (v & -> & Hb).
  rewrite Hl in Hb. cbn [default id].
  replace (10 ^ Z.of_nat 4) with 10000 in Hb by reflexivity. lia.
Qed.

(** [parseInt] of four decimal digits is their value. *)
Lemma parseInt_digits (ds : string) :
  String.length ds = 4%nat -> all_digits ds = true ->
  Discovery.parseInt ds = ofZ (decimal_val ds).
Proof.
  intros Hlen Hds. pose proof (four_digits_year ds Hlen Hds) as Hyear.
  assert (Hround : round64 (inject_Z (decimal_val ds)) = ofZ (decimal_val ds)).
  { rewrite round64_Z. apply binary64_small.
    assert (2 ^ 53 = 9007199254740992) by reflexivity. lia. }
  revert Hds Hround. clear Hyear.
  destruct ds as [|a s]; [discriminate Hlen|]. clear Hlen.
  cbn [all_digits]. intros [Ha Hs]%andb_true_iff Hround.
  assert (Hx : String.prefix "x" s = false) by (by apply prefix_letter_digits).
  assert (HX : String.prefix "X" s = false) by (by apply prefix_letter_digits).
  assert (Hspan : span is_digit (String a s) = (String a s, EmptyString)).
  { apply span_all_digits. cbn [all_digits]. by rewrite Ha, Hs. }
  unfold Discovery.parseInt. rewrite (trimStart_digit a s Ha).
  destruct (is_digit_cases a Ha) as [->|[->|[->|[->|[->|[->|[->|[->|[->| ->]]]]]]]]];
    cbn -[span decimal_val round64]; rewrite ?Hx, ?HX; cbn -[span decimal_val round64];
    rewrite Hspan; exact Hround.
Qed.

Lemma yearOf_ofZ (z : Z) : yearOf (ofZ z) = z.
Proof. apply Qfloor_Z. Qed.

(** The candidates collected from a page hold whole years. *)
Lemma collect_wholeYears (html : string) (c : Discovery.Candidate) :
  In c (Discovery.collect html) -> wholeYears c.
Proof.
  unfold Discovery.collect.
  destruct (length (map Discovery.hrefCandidate
                        (execAll Discovery.municipioPattern html 0)) =? 0)%nat.
  - intros (m & <- & Hm)%in_map_iff.
    apply execAll_matched in Hm as (before & s0 & rest & _ & Hm).
    apply altPattern_groups in Hm as [[Hl1 Hd1] [Hl2 Hd2]].
    pose proof (four_digits_year _ Hl1 Hd1). pose proof (four_digits_year _ Hl2 Hd2).
    unfold wholeYears, Discovery.altCandidate.
    cbn [Discovery.endYear Discovery.startYear].
    rewrite !parseInt_digits by assumption.
    rewrite !yearOf_ofZ. change (2 ^ 52) with 4503599627370496. by split; [|lia].
  - intros (m & <- & Hm)%in_map_iff.
    apply execAll_matched in Hm as (before & s0 & rest & _ & Hm).
    apply municipioPattern_groups in Hm as [[Hl2 Hd2] [Hl3 Hd3]].
    pose proof (four_digits_year _ Hl2 Hd2). pose proof (four_digits_year _ Hl3 Hd3).
    unfold wholeYears, Discovery.hrefCandidate.
    cbn [Discovery.endYear Discovery.startYear].
    rewrite !parseInt_digits by assumption.
    rewrite !yearOf_ofZ. change (2 ^ 52) with 4503599627370496. by split; [|lia].
Qed.

(** ** The choice of the latest file *)

Lemma ToBoolean_ofZ (z : Z) : ToBoolean (Num (ofZ z)) = negb (z =? 0).
Proof.
  unfold ToBoolean, ofZ, Qeq_bool. cbn. rewrite Z.mul_1_r. reflexivity.
Qed.

(** On whole years, [compareFn a b < 0] says that [a] is strictly later
    than [b]: it has the greater end year, or the same end year and the
    greater start year. *)
Lemma compareFn_whole (a b : Discovery.Candidate) :
  wholeYears a -> wholeYears b ->
  num_lt (Discovery.compareFn a b) (ofZ 0) = true <-> ~ notLater a b.
Proof.
  intros [[Hea Hsa] [Hae Has]] [[Heb Hsb] [Hbe Hbs]].
  unfold Discovery.compareFn, notLater.
  rewrite Hea, Hsa, Heb, Hsb, !yearOf_ofZ.
  set (ea := yearOf (Discovery.endYear a)) in *.
  set (eb := yearOf (Discovery.endYear b)) in *.
  set (sa := yearOf (Discovery.startYear a)) in *.
  set (sb := yearOf (Discovery.startYear b)) in *.
  assert (H52 : 2 ^ 52 = 4503599627370496) by reflexivity.
  assert (H53 : 2 ^ 53 = 9007199254740992) by reflexivity.
  rewrite !num_sub_ofZ, ToBoolean_ofZ by lia.
  destruct (Z.eqb_spec (eb - ea) 0) as [He|He]; cbn [negb];
    rewrite num_lt_ofZ, Z.ltb_lt; lia.
Qed.

Lemma notLater_refl (a : Discovery.Candidate) : notLater a a.
Proof. unfold notLater. lia. Qed.

Lemma notLater_trans (a b c : Discovery.Candidate) :
  notLater a b -> notLater b c -> notLater a c.
Proof. unfold notLater. lia. Qed.

Lemma notLater_total (a b : Discovery.Candidate) :
  ~ notLater a b -> notLater b a.
Proof. unfold notLater. lia. Qed.

Lemma notLater_antisym (a b : Discovery.Candidate) :
  notLater a b -> notLater b a ->
  yearOf (Discovery.endYear a) = yearOf (Discovery.endYear b) /\
  yearOf (Discovery.startYear a) = yearOf (Discovery.startYear b).
Proof. unfold notLater. lia. Qed.

Lemma classic_notLater (a b : Discovery.Candidate) : notLater a b \/ ~ notLater a b.
Proof. unfold notLater. lia. Qed.

(** The first element of the sorted array is a latest candidate. *)
Lemma sort_head_latest (l : list Discovery.Candidate) :
  l <> [] -> Forall wholeYears l ->
  exists best rest,
    Discovery.sort Discovery.compareFn l = best :: rest /\
    In best l /\
    forall c, In c l -> notLater c best.
Proof.
  induction l as [|x l IH]; [congruence|]. intros _ Hw.
  inversion Hw as [|? ? Hx Hl]; subst.
  unfold Discovery.sort. cbn [foldr]. fold (Discovery.sort Discovery.compareFn l).
  destruct l as [|y l'].
  - exists x, []. cbn. split; [reflexivity|]. split; [by left|].
    intros c [<-|[]]. apply notLater_refl.
  - destruct (IH ltac:(discriminate) Hl) as (b & rest & -> & Hb & Hall).
    cbn [Discovery.insert].
    assert (Hwb : wholeYears b).
    { rewrite List.Forall_forall in Hl. by apply Hl. }
    destruct (num_lt (Discovery.compareFn b x) (ofZ 0)) eqn:Hlt.
    + apply compareFn_whole in Hlt; [|assumption..].
      exists b, (Discovery.insert Discovery.compareFn x rest).
      split; [reflexivity|]. split; [by right|].
      intros c [<-|Hc]; [|by apply Hall].
      by apply notLater_total.
    + assert (Hxb : notLater b x).
      { destruct (classic_notLater b x) as [|Hn]; [assumption|].
        apply compareFn_whole in Hn; [congruence|assumption..]. }
      exists x, (b :: rest). split; [reflexivity|]. split; [by left|].
      intros c [<-|Hc]; [apply notLater_refl|].
      eapply notLater_trans; [by apply Hall | exact Hxb].
Qed.

Lemma municipioPattern_not_empty (rest : string) (caps : Captures) :
  ~ matched Discovery.municipioPattern EmptyString ∅ rest caps.
Proof.
  unfold Discovery.municipioPattern. cbn [matched lit].
  intros (s1 & c1 & (s2 & c2 & (a & Heq & _) & _) & _). discriminate Heq.
Qed.

Lemma altPattern_not_empty (rest : string) (caps : Captures) :
  ~ matched Discovery.altPattern EmptyString ∅ rest caps.
Proof.
  unfold Discovery.altPattern. cbn [matched lit].
  intros (s1 & c1 & (s2 & c2 & (a & Heq & _) & _) & _). discriminate Heq.
Qed.

(** ** Texts *)

Lemma append_assoc (a b c : string) : (a +:+ b) +:+ c = a +:+ b +:+ c.
Proof.
  induction a as [|x a IH]; [reflexivity|].
  change (String x ((a +:+ b) +:+ c) = String x (a +:+ b +:+ c)). by rewrite IH.
Qed.

Lemma length_app (a b : string) :
  String.length (a +:+ b) = (String.length a + String.length b)%nat.
Proof.
  induction a as [|x a IH]; [reflexivity|].
  change (S (String.length (a +:+ b)) = S (String.length a + String.length b)).
  by rewrite IH.
Qed.

Lemma substring_prefix (pre s' : string) :
  String.substring 0 (String.length pre) (pre +:+ s') = pre.
Proof.
  induction pre as [|a pre IH].
  - change (EmptyString +:+ s') with s'. destruct s'; reflexivity.
  - change (String a (String.substring 0 (String.length pre) (pre +:+ s')) = String a pre).
    by rewrite IH.
Qed.

Lemma consumed_prefix (pre s' : string) : consumed (pre +:+ s') s' = pre.
Proof.
  unfold consumed. rewrite length_app.
  replace (String.length pre + String.length s' - String.length s')%nat
    with (String.length pre) by lia.
  apply substring_prefix.
Qed.

Lemma lacks_app (c : ascii) (a b : string) :
  lacks c (a +:+ b) = lacks c a && lacks c b.
Proof.
  induction a as [|x a IH]; [reflexivity|].
  change (String x a +:+ b) with (String x (a +:+ b)).
  cbn [lacks]. rewrite IH. by rewrite andb_assoc.
Qed.

Lemma append_cons (x : ascii) (a b : string) : String x a +:+ b = String x (a +:+ b).
Proof. reflexivity. Qed.

(** Texts of equal lengths in front of equal texts are equal. *)
Lemma append_inj_l (a a' b b' : string) :
  String.length a = String.length a' ->
  a +:+ b = a' +:+ b' -> a = a' /\ b = b'.
Proof.
  revert a'. induction a as [|x a IH]; intros [|x' a'] Hlen; try discriminate Hlen.
  - intros Heq. split; [reflexivity | exact Heq].
  - rewrite !append_cons. intros [= -> Heq]. injection Hlen as Hlen.
    destruct (IH a' Hlen Heq) as [-> ->]. by split.
Qed.

Lemma append_inj_r (a a' b b' : string) :
  String.length b = String.length b' ->
  a +:+ b = a' +:+ b' -> a = a' /\ b = b'.
Proof.
  intros Hlen Heq. apply append_inj_l; [|exact Heq].
  apply (f_equal String.length) in Heq. rewrite !length_app in Heq. lia.
Qed.

(** A text is cut in two at any length it has. *)
Lemma split_at (n : nat) (s : string) :
  (n <= String.length s)%nat ->
  exists a b, s = a +:+ b /\ String.length a = n.
Proof.
  revert s. induction n as [|n IH]; intros s Hn.
  - by exists EmptyString, s.
  - destruct s as [|x s]; [cbn in Hn; lia|]. cbn in Hn.
    destruct (IH s ltac:(lia)) as (a & b & -> & Hlen).
    exists (String x a), b. split; [reflexivity|]. cbn [String.length]. by rewrite Hlen.
Qed.

Lemma get_append_l (n : nat) (a b : string) :
  (n < String.length a)%nat -> String.get n (a +:+ b) = String.get n a.
Proof. intros Hn. symmetry. by apply String.append_correct1. Qed.

Lemma get_append_r (n : nat) (a b : string) :
  String.get (String.length a + n) (a +:+ b) = String.get n b.
Proof. rewrite Nat.add_comm. symmetry. apply String.append_correct2. Qed.

Lemma lacks_get (c : ascii) (s : string) (n : nat) :
  lacks c s = true -> String.get n s <> Some c.
Proof.
  revert n. induction s as [|x s IH]; intros n; cbn [lacks]; [by destruct n|].
  intros [Hx Hs]%andb_true_iff. apply negb_true_iff, Ascii.eqb_neq in Hx.
  destruct n as [|n]; cbn [String.get]; [congruence | by apply IH].
Qed.

(** The first occurrence of a character cuts a text in one way. *)
Lemma first_occurrence (c : ascii) (u u' r r' : string) :
  lacks c u = true -> lacks c u' = true ->
  u +:+ String c r = u' +:+ String c r' -> u = u' /\ r = r'.
Proof.
  revert u'. induction u as [|x u IH]; intros [|x' u']; cbn [lacks];
    rewrite ?append_cons.
  - intros _ _ [= ->]. by split.
  - intros _ [Hx _]%andb_true_iff [= <- _].
    apply negb_true_iff, Ascii.eqb_neq in Hx. congruence.
  - intros [Hx _]%andb_true_iff _ [= -> _].
    apply negb_true_iff, Ascii.eqb_neq in Hx. congruence.
  - intros [_ Hu]%andb_true_iff [_ Hu']%andb_true_iff [= -> Heq].
    destruct (IH u' Hu Hu' Heq) as [-> ->]. by split.
Qed.

(** ** Texts compared without regard to case *)

Lemma upper_append (a b : string) :
  asciiUpperCase (a +:+ b) = asciiUpperCase a +:+ asciiUpperCase b.
Proof.
  induction a as [|x a IH]; [reflexivity|].
  rewrite append_cons. cbn [asciiUpperCase]. by rewrite append_cons, IH.
Qed.

Lemma upper_length (a : string) :
  String.length (asciiUpperCase a) = String.length a.
Proof.
  induction a as [|x a IH]; [reflexivity|]. cbn [asciiUpperCase String.length].
  by rewrite IH.
Qed.

Lemma sameText_eq (a b : string) :
  sameText a b = true <-> asciiUpperCase a = asciiUpperCase b.
Proof. unfold sameText. apply String.eqb_eq. Qed.

Lemma sameText_length (a b : string) :
  sameText a b = true -> String.length a = String.length b.
Proof.
  intros Heq%sameText_eq. apply (f_equal String.length) in Heq.
  by rewrite !upper_length in Heq.
Qed.

Lemma sameText_cons (x y : ascii) (a b : string) :
  sameText (String x a) (String y b) = same_char y x && sameText a b.
Proof.
  unfold sameText, same_char. cbn [asciiUpperCase String.eqb].
  by rewrite (Ascii.eqb_sym (upper_ascii y)).
Qed.

Lemma sameText_app (a a' b b' : string) :
  sameText a a' = true -> sameText b b' = true ->
  sameText (a +:+ b) (a' +:+ b') = true.
Proof.
  rewrite !sameText_eq, !upper_append. by intros -> ->.
Qed.

Lemma sameText_app_inv (a b a' b' : string) :
  String.length a = String.length a' ->
  sameText (a +:+ b) (a' +:+ b') = true ->
  sameText a a' = true /\ sameText b b' = true.
Proof.
  intros Hlen. rewrite !sameText_eq, !upper_append. intros Heq.
  apply append_inj_l in Heq; [exact Heq|]. by rewrite !upper_length.
Qed.

(** The character at a place of a text is, but for its case, the one of
    any text that is the same but for case. *)
Lemma sameText_get (a b : string) (n : nat) (x : ascii) :
  sameText a b = true -> String.get n a = Some x ->
  exists y, String.get n b = Some y /\ upper_ascii y = upper_ascii x.
Proof.
  revert b n. induction a as [|z a IH]; intros [|y b] n; try discriminate.
  rewrite sameText_cons. intros [Hc Hs]%andb_true_iff.
  destruct n as [|n]; cbn [String.get].
  - intros [= <-]. exists y. split; [reflexivity|].
    unfold same_char in Hc. by apply Ascii.eqb_eq in Hc.
  - by apply IH.
Qed.

Lemma upper_dquote (a : ascii) :
  upper_ascii a = Discovery.dquote -> a = Discovery.dquote.
Proof.
  destruct a as [[] [] [] [] [] [] [] []]; vm_compute; intros Heq;
    first [reflexivity | discriminate Heq].
Qed.

Lemma upper_digit (a x : ascii) :
  is_digit a = true -> upper_ascii x = upper_ascii a -> x = a.
Proof.
  intros Ha.
  destruct (is_digit_cases a Ha)
    as [->|[->|[->|[->|[->|[->|[->|[->|[->| ->]]]]]]]]];
    destruct x as [[] [] [] [] [] [] [] []]; vm_compute; intros Heq;
    first [reflexivity | discriminate Heq].
Qed.

Lemma upper_digits (d x : string) :
  all_digits d = true -> sameText x d = true -> x = d.
Proof.
  revert x. induction d as [|a d IH]; intros [|y x]; try discriminate; [reflexivity|].
  cbn [all_digits]. intros [Ha Hd]%andb_true_iff.
  rewrite sameText_cons. intros [Hc Hs]%andb_true_iff.
  unfold same_char in Hc. apply Ascii.eqb_eq in Hc.
  f_equal; [apply upper_digit; [exact Ha | by symmetry] | by apply IH].
Qed.

(** A text that is, but for case, a text without double quote has none. *)
Lemma sameText_lacks_dquote (a b : string) :
  lacks Discovery.dquote b = true -> sameText a b = true ->
  lacks Discovery.dquote a = true.
Proof.
  revert b. induction a as [|x a IH]; intros [|y b]; try discriminate; [reflexivity|].
  cbn [lacks]. intros [Hy Hb]%andb_true_iff.
  rewrite sameText_cons. intros [Hc Hs]%andb_true_iff.
  apply andb_true_iff. split; [|by apply (IH b)].
  apply negb_true_iff, Ascii.eqb_neq. intros ->.
  apply negb_true_iff, Ascii.eqb_neq in Hy. apply Hy.
  unfold same_char in Hc. apply Ascii.eqb_eq in Hc.
  apply upper_dquote. rewrite Hc. reflexivity.
Qed.

Lemma all_digits_lacks_dquote (d : string) :
  all_digits d = true -> lacks Discovery.dquote d = true.
Proof.
  induction d as [|a d IH]; [reflexivity|]. cbn [all_digits lacks].
  intros [Ha Hd]%andb_true_iff. rewrite (IH Hd), andb_true_r.
  apply negb_true_iff, Ascii.eqb_neq. intros ->. discriminate Ha.
Qed.

Lemma fourDigits_spec (d : string) :
  fourDigits d = true <-> String.length d = 4%nat /\ all_digits d = true.
Proof.
  unfold fourDigits. by rewrite andb_true_iff, Nat.eqb_eq.
Qed.

Lemma fileName_lacks_dquote (d1 d2 : string) :
  fourDigits d1 = true -> fourDigits d2 = true ->
  lacks Discovery.dquote (fileName d1 d2) = true.
Proof.
  intros [_ H1]%fourDigits_spec [_ H2]%fourDigits_spec. unfold fileName.
  rewrite !lacks_app, (all_digits_lacks_dquote _ H1), (all_digits_lacks_dquote _ H2).
  reflexivity.
Qed.

Lemma fileName_length (d1 d2 : string) :
  fourDigits d1 = true -> fourDigits d2 = true ->
  String.length (fileName d1 d2) = 32%nat.
Proof.
  intros [H1 _]%fourDigits_spec [H2 _]%fourDigits_spec. unfold fileName.
  rewrite !length_app, H1, H2. reflexivity.
Qed.

(** The years are read off a name in one way. *)
Lemma fileName_inj (d1 d2 e1 e2 : string) :
  fourDigits d1 = true -> fourDigits d2 = true ->
  fourDigits e1 = true -> fourDigits e2 = true ->
  sameText (fileName d1 d2) (fileName e1 e2) = true -> d1 = e1 /\ d2 = e2.
Proof.
  intros [L1 D1]%fourDigits_spec [L2 D2]%fourDigits_spec
         [M1 E1]%fourDigits_spec [M2 E2]%fourDigits_spec.
  unfold fileName. intros Hs.
  apply sameText_app_inv in Hs as [_ Hs]; [|reflexivity].
  apply sameText_app_inv in Hs as [H1 Hs]; [|congruence].
  apply sameText_app_inv in Hs as [_ Hs]; [|reflexivity].
  apply sameText_app_inv in Hs as [H2 _]; [|congruence].
  split; by apply upper_digits.
Qed.

(** ** What the patterns match *)

Lemma matched_seq (r1 r2 : regex) (s s' : string) (caps caps' : Captures) :
  matched (r1 · r2) s caps s' caps' <->
  exists s1 caps1, matched r1 s caps s1 caps1 /\ matched r2 s1 caps1 s' caps'.
Proof. reflexivity. Qed.

Lemma matched_chr (c : ascii) (s s' : string) (caps caps' : Captures) :
  matched (Chr c) s caps s' caps' <->
  exists a, s = String a s' /\ same_char c a = true /\ caps' = caps.
Proof. reflexivity. Qed.

Lemma matched_group (i : nat) (r : regex) (s s' : string) (caps caps' : Captures) :
  matched (Group i r) s caps s' caps' <->
  exists caps1, matched r s caps s' caps1 /\ caps' = <[i := consumed s s']> caps1.
Proof. reflexivity. Qed.

Lemma matched_lit (p s s' : string) (caps caps' : Captures) :
  matched (lit p) s caps s' caps' <->
  exists w, s = w +:+ s' /\ sameText w p = true /\ caps' = caps.
Proof.
  revert s caps. induction p as [|c p IH]; intros s caps; cbn [lit matched].
  - split.
    + intros [-> ->]. exists EmptyString. by repeat split.
    + intros (w & -> & Hw & ->). apply sameText_length in Hw.
      destruct w; [by split | discriminate].
  - split.
    + intros (s1 & caps1 & (a & -> & Hc & ->) & Hm).
      apply IH in Hm as (w & -> & Hw & ->).
      exists (String a w). rewrite sameText_cons, Hc, Hw. by repeat split.
    + intros (w & -> & Hw & ->). destruct w as [|a w]; [discriminate|].
      rewrite sameText_cons in Hw. apply andb_true_iff in Hw as [Hc Hw].
      exists (w +:+ s'), caps. split; [by exists a|]. apply IH. by exists w.
Qed.

Lemma matched_d4 (i : nat) (s s' : string) (caps caps' : Captures) :
  matched (Group i d4) s caps s' caps' <->
  exists d, s = d +:+ s' /\ fourDigits d = true /\ caps' = <[i := d]> caps.
Proof.
  split.
  - unfold d4. cbn [matched].
    intros (caps1 & (s1 & c1 & (a & -> & Ha & ->) &
                     s2 & c2 & (b & -> & Hb & ->) &
                     s3 & c3 & (c & -> & Hc & ->) & (d & -> & Hd & ->)) & ->).
    rewrite consumed_4.
    exists (String a (String b (String c (String d EmptyString)))).
    split; [reflexivity|]. split; [|reflexivity].
    unfold fourDigits. cbn [String.length Nat.eqb all_digits andb].
    by rewrite Ha, Hb, Hc, Hd.
  - intros (d & -> & [Hlen Hd]%fourDigits_spec & ->).
    destruct d as [|a [|b [|c [|e [|? ?]]]]]; try discriminate Hlen.
    cbn [all_digits] in Hd.
    apply andb_true_iff in Hd as [Ha Hd]. apply andb_true_iff in Hd as [Hb Hd].
    apply andb_true_iff in Hd as [Hc Hd]. apply andb_true_iff in Hd as [He _].
    rewrite !append_cons. change (EmptyString +:+ s') with s'.
    unfold d4. cbn [matched]. exists caps. split; [|by rewrite consumed_4].
    exists (String b (String c (String e s'))), caps. split; [by exists a|].
    exists (String c (String e s')), caps. split; [by exists b|].
    exists (String e s'), caps. split; [by exists c | by exists e].
Qed.

Lemma same_char_dquote (a : ascii) :
  same_char Discovery.dquote a = Ascii.eqb a Discovery.dquote.
Proof.
  destruct (Ascii.eqb_spec a Discovery.dquote) as [->|Hne]; [reflexivity|].
  unfold same_char. apply Ascii.eqb_neq. intros Heq. apply Hne.
  apply upper_dquote. by rewrite <- Heq.
Qed.

Lemma matched_star (s s' : string) (caps caps' : Captures) :
  matched (StarNot Discovery.dquote) s caps s' caps' <->
  exists run, s = run +:+ s' /\ lacks Discovery.dquote run = true /\ caps' = caps.
Proof.
  assert (Hrun : forall run,
            forallb (fun a => negb (same_char Discovery.dquote a))
                    (list_ascii_of_string run) = lacks Discovery.dquote run).
  { induction run as [|a run IH]; [reflexivity|].
    cbn [list_ascii_of_string forallb lacks]. by rewrite same_char_dquote, IH. }
  cbn [matched]. split.
  - intros [(run & -> & Hr) ->]. exists run. by rewrite <- Hrun.
  - intros (run & -> & Hr & ->). split; [|reflexivity]. exists run. by rewrite Hrun.
Qed.

(** The part of the two patterns that stands for the name of a file. *)
Lemma matched_name (i j : nat) (s s' : string) (caps caps' : Captures) :
  matched (lit "semanal-municipio-" · Group i d4 · Chr "-" · Group j d4 ·
           lit ".xlsx")%re s caps s' caps' <->
  exists name d1 d2,
    s = name +:+ s' /\ sameText name (fileName d1 d2) = true /\
    fourDigits d1 = true /\ fourDigits d2 = true /\
    caps' = <[j := d2]> (<[i := d1]> caps).
Proof.
  split.
  - intros H. apply matched_seq in H as (s1 & c1 & H1 & H).
    apply matched_lit in H1 as (w & -> & Hw & ->).
    apply matched_seq in H as (s2 & c2 & H2 & H).
    apply matched_d4 in H2 as (d1 & -> & Hd1 & ->).
    apply matched_seq in H as (s3 & c3 & H3 & H).
    apply matched_chr in H3 as (m & -> & Hm & ->).
    apply matched_seq in H as (s4 & c4 & H4 & H).
    apply matched_d4 in H4 as (d2 & -> & Hd2 & ->).
    apply matched_lit in H as (x & -> & Hx & ->).
    exists (w +:+ d1 +:+ String m (d2 +:+ x)), d1, d2.
    split; [by rewrite !append_assoc, append_cons, !append_assoc|].
    split; [|by repeat split].
    unfold fileName. apply sameText_app; [exact Hw|].
    apply sameText_app; [apply sameText_eq; reflexivity|].
    change ("-" +:+ d2 +:+ ".xlsx") with (String "-" (d2 +:+ ".xlsx")).
    rewrite sameText_cons, Hm. cbn [andb].
    apply sameText_app; [apply sameText_eq; reflexivity | exact Hx].
  - intros (name & d1 & d2 & -> & Hname & Hd1 & Hd2 & ->).
    pose proof (sameText_length _ _ Hname) as Hlen.
    rewrite (fileName_length _ _ Hd1 Hd2) in Hlen.
    pose proof Hd1 as [L1 D1]%fourDigits_spec. pose proof Hd2 as [L2 D2]%fourDigits_spec.
    destruct (split_at 18 name ltac:(lia)) as (w & n2 & -> & Lw).
    rewrite length_app in Hlen. unfold fileName in Hname.
    apply sameText_app_inv in Hname as [Hw Hname]; [|exact Lw].
    destruct (split_at 4 n2 ltac:(lia)) as (x1 & n3 & -> & Lx1).
    rewrite length_app in Hlen.
    apply sameText_app_inv in Hname as [Hx1 Hname]; [|congruence].
    apply (upper_digits _ _ D1) in Hx1 as ->.
    change ("-" +:+ d2 +:+ ".xlsx") with (String "-" (d2 +:+ ".xlsx")) in Hname.
    destruct n3 as [|m n4]; [discriminate Hname|].
    rewrite sameText_cons in Hname. apply andb_true_iff in Hname as [Hm Hname].
    cbn [String.length] in Hlen.
    destruct (split_at 4 n4 ltac:(lia)) as (x2 & x & -> & Lx2).
    apply sameText_app_inv in Hname as [Hx2 Hx]; [|congruence].
    apply (upper_digits _ _ D2) in Hx2 as ->.
    rewrite !append_assoc, append_cons, !append_assoc.
    apply matched_seq. exists (d1 +:+ String m (d2 +:+ x +:+ s')), caps.
    split; [apply matched_lit; by eexists|].
    apply matched_seq. exists (String m (d2 +:+ x +:+ s')), (<[i := d1]> caps).
    split; [apply matched_d4; by eexists|].
    apply matched_seq. exists (d2 +:+ x +:+ s'), (<[i := d1]> caps).
    split; [by exists m|].
    apply matched_seq. exists (x +:+ s'), (<[j := d2]> (<[i := d1]> caps)).
    split; [apply matched_d4; by eexists|].
    apply matched_lit. by eexists.
Qed.

(** What a match of the pattern anchored on [href] is. *)
Lemma municipioPattern_matched (s rest : string) (caps : Captures) :
  matched Discovery.municipioPattern s ∅ rest caps <->
  exists h u pre name d1 d2,
    s = h +:+ String Discovery.dquote (u +:+ String Discovery.dquote rest) /\
    sameText h "href=" = true /\
    lacks Discovery.dquote u = true /\
    u = pre +:+ name /\ sameText name (fileName d1 d2) = true /\
    fourDigits d1 = true /\ fourDigits d2 = true /\
    caps = <[1%nat := u]> (<[3%nat := d2]> (<[2%nat := d1]> ∅)).
Proof.
  unfold Discovery.municipioPattern. split.
  - intros H. apply matched_seq in H as (s1 & c1 & H1 & H).
    apply matched_lit in H1 as (h & -> & Hh & ->).
    apply matched_seq in H as (s2 & c2 & H2 & H).
    apply matched_chr in H2 as (q1 & -> & Hq1 & ->).
    apply matched_seq in H as (s3 & c3 & H3 & H).
    apply matched_chr in H as (q2 & -> & Hq2 & ->).
    apply matched_group in H3 as (c4 & H3 & ->).
    apply matched_seq in H3 as (s5 & c5 & H5 & H3).
    apply matched_star in H5 as (run & -> & Hrun & ->).
    apply matched_name in H3 as (name & d1 & d2 & -> & Hname & Hd1 & Hd2 & ->).
    rewrite same_char_dquote in Hq1, Hq2.
    apply Ascii.eqb_eq in Hq1 as ->. apply Ascii.eqb_eq in Hq2 as ->.
    exists h, (run +:+ name), run, name, d1, d2.
    rewrite <- append_assoc, consumed_prefix.
    split; [reflexivity|]. split; [exact Hh|]. split; [|by repeat split].
    rewrite lacks_app, Hrun. cbn [andb].
    eapply sameText_lacks_dquote; [|exact Hname]. by apply fileName_lacks_dquote.
  - intros (h & u & pre & name & d1 & d2 & -> & Hh & Hu & -> & Hname & Hd1 & Hd2 & ->).
    rewrite lacks_app in Hu. apply andb_true_iff in Hu as [Hpre _].
    apply matched_seq. eexists _, ∅. split; [apply matched_lit; by eexists|].
    apply matched_seq. eexists _, ∅.
    split; [apply matched_chr; eexists; repeat split; by rewrite same_char_dquote|].
    apply matched_seq.
    exists (String Discovery.dquote rest), (<[1%nat := pre +:+ name]> (<[3%nat := d2]> (<[2%nat := d1]> ∅))).
    split; [|apply matched_chr; eexists; repeat split; by rewrite same_char_dquote].
    apply matched_group. exists (<[3%nat := d2]> (<[2%nat := d1]> ∅)).
    split; [|by rewrite consumed_prefix].
    rewrite append_assoc.
    apply matched_seq. exists (name +:+ String Discovery.dquote rest), ∅.
    split; [apply matched_star; by eexists|].
    apply matched_name. by exists name, d1, d2.
Qed.

(** What a match of the looser pattern is. *)
Lemma altPattern_matched (s rest : string) (caps : Captures) :
  matched Discovery.altPattern s ∅ rest caps <->
  exists name d1 d2,
    s = name +:+ rest /\ sameText name (fileName d1 d2) = true /\
    fourDigits d1 = true /\ fourDigits d2 = true /\
    caps = <[2%nat := d2]> (<[1%nat := d1]> ∅).
Proof. apply matched_name. Qed.

(** ** One match at a place, and no two matches that overlap *)

Lemma get_some (n : nat) (s : string) :
  (n < String.length s)%nat -> exists x, String.get n s = Some x.
Proof.
  revert n. induction s as [|a s IH]; intros n Hn; [cbn in Hn; lia|].
  destruct n as [|n]; [by exists a|]. cbn [String.get]. apply IH. cbn in Hn. lia.
Qed.

Lemma sameText_trans (a b c : string) :
  sameText a b = true -> sameText b c = true -> sameText a c = true.
Proof. rewrite !sameText_eq. congruence. Qed.

Lemma sameText_sym (a b : string) : sameText a b = true -> sameText b a = true.
Proof. rewrite !sameText_eq. congruence. Qed.

Lemma altPattern_one_match (s rest rest' : string) (caps caps' : Captures) :
  matched Discovery.altPattern s ∅ rest caps ->
  matched Discovery.altPattern s ∅ rest' caps' ->
  rest = rest' /\ caps = caps'.
Proof.
  intros (name & d1 & d2 & -> & Hn & Hd1 & Hd2 & ->)%altPattern_matched
         (name' & e1 & e2 & Heq & Hn' & He1 & He2 & ->)%altPattern_matched.
  apply append_inj_l in Heq as [<- <-].
  2:{ rewrite (sameText_length _ _ Hn), (sameText_length _ _ Hn').
      by rewrite !fileName_length. }
  destruct (fileName_inj d1 d2 e1 e2) as [-> ->]; try assumption; [|by split].
  eapply sameText_trans; [apply sameText_sym; exact Hn | exact Hn'].
Qed.

Lemma municipioPattern_one_match (s rest rest' : string) (caps caps' : Captures) :
  matched Discovery.municipioPattern s ∅ rest caps ->
  matched Discovery.municipioPattern s ∅ rest' caps' ->
  rest = rest' /\ caps = caps'.
Proof.
  intros (h & u & pre & name & d1 & d2 & -> & Hh & Hu & Hpre & Hn & Hd1 & Hd2 & ->)
           %municipioPattern_matched
         (h' & u' & pre' & name' & e1 & e2 & Heq & Hh' & Hu' & Hpre' & Hn' & He1 & He2 & ->)
           %municipioPattern_matched.
  apply append_inj_l in Heq as [<- Heq].
  2:{ by rewrite (sameText_length _ _ Hh), (sameText_length _ _ Hh'). }
  injection Heq as Heq.
  apply first_occurrence in Heq as [<- <-]; [|assumption..].
  rewrite Hpre in Hpre'. apply append_inj_r in Hpre' as [_ <-].
  2:{ rewrite (sameText_length _ _ Hn), (sameText_length _ _ Hn').
      by rewrite !fileName_length. }
  destruct (fileName_inj d1 d2 e1 e2) as [-> ->]; try assumption; [|by split].
  eapply sameText_trans; [apply sameText_sym; exact Hn | exact Hn'].
Qed.

(** In the name of a file the letter S stands at the places 0 and 30. *)
Lemma fileName_get_S (d1 d2 : string) (k : nat) (y : ascii) :
  fourDigits d1 = true -> fourDigits d2 = true -> (1 <= k <= 29)%nat ->
  String.get k (fileName d1 d2) = Some y -> upper_ascii y <> "S"%char.
Proof.
  intros [L1 D1]%fourDigits_spec [L2 D2]%fourDigits_spec Hk.
  destruct d1 as [|a1 [|a2 [|a3 [|a4 [|? ?]]]]]; try discriminate L1.
  destruct d2 as [|b1 [|b2 [|b3 [|b4 [|? ?]]]]]; try discriminate L2.
  cbn [all_digits] in D1, D2.
  repeat match goal with H : _ && _ = true |- _ => apply andb_true_iff in H as [? H] end.
  assert (Hdigit : forall a, is_digit a = true -> upper_ascii a <> "S"%char).
  { intros a Ha. destruct (is_digit_cases a Ha)
      as [->|[->|[->|[->|[->|[->|[->|[->|[->| ->]]]]]]]]]; discriminate. }
  unfold fileName. rewrite !append_cons.
  do 30 (destruct k as [|k];
         [first [lia | cbn [String.append String.get]; intros [= <-];
                       first [discriminate | by apply Hdigit]]|]).
  lia.
Qed.

Lemma fileName_get_31 (d1 d2 : string) :
  fourDigits d1 = true -> fourDigits d2 = true ->
  String.get 31 (fileName d1 d2) = Some "x"%char.
Proof.
  intros [L1 D1]%fourDigits_spec [L2 D2]%fourDigits_spec.
  destruct d1 as [|a1 [|a2 [|a3 [|a4 [|? ?]]]]]; try discriminate L1.
  destruct d2 as [|b1 [|b2 [|b3 [|b4 [|? ?]]]]]; try discriminate L2.
  reflexivity.
Qed.

Lemma fileName_get_27 (d1 d2 : string) :
  fourDigits d1 = true -> fourDigits d2 = true ->
  String.get 27 (fileName d1 d2) = Some "."%char.
Proof.
  intros [L1 D1]%fourDigits_spec [L2 D2]%fourDigits_spec.
  destruct d1 as [|a1 [|a2 [|a3 [|a4 [|? ?]]]]]; try discriminate L1.
  destruct d2 as [|b1 [|b2 [|b3 [|b4 [|? ?]]]]]; try discriminate L2.
  reflexivity.
Qed.

Lemma fileName_get_0 (d1 d2 : string) :
  String.get 0 (fileName d1 d2) = Some "s"%char.
Proof. reflexivity. Qed.

Lemma fileName_get_1 (d1 d2 : string) :
  String.get 1 (fileName d1 d2) = Some "e"%char.
Proof. reflexivity. Qed.

(** A match of the looser pattern does not start inside another one. *)
Lemma altPattern_no_overlap (pre s1 rest rest1 : string) (caps caps1 : Captures) :
  pre <> EmptyString ->
  matched Discovery.altPattern (pre +:+ s1) ∅ rest caps ->
  matched Discovery.altPattern s1 ∅ rest1 caps1 ->
  (String.length (pre +:+ s1) - String.length rest <= String.length pre)%nat.
Proof.
  intros Hpre (name & d1 & d2 & Heq & Hn & Hd1 & Hd2 & _)%altPattern_matched
              (name' & e1 & e2 & -> & Hn' & He1 & He2 & _)%altPattern_matched.
  pose proof (sameText_length _ _ Hn) as Ln. rewrite fileName_length in Ln by assumption.
  pose proof (sameText_length _ _ Hn') as Ln'. rewrite fileName_length in Ln' by assumption.
  rewrite Heq, length_app, Ln.
  destruct (Nat.le_gt_cases 32 (String.length pre)) as [|Hk]; [lia|]. exfalso.
  assert (Hk1 : (1 <= String.length pre)%nat).
  { destruct pre; [congruence | cbn; lia]. }
  set (k := String.length pre) in *.
  (* the first two characters of the second match *)
  destruct (get_some 0 name' ltac:(lia)) as (x0 & Hx0).
  destruct (get_some 1 name' ltac:(lia)) as (x1 & Hx1).
  destruct (sameText_get _ _ 0 x0 Hn' Hx0) as (y0 & Hy0 & Hu0).
  destruct (sameText_get _ _ 1 x1 Hn' Hx1) as (y1 & Hy1 & Hu1).
  rewrite fileName_get_0 in Hy0. injection Hy0 as <-.
  rewrite fileName_get_1 in Hy1. injection Hy1 as <-.
  (* they stand at the places k and k + 1 of the text *)
  assert (G0 : String.get (k + 0) (name +:+ rest) = Some x0).
  { rewrite <- Heq. unfold k. rewrite get_append_r, get_append_l by lia. exact Hx0. }
  assert (G1 : String.get (k + 1) (name +:+ rest) = Some x1).
  { rewrite <- Heq. unfold k. rewrite get_append_r, get_append_l by lia. exact Hx1. }
  rewrite Nat.add_0_r in G0. rewrite get_append_l in G0 by lia.
  destruct (sameText_get _ _ k x0 Hn G0) as (z0 & Hz0 & Hv0).
  destruct (Nat.le_gt_cases k 29) as [Hle|Hgt].
  { apply (fileName_get_S d1 d2 k z0); try assumption; [lia|].
    rewrite Hv0, <- Hu0. reflexivity. }
  destruct (Nat.eq_dec k 31%nat) as [H31|H31].
  { rewrite H31, fileName_get_31 in Hz0 by assumption. injection Hz0 as <-.
    rewrite <- Hu0 in Hv0. discriminate Hv0. }
  assert (H30 : k = 30%nat) by lia.
  rewrite H30 in G1. change (30 + 1)%nat with 31%nat in G1.
  rewrite get_append_l in G1 by lia.
  destruct (sameText_get _ _ 31 x1 Hn G1) as (z1 & Hz1 & Hv1).
  rewrite fileName_get_31 in Hz1 by assumption. injection Hz1 as <-.
  rewrite <- Hu1 in Hv1. discriminate Hv1.
Qed.

(** A match of the pattern anchored on [href] does not start inside
    another one: the only double quotes of a match are the two around the
    address, and neither the letters [href=] nor the end of a file name can
    stand across them. *)
Lemma municipioPattern_no_overlap (pre s1 rest rest1 : string) (caps caps1 : Captures) :
  pre <> EmptyString ->
  matched Discovery.municipioPattern (pre +:+ s1) ∅ rest caps ->
  matched Discovery.municipioPattern s1 ∅ rest1 caps1 ->
  (String.length (pre +:+ s1) - String.length rest <= String.length pre)%nat.
Proof.
  intros Hpre
    (h & u & pu & name & d1 & d2 & Heq & Hh & Hu & -> & Hn & Hd1 & Hd2 & _)
      %municipioPattern_matched
    (h' & u' & pu' & name' & e1 & e2 & -> & Hh' & Hu' & _)%municipioPattern_matched.
  pose proof (sameText_length _ _ Hh) as Lh. cbn [String.length] in Lh.
  pose proof (sameText_length _ _ Hh') as Lh'. cbn [String.length] in Lh'.
  pose proof (sameText_length _ _ Hn) as Ln. rewrite fileName_length in Ln by assumption.
  set (Q := Discovery.dquote) in *.
  set (tail := pu +:+ name) in *.
  assert (Ltail : String.length tail = (String.length pu + 32)%nat).
  { unfold tail. by rewrite length_app, Ln. }
  rewrite Heq, length_app. cbn [String.length]. rewrite length_app. cbn [String.length].
  destruct (Nat.le_gt_cases (String.length tail + 7) (String.length pre)) as [|Hk]; [lia|].
  exfalso.
  assert (Hk1 : (1 <= String.length pre)%nat).
  { destruct pre; [congruence | cbn; lia]. }
  set (k := String.length pre) in *.
  (* the characters of the second match in the text *)
  assert (Second : forall i, String.get (k + i) (h +:+ String Q (tail +:+ String Q rest))
                             = String.get i (h' +:+ String Q (u' +:+ String Q rest1))).
  { intros i. rewrite <- Heq. unfold k. apply get_append_r. }
  (* the characters of the first match *)
  assert (First : forall j, String.get (5 + S j) (h +:+ String Q (tail +:+ String Q rest))
                            = String.get j (tail +:+ String Q rest)).
  { intros j. rewrite <- Lh, get_append_r. reflexivity. }
  assert (Quote' : String.get 5 (h' +:+ String Q (u' +:+ String Q rest1)) = Some Q).
  { replace 5%nat with (String.length h' + 0)%nat by lia. by rewrite get_append_r. }
  assert (Hlacks' : lacks Q h' = true).
  { eapply sameText_lacks_dquote; [|exact Hh']. reflexivity. }
  destruct (Nat.le_gt_cases k (String.length tail)) as [Hin|Hout].
  - (* the second opening quote would stand inside the first address *)
    pose proof (Second 5%nat) as H5. rewrite Quote' in H5.
    replace (k + 5)%nat with (5 + S (k - 1))%nat in H5 by lia.
    rewrite First, (get_append_l _ tail) in H5 by lia.
    by apply (lacks_get Q tail (k - 1)) in Hu.
  - destruct (Nat.eq_dec k (String.length tail + 1)%nat) as [Hmid|Hend].
    + (* the second [h] would be the dot of the first name *)
      destruct (get_some 0 h' ltac:(lia)) as (x & Hx).
      destruct (sameText_get _ _ 0 x Hh' Hx) as (y & Hy & Huy).
      injection Hy as <-.
      pose proof (Second 0%nat) as H0. rewrite (get_append_l 0 h'), Hx in H0 by lia.
      replace (k + 0)%nat with (5 + S (String.length pu + 27))%nat in H0 by lia.
      rewrite First, (get_append_l _ tail) in H0 by lia.
      unfold tail in H0. rewrite get_append_r in H0.
      destruct (sameText_get _ _ 27 x Hn H0) as (z & Hz & Huz).
      rewrite fileName_get_27 in Hz by assumption. injection Hz as <-.
      rewrite <- Huy in Huz. discriminate Huz.
    + (* the first closing quote would stand inside the second [href=] *)
      pose proof (Second (String.length tail + 6 - k)%nat) as Hq.
      replace (k + (String.length tail + 6 - k))%nat
        with (5 + S (String.length tail + 0))%nat in Hq by lia.
      rewrite First, get_append_r in Hq. cbn [String.get] in Hq.
      rewrite (get_append_l _ h') in Hq by lia.
      symmetry in Hq. by apply (lacks_get Q h' _ Hlacks') in Hq.
Qed.

(** ** The loop of [exec] finds every match *)

Section ExecAll.

Variable r : regex.

Hypothesis not_empty : forall rest caps, ~ matched r EmptyString ∅ rest caps.

Hypothesis one_match :
  forall s rest rest' caps caps',
    matched r s ∅ rest caps -> matched r s ∅ rest' caps' ->
    rest = rest' /\ caps = caps'.

Hypothesis no_overlap :
  forall pre s1 rest rest1 caps caps1,
    pre <> EmptyString ->
    matched r (pre +:+ s1) ∅ rest caps -> matched r s1 ∅ rest1 caps1 ->
    (String.length (pre +:+ s1) - String.length rest <= String.length pre)%nat.

(** A match at the head of a suffix of the text is found, as long as the
    search has not been moved past its start. *)
Lemma execAll_complete (html : string) :
  forall (skip : nat) (before s0 rest : string) (caps : Captures),
  html = before +:+ s0 -> matched r s0 ∅ rest caps ->
  (skip <= String.length before)%nat ->
  In caps (execAll r html skip).
Proof.
  induction html as [|a html IH]; intros skip before s0 rest caps Heq Hm Hskip.
  { destruct before; [|discriminate Heq].
    change (EmptyString +:+ s0) with s0 in Heq. subst s0. by apply not_empty in Hm. }
  cbn [execAll]. destruct skip as [|n].
  - destruct before as [|b before].
    + change (EmptyString +:+ s0) with s0 in Heq. subst s0.
      assert (Hex : is_Some (exec_at r (String a html))).
      { unfold exec_at. eapply rmatch_complete; [exact Hm | by eexists]. }
      destruct Hex as [[rest' caps'] Hex]. rewrite Hex. left.
      unfold exec_at in Hex.
      apply rmatch_sound in Hex as (s' & c' & Hm' & [= <- <-]).
      by destruct (one_match _ _ _ _ _ Hm' Hm) as [_ ->].
    + rewrite append_cons in Heq. injection Heq as Ha Hhtml. subst a html.
      destruct (exec_at r (String b (before +:+ s0))) as [[rest' caps']|] eqn:Hex.
      * right. unfold exec_at in Hex.
        apply rmatch_sound in Hex as (s' & c' & Hm' & [= <- <-]).
        pose proof (no_overlap (String b before) s0 _ _ _ _ ltac:(discriminate) Hm' Hm)
          as Hno.
        rewrite append_cons in Hno. cbn [String.length] in Hno |- *.
        apply (IH _ before s0 rest caps eq_refl Hm). lia.
      * apply (IH 0%nat before s0 rest caps eq_refl Hm). lia.
  - destruct before as [|b before]; [cbn in Hskip; lia|].
    rewrite append_cons in Heq. injection Heq as Ha Hhtml. subst a html.
    apply (IH n before s0 rest caps eq_refl Hm). cbn in Hskip. lia.
Qed.

End ExecAll.

(** The matches of the two patterns in a page are the links and the names
    of the page. *)
Lemma hrefLink_matched (html u d1 d2 : string) :
  hrefLink html u d1 d2 <->
  exists before s rest,
    html = before +:+ s /\
    matched Discovery.municipioPattern s ∅ rest
            (<[1%nat := u]> (<[3%nat := d2]> (<[2%nat := d1]> ∅))).
Proof.
  split.
  - intros (Hd1 & Hd2 & Hu & (pre & name & -> & Hn) & before & h & after & -> & Hh).
    exists before, (h +:+ String Discovery.dquote
                      ((pre +:+ name) +:+ String Discovery.dquote after)), after.
    split; [reflexivity|]. apply municipioPattern_matched.
    by exists h, (pre +:+ name), pre, name, d1, d2.
  - intros (before & s & rest & -> & Hm).
    apply municipioPattern_matched in Hm
      as (h & u' & pre & name & e1 & e2 & -> & Hh & Hu & -> & Hn & He1 & He2 & Hcaps).
    assert (Hu1 : u = pre +:+ name).
    { apply (f_equal (fun m : Captures => m !! 1%nat)) in Hcaps.
      rewrite !lookup_insert_eq in Hcaps. by injection Hcaps. }
    assert (Hd : d2 = e2 /\ d1 = e1).
    { pose proof (f_equal (fun m : Captures => m !! 3%nat) Hcaps) as H3.
      pose proof (f_equal (fun m : Captures => m !! 2%nat) Hcaps) as H2.
      cbn beta in H2, H3.
      rewrite !(lookup_insert_ne _ 1%nat 3%nat), !lookup_insert_eq in H3 by done.
      rewrite !(lookup_insert_ne _ 1%nat 2%nat), !(lookup_insert_ne _ 3%nat 2%nat),
        !lookup_insert_eq in H2 by done.
      split; congruence. }
    destruct Hd as [-> ->]. subst u.
    repeat split; try assumption; [by exists pre, name|].
    by exists before, h, rest.
Qed.

Lemma namesFile_matched (html d1 d2 : string) :
  namesFile html d1 d2 <->
  exists before s rest,
    html = before +:+ s /\
    matched Discovery.altPattern s ∅ rest (<[2%nat := d2]> (<[1%nat := d1]> ∅)).
Proof.
  split.
  - intros (Hd1 & Hd2 & before & name & after & -> & Hn).
    exists before, (name +:+ after), after. split; [reflexivity|].
    apply altPattern_matched. by exists name, d1, d2.
  - intros (before & s & rest & -> & Hm).
    apply altPattern_matched in Hm as (name & e1 & e2 & -> & Hn & He1 & He2 & Hcaps).
    assert (Hd : d2 = e2 /\ d1 = e1).
    { pose proof (f_equal (fun m : Captures => m !! 2%nat) Hcaps) as H2.
      pose proof (f_equal (fun m : Captures => m !! 1%nat) Hcaps) as H1.
      cbn beta in H1, H2.
      rewrite !lookup_insert_eq in H2.
      rewrite !(lookup_insert_ne _ 2%nat 1%nat), !lookup_insert_eq in H1 by done.
      split; congruence. }
    destruct Hd as [-> ->].
    repeat split; try assumption. by exists before, name, rest.
Qed.

(** ** The candidates of a page *)

(** The matches of the pattern anchored on [href] are the links of the
    page, each with its address and its years. *)
Lemma hrefs_links (html : string) (m : Captures) :
  In m (execAll Discovery.municipioPattern html 0) <->
  exists u d1 d2,
    hrefLink html u d1 d2 /\
    m = <[1%nat := u]> (<[3%nat := d2]> (<[2%nat := d1]> ∅)).
Proof.
  split.
  - intros Hin. apply execAll_matched in Hin as (before & s0 & rest & -> & Hm).
    pose proof Hm as (h & u & pre & name & d1 & d2 & _ & _ & _ & _ & _ & _ & _ & ->)
      %municipioPattern_matched.
    exists u, d1, d2. split; [|reflexivity].
    apply hrefLink_matched. by exists before, s0, rest.
  - intros (u & d1 & d2 & (before & s0 & rest & -> & Hm)%hrefLink_matched & ->).
    eapply (execAll_complete Discovery.municipioPattern);
      [exact municipioPattern_not_empty | exact municipioPattern_one_match
      | exact municipioPattern_no_overlap | reflexivity | exact Hm | lia].
Qed.

Lemma alts_names (html : string) (m : Captures) :
  In m (execAll Discovery.altPattern html 0) <->
  exists d1 d2,
    namesFile html d1 d2 /\ m = <[2%nat := d2]> (<[1%nat := d1]> ∅).
Proof.
  split.
  - intros Hin. apply execAll_matched in Hin as (before & s0 & rest & -> & Hm).
    pose proof Hm as (name & d1 & d2 & _ & _ & _ & _ & ->)%altPattern_matched.
    exists d1, d2. split; [|reflexivity].
    apply namesFile_matched. by exists before, s0, rest.
  - intros (d1 & d2 & (before & s0 & rest & -> & Hm)%namesFile_matched & ->).
    eapply (execAll_complete Discovery.altPattern);
      [exact altPattern_not_empty | exact altPattern_one_match
      | exact altPattern_no_overlap | reflexivity | exact Hm | lia].
Qed.

Lemma parseInt_fourDigits (d : string) :
  fourDigits d = true -> Discovery.parseInt d = ofZ (decimal_val d).
Proof. intros [Hl Hd]%fourDigits_spec. by apply parseInt_digits. Qed.

Lemma hrefCandidate_link (u d1 d2 : string) :
  fourDigits d1 = true -> fourDigits d2 = true ->
  Discovery.hrefCandidate (<[1%nat := u]> (<[3%nat := d2]> (<[2%nat := d1]> ∅))) =
    Discovery.mkCandidate u (ofZ (decimal_val d1)) (ofZ (decimal_val d2)).
Proof.
  intros H1 H2. unfold Discovery.hrefCandidate, group.
  rewrite !(lookup_insert_ne _ 1%nat 2%nat), !(lookup_insert_ne _ 3%nat 2%nat) by done.
  rewrite !(lookup_insert_ne _ 1%nat 3%nat) by done.
  rewrite !lookup_insert_eq. cbn [default id].
  by rewrite !parseInt_fourDigits.
Qed.

Lemma altCandidate_name (d1 d2 : string) :
  fourDigits d1 = true -> fourDigits d2 = true ->
  Discovery.altCandidate (<[2%nat := d2]> (<[1%nat := d1]> ∅)) =
    Discovery.mkCandidate (Discovery.shlpDir +:+ fileName d1 d2)
                          (ofZ (decimal_val d1)) (ofZ (decimal_val d2)).
Proof.
  intros H1 H2. unfold Discovery.altCandidate, group.
  rewrite !(lookup_insert_ne _ 2%nat 1%nat) by done.
  rewrite !lookup_insert_eq. cbn [default id].
  by rewrite !parseInt_fourDigits.
Qed.

Lemma notLater_years (u u' d1 d2 e1 e2 : string) :
  notLater (Discovery.mkCandidate u' (ofZ (decimal_val e1)) (ofZ (decimal_val e2)))
           (Discovery.mkCandidate u (ofZ (decimal_val d1)) (ofZ (decimal_val d2))) <->
  yearsNotAfter e1 e2 d1 d2.
Proof.
  unfold notLater, yearsNotAfter. cbn [Discovery.endYear Discovery.startYear].
  by rewrite !yearOf_ofZ.
Qed.

Lemma hrefLink_namesFile (html u d1 d2 : string) :
  hrefLink html u d1 d2 -> namesFile html d1 d2.
Proof.
  intros (Hd1 & Hd2 & _ & (pre & name & -> & Hn) & before & h & after & -> & _).
  split; [exact Hd1|]. split; [exact Hd2|].
  exists (before +:+ h +:+ String Discovery.dquote pre), name,
         (String Discovery.dquote after).
  split; [|exact Hn].
  by rewrite !append_assoc, append_cons.
Qed.

(** With links in the page, the address returned is the one of a link
    that no link comes after. *)
Lemma latest_of_links (html u0 a1 a2 : string) :
  hrefLink html u0 a1 a2 ->
  exists u d1 d2,
    hrefLink html u d1 d2 /\
    Discovery.latestIn html = Ok (Discovery.absolute u) /\
    forall u' e1 e2, hrefLink html u' e1 e2 -> yearsNotAfter e1 e2 d1 d2.
Proof.
  intros Hlink0.
  pose proof (collect_wholeYears html) as Hw.
  assert (Hcol : Discovery.collect html =
                 map Discovery.hrefCandidate (execAll Discovery.municipioPattern html 0)).
  { unfold Discovery.collect.
    destruct (execAll Discovery.municipioPattern html 0) as [|m ms] eqn:Hms; [|reflexivity].
    exfalso. assert (Hin : In (<[1%nat := u0]> (<[3%nat := a2]> (<[2%nat := a1]> ∅)))
                              (execAll Discovery.municipioPattern html 0)).
    { apply hrefs_links. by exists u0, a1, a2. }
    rewrite Hms in Hin. destruct Hin. }
  assert (Hcand : forall u' e1 e2, hrefLink html u' e1 e2 ->
            In (Discovery.mkCandidate u' (ofZ (decimal_val e1)) (ofZ (decimal_val e2)))
               (Discovery.collect html)).
  { intros u' e1 e2 Hl. pose proof Hl as (He1 & He2 & _).
    rewrite Hcol, <- (hrefCandidate_link u' e1 e2 He1 He2).
    apply in_map, hrefs_links. by exists u', e1, e2. }
  unfold Discovery.latestIn.
  destruct (Discovery.collect html) as [|c0 cs0] eqn:Hcs;
    [destruct (Hcand _ _ _ Hlink0)|].
  cbn [length Nat.eqb].
  assert (HF : Forall wholeYears (c0 :: cs0)) by (by apply List.Forall_forall).
  destruct (sort_head_latest (c0 :: cs0) ltac:(discriminate) HF)
    as (best & rest & -> & Hin & Hall).
  rewrite Hcol in Hin. apply in_map_iff in Hin as (m & <- & Hm).
  apply hrefs_links in Hm as (u & d1 & d2 & Hl & ->).
  pose proof Hl as (Hd1 & Hd2 & _).
  rewrite (hrefCandidate_link u d1 d2 Hd1 Hd2) in Hall |- *.
  exists u, d1, d2. split; [exact Hl|]. split; [reflexivity|].
  intros u' e1 e2 Hl'. eapply notLater_years. apply Hall. by apply Hcand.
Qed.

Lemma absolute_shlpDir (name : string) :
  Discovery.absolute (Discovery.shlpDir +:+ name) = Discovery.shlpDir +:+ name.
Proof. reflexivity. Qed.

(** Without a link, the address returned is made from a name of the page
    that no name comes after. *)
Lemma latest_of_names (html a1 a2 : string) :
  (forall u e1 e2, ~ hrefLink html u e1 e2) ->
  namesFile html a1 a2 ->
  exists d1 d2,
    namesFile html d1 d2 /\
    Discovery.latestIn html = Ok (Discovery.shlpDir +:+ fileName d1 d2) /\
    forall e1 e2, namesFile html e1 e2 -> yearsNotAfter e1 e2 d1 d2.
Proof.
  intros Hnone Hname0.
  pose proof (collect_wholeYears html) as Hw.
  assert (Hcol : Discovery.collect html =
                 map Discovery.altCandidate (execAll Discovery.altPattern html 0)).
  { unfold Discovery.collect.
    destruct (execAll Discovery.municipioPattern html 0) as [|m ms] eqn:Hms; [reflexivity|].
    exfalso. assert (Hin : In m (execAll Discovery.municipioPattern html 0))
      by (rewrite Hms; by left).
    apply hrefs_links in Hin as (u & d1 & d2 & Hl & _). by apply Hnone in Hl. }
  assert (Hcand : forall e1 e2, namesFile html e1 e2 ->
            In (Discovery.mkCandidate (Discovery.shlpDir +:+ fileName e1 e2)
                                      (ofZ (decimal_val e1)) (ofZ (decimal_val e2)))
               (Discovery.collect html)).
  { intros e1 e2 Hl. pose proof Hl as (He1 & He2 & _).
    rewrite Hcol, <- (altCandidate_name e1 e2 He1 He2).
    apply in_map, alts_names. by exists e1, e2. }
  unfold Discovery.latestIn.
  destruct (Discovery.collect html) as [|c0 cs0] eqn:Hcs;
    [destruct (Hcand _ _ Hname0)|].
  cbn [length Nat.eqb].
  assert (HF : Forall wholeYears (c0 :: cs0)) by (by apply List.Forall_forall).
  destruct (sort_head_latest (c0 :: cs0) ltac:(discriminate) HF)
    as (best & rest & -> & Hin & Hall).
  rewrite Hcol in Hin. apply in_map_iff in Hin as (m & <- & Hm).
  apply alts_names in Hm as (d1 & d2 & Hl & ->).
  pose proof Hl as (Hd1 & Hd2 & _).
  rewrite (altCandidate_name d1 d2 Hd1 Hd2) in Hall |- *.
  exists d1, d2. split; [exact Hl|].
  split; [cbn [Discovery.url]; by rewrite absolute_shlpDir|].
  intros e1 e2 Hl'. eapply notLater_years. apply Hall. by apply Hcand.
Qed.

Lemma latest_of_nothing (html : string) :
  (forall e1 e2, ~ namesFile html e1 e2) ->
  Discovery.latestIn html =
    Throw (Error "No municipality Excel files found on ANP page").
Proof.
  intros Hnone. unfold Discovery.latestIn, Discovery.collect.
  destruct (execAll Discovery.municipioPattern html 0) as [|m ms] eqn:Hms.
  - destruct (execAll Discovery.altPattern html 0) as [|m ms] eqn:Hms'; [reflexivity|].
    exfalso. assert (Hin : In m (execAll Discovery.altPattern html 0))
      by (rewrite Hms'; by left).
    apply alts_names in Hin as (d1 & d2 & Hl & _). by apply Hnone in Hl.
  - exfalso. assert (Hin : In m (execAll Discovery.municipioPattern html 0))
      by (rewrite Hms; by left).
    apply hrefs_links in Hin as (u & d1 & d2 & Hl%hrefLink_namesFile & _).
    by apply Hnone in Hl.
Qed.

(** C4.  The links of a page are the places where its text holds
    [href=], a double quote, an address without double quote that ends
    with the name of a file of two years, and a double quote; the names
    are the places where it holds such a name, in a link or not.  When the
    page has links, every one of them is a candidate: the address returned
    is the one of a link of the page, made absolute, and no link of the
    page has a greater end year, or the same end year and a greater start
    year; the names outside links are not looked at.  When the page has no
    link but has names, the address returned is made from a name of the
    page that no name comes after in the same order.  When it has no name,
    and so no link, the error is thrown.  The years chosen depend on the
    links the page holds and not on their order: two pages with the same
    links give the same years. *)
Theorem C4_latest_url (html : string) :
  (forall u0 a1 a2 : string,
     hrefLink html u0 a1 a2 ->
     exists u d1 d2 : string,
       hrefLink html u d1 d2 /\
       Discovery.latestIn html = Ok (Discovery.absolute u) /\
       forall u' e1 e2 : string,
         hrefLink html u' e1 e2 -> yearsNotAfter e1 e2 d1 d2) /\
  ((forall u e1 e2 : string, ~ hrefLink html u e1 e2) ->
   forall a1 a2 : string,
     namesFile html a1 a2 ->
     exists d1 d2 : string,
       namesFile html d1 d2 /\
       Discovery.latestIn html = Ok (Discovery.shlpDir +:+ fileName d1 d2) /\
       forall e1 e2 : string,
         namesFile html e1 e2 -> yearsNotAfter e1 e2 d1 d2) /\
  ((forall e1 e2 : string, ~ namesFile html e1 e2) ->
   Discovery.latestIn html =
     Throw (Error "No municipality Excel files found on ANP page")) /\
  (forall html' u0 a1 a2 : string,
     (forall u d1 d2 : string, hrefLink html u d1 d2 <-> hrefLink html' u d1 d2) ->
     hrefLink html u0 a1 a2 ->
     exists u d1 d2 u' e1 e2 : string,
       hrefLink html u d1 d2 /\ hrefLink html' u' e1 e2 /\
       Discovery.latestIn html = Ok (Discovery.absolute u) /\
       Discovery.latestIn html' = Ok (Discovery.absolute u') /\
       decimal_val d1 = decimal_val e1 /\ decimal_val d2 = decimal_val e2) /\
  (forall status : Z,
     Discovery.findLatestExcelUrl (Responded status html) =
       if ok status then Discovery.latestIn html
       else Throw (Error ("Failed to fetch ANP page: " +:+ Z_toString status))).
Proof.
  split; [exact (latest_of_links html)|].
  split; [intros Hnone a1 a2; by apply latest_of_names|].
  split; [exact (latest_of_nothing html)|].
  split.
  - intros html' u0 a1 a2 Hsame Hlink.
    destruct (latest_of_links html u0 a1 a2 Hlink) as (u & d1 & d2 & Hl & Hurl & Hmax).
    destruct (latest_of_links html' u0 a1 a2 ltac:(by apply Hsame))
      as (u' & e1 & e2 & Hl' & Hurl' & Hmax').
    exists u, d1, d2, u', e1, e2.
    split; [exact Hl|]. split; [exact Hl'|]. split; [exact Hurl|]. split; [exact Hurl'|].
    pose proof (Hmax u' e1 e2 ltac:(by apply Hsame)) as H1.
    pose proof (Hmax' u d1 d2 ltac:(by apply Hsame)) as H2.
    unfold yearsNotAfter in H1, H2. lia.
  - intros status. unfold Discovery.findLatestExcelUrl.
    destruct (ok status); reflexivity.
Qed.

(** ** The properties on the sample data *)

(** The example of the specification: with a week that ends on 2024-05-01
    and a week that ends on 2024-05-08, the later week alone is reported. *)
Example sampleRows_result :
  processRows (H:=sampleHost) sampleRows None 0 =
    Ok (mkPayload true
          (mkPrices (Some (Finite (579 # 100))) None (Some (round64 (599 # 100))) None)
          "2024-05-05" "2024-05-08" None "1970-01-01T00:00:00.000Z").
Proof. vm_compute. reflexivity. Qed.



(** A first row of the locality without date columns leaves the latest
    period empty and [formatDate] is called on [null]; an invalid period
    start of the only row reaches [toISOString]. *)
Example invalid_dates_throw :
  processRows (H:=sampleHost) [undatedRow] None 0 =
    Throw (TypeError "Cannot read properties of null (reading 'toISOString')") /\
  processRows (H:=sampleHost) [badStartRow] None 0 =
    Throw (RangeError "Invalid time value").
Proof. split; vm_compute; reflexivity. Qed.

(** The claim C2 as stated fails on a name that holds ETANOL and DIESEL:
    the name contains DIESEL and not S10, and the row goes to ethanol. *)
Lemma C2_diesel_rule_counterexample :
  (includes "DIESEL" (produtoOf (H:=sampleHost) blendRow) = true /\
   includes "S10" (produtoOf (H:=sampleHost) blendRow) = false) /\
  ~ populates (H:=sampleHost) Diesel blendRow /\
  prices_step (H:=sampleHost) noPrices blendRow =
    mkPrices None (Some (Finite (429 # 100))) None None.
Proof.
  split; [split; vm_compute; reflexivity|].
  split; [|vm_compute; reflexivity].
  intros Hpop. specialize (Hpop noPrices). vm_compute in Hpop. discriminate Hpop.
Qed.

Lemma C2_diesel_rule_witness : populates (H:=sampleHost) Diesel dieselRow.
Proof.
  destruct (C2_diesel_rule (H:=sampleHost) dieselRow) as [Hiff _].
  apply Hiff. repeat split; vm_compute; reflexivity.
Defined.

Lemma C3_no_data_iff_witness : isGuarulhos (H:=sampleHost) lowerCaseRow = true.
Proof.
  destruct (C3_no_data_iff (H:=sampleHost) [lowerCaseRow] None 0)
    as (_ & _ & Hascii & _).
  apply (Hascii lowerCaseRow "Guarulhos"); reflexivity.
Defined.

Lemma C4_latest_url_witness :
  exists u d1 d2 : string,
    hrefLink pageOldFirst u d1 d2 /\
    Discovery.latestIn pageOldFirst = Ok (Discovery.absolute u) /\
    forall u' e1 e2 : string,
      hrefLink pageOldFirst u' e1 e2 -> yearsNotAfter e1 e2 d1 d2.
Proof.
  destruct (C4_latest_url pageOldFirst) as [Hlinks _].
  apply (Hlinks "/anp/shlp/semanal/semanal-municipio-2024-2025.xlsx" "2024" "2025").
  split; [reflexivity|]. split; [reflexivity|]. split; [reflexivity|].
  split.
  - by exists "/anp/shlp/semanal/", "semanal-municipio-2024-2025.xlsx".
  - exists "<a ", "href=",
      (">xlsx</a>" +:+ anchor "/anp/shlp/semanal/semanal-municipio-2025-2026.xlsx").
    by split.
Defined.

Lemma C9_cache_control_witness :
  headers (ApiApi1.handler (H:=sampleHost) (mkRequest "GET" None)
             (Responded 200 (Ok sampleRows)) 0 sixAM) !! "Cache-Control"
    = Some "s-maxage=3600, stale-while-revalidate=300".
Proof.
  destruct (C9_cache_control (H:=sampleHost) (mkRequest "GET" None)
              (Rejected (Error "")) (fun _ => Rejected (Error ""))
              (Responded 200 (Ok sampleRows)) 0 sixAM)
    as (_ & _ & Hheader & _).
  rewrite Hheader. vm_compute. reflexivity.
Defined.

(** Serials with a fraction: the time of day is dropped by [Math.floor],
    and the subtraction rounds, so that the largest number below 1 counts
    as the day of serial 1. *)
Example serials_with_a_fraction :
  excelDateToJS (H:=sampleHost) (Num (Finite (90001 # 2))) = Some 1678838400000 /\
  excelDateToJS (H:=sampleHost) (Num (Finite (1 - (1 # 9007199254740992))))
    = Some (- 2209075200000) /\
  excelDateToJS (H:=sampleHost) (Num (ofZ 1)) = Some (- 2209075200000).
Proof. repeat split; vm_compute; reflexivity. Qed.

Lemma C7_last_row_wins_witness :
  field GasolinaComum (data duplicatePayload) =
    priceOf (H:=sampleHost) (precoOf gasolineUnpriced) /\
  priceOf (H:=sampleHost) (precoOf gasolineUnpriced) = None /\
  priceOf (H:=sampleHost) (precoOf gasolinePriced) = Some (Finite (579 # 100)).
Proof.
  split; [|split; vm_compute; reflexivity].
  apply (C7_last_row_wins (H:=sampleHost) duplicateRows None 0 duplicatePayload
           (Some may08) [gasolinePriced] [dieselRow] gasolineUnpriced GasolinaComum).
  - vm_compute. reflexivity.
  - vm_compute. reflexivity.
  - reflexivity.
  - vm_compute. reflexivity.
  - vm_compute. reflexivity.
Defined.

(** The claim C9 as stated fails in [api_fuel-prices.js], where a failed
    fetch is answered with the fixed caching directive, and on OPTIONS
    requests of the other handlers, which carry no [Cache-Control]. *)
Lemma C9_cache_control_counterexample :
  threw (fetchAndProcessExcel (H:=sampleHost) (Rejected (Error "fetch failed")) 0) = true /\
  headers (Api.handler (H:=sampleHost) (mkRequest "GET" None)
             (Rejected (Error "fetch failed")) 0) !! "Cache-Control"
    = Some "s-maxage=3600, stale-while-revalidate" /\
  "s-maxage=3600, stale-while-revalidate" <> noStore /\
  headers (ApiApi1.handler (H:=sampleHost) (mkRequest "OPTIONS" None)
             (Rejected (Error "fetch failed")) 0 0) !! "Cache-Control" = None.
Proof.
  split; [reflexivity|]. split; [vm_compute; reflexivity|].
  split; [discriminate | vm_compute; reflexivity].
Qed.

(** The example of the specification for the discovery: the file that ends
    in 2026 is chosen wherever it stands in the page. *)
Example latest_of_two_pages :
  Discovery.latestIn pageOldFirst =
    Ok "https://www.gov.br/anp/shlp/semanal/semanal-municipio-2025-2026.xlsx" /\
  Discovery.latestIn pageNewFirst =
    Ok "https://www.gov.br/anp/shlp/semanal/semanal-municipio-2025-2026.xlsx".
Proof. split; vm_compute; reflexivity. Qed.

(** Cells that [priceOf] turns into something else than a finite number
    or [null]. *)
Example priceOf_unusual_cells :
  priceOf (H:=sampleHost) (Str " ") = Some NaN /\
  priceOf (H:=sampleHost) (Bool true) = Some NaN /\
  priceOf (H:=sampleHost) (DateV (Some may08)) = Some NaN /\
  priceOf (H:=sampleHost) (Str "0x1A") = Some (Finite 0) /\
  priceOf (H:=sampleHost) (Str "Infinity") = Some (Infinity false) /\
  priceOf (H:=sampleHost) (Str "1e400") = Some (Infinity false) /\
  priceOf (H:=sampleHost) (Str "1e-400") = Some (Finite 0) /\
  priceOf (H:=sampleHost) (Str "5.99") = Some (round64 (599 # 100)) /\
  priceOf (H:=sampleHost) (Str "n/d") = None.
Proof. repeat split; vm_compute; reflexivity. Qed.

(** At 06:00 and at 07:00 local time of a day, and one second before 07:00. *)
Example seconds_until_7AM :
  ApiApi1.getSecondsUntil7AM (H:=sampleHost) (may08 + 9 * 3600000) = 3600 /\
  ApiApi1.getSecondsUntil7AM (H:=sampleHost) (may08 + 10 * 3600000) = 86400 /\
  ApiApi1.getSecondsUntil7AM (H:=sampleHost) (may08 + 10 * 3600000 - 1000) = 60.
Proof. repeat split; vm_compute; reflexivity. Qed.

(* ===================================================================== *)
(** * Further properties of the sources *)
(* ===================================================================== *)

(** ** The extraction on arbitrary rows *)

Section Extraction.
Context `{Host}.

Lemma guarulhosData_idem (jsonData : list Row) :
  guarulhosData (guarulhosData jsonData) = guarulhosData jsonData.
Proof.
  apply filter_all. intros row Hin. by apply filter_In in Hin as [_ Hg].
Qed.

(** X1. A row of another locality changes nothing: with or without it the
    extraction returns the same object or throws the same error. *)
Theorem other_locality_ignored (l1 l2 : list Row) (row : Row)
  (url : option string) (now : Z) :
  isGuarulhos row = false ->
  processRows (l1 ++ row :: l2) url now = processRows (l1 ++ l2) url now.
Proof.
  intros Hrow. unfold processRows, guarulhosData.
  rewrite !List.filter_app. cbn [List.filter]. rewrite Hrow. reflexivity.
Qed.

(** X2. What the extraction does on any rows.  Without a row of the
    locality it throws the "no data" error.  When the first row of the
    locality has no valid period end, the latest period comes out empty and
    a TypeError is thrown, whatever the other rows hold.  Otherwise the
    greatest valid period end [M] is found; when the first row that ends at
    [M] has no valid period start a RangeError is thrown, and otherwise the
    extraction succeeds. *)
Theorem processRows_outcome (jsonData : list Row) (url : option string) (now : Z) :
  match guarulhosData jsonData with
  | [] => processRows jsonData url now = Throw noData
  | first :: _ =>
      match dataFinalOf first with
      | None =>
          processRows jsonData url now =
            Throw (TypeError "Cannot read properties of null (reading 'toISOString')")
      | Some _ =>
          exists (M : Z) (r : Row) (rest : list Row),
            (forall row t, In row (guarulhosData jsonData) ->
                           dataFinalOf row = Some t -> t <= M) /\
            List.filter (endsAt M) (guarulhosData jsonData) = r :: rest /\
            match dataInicialOf r with
            | None =>
                processRows jsonData url now = Throw (RangeError "Invalid time value")
            | Some _ => exists p, processRows jsonData url now = Ok p
            end
      end
  end.
Proof.
  destruct (guarulhosData jsonData) as [|first G] eqn:HG.
  { unfold processRows. rewrite HG. reflexivity. }
  assert (Hfold : fold_left maxDate_step (first :: G) None =
                  fold_left maxDate_step G (Some (dataFinalOf first))) by reflexivity.
  destruct (dataFinalOf first) as [t|] eqn:Ht.
  - destruct (fold_maxDate_any G t) as (M & HM & Hle & Hin & Hall).
    rewrite HM in Hfold.
    rewrite (processRows_latest jsonData url now first G (Some M) HG Hfold).
    rewrite (List.filter_ext (isLatest (Some M)) (endsAt M) (isLatest_endsAt M)).
    assert (Hex : exists row, In row (first :: G) /\ dataFinalOf row = Some M).
    { destruct Hin as [->|(r & Hr & HrM)].
      - exists first. split; [by left | exact Ht].
      - exists r. split; [by right | exact HrM]. }
    destruct Hex as (rM & HrM & HfM).
    assert (HinL : In rM (List.filter (endsAt M) (first :: G))).
    { apply filter_In. split; [exact HrM|]. unfold endsAt. by apply bool_decide_eq_true. }
    destruct (List.filter (endsAt M) (first :: G)) as [|r rest] eqn:HL; [destruct HinL|].
    exists M, r, rest. split; [|split; [exact HL|]].
    { intros row u [<-|Hr] Hu; [rewrite Ht in Hu; injection Hu as <-; lia|].
      eapply Hall; eassumption. }
    assert (Hmin : fold_left minDate_step (r :: rest) None =
                   fold_left minDate_step rest (Some (dataInicialOf r))) by reflexivity.
    rewrite Hmin.
    destruct (dataInicialOf r) as [i|].
    + destruct (fold_minDate_any rest i) as (m & ->).
      cbn [formatDate bind]. eexists. reflexivity.
    + rewrite fold_minDate_invalid. reflexivity.
  - rewrite fold_maxDate_invalid in Hfold.
    rewrite (processRows_latest jsonData url now first G None HG Hfold).
    rewrite (List.filter_ext (isLatest None) (fun _ => false) isLatest_invalid).
    assert (Hnil : forall l : list Row, List.filter (fun _ => false) l = []).
    { induction l; [reflexivity | assumption]. }
    rewrite Hnil. reflexivity.
Qed.

Lemma fold_maxDate_filter (l : list Row) :
  forall m : Z,
  fold_left maxDate_step (List.filter hasDataFinal l) (Some (Some m)) =
  fold_left maxDate_step l (Some (Some m)).
Proof.
  induction l as [|row l IH]; intros m; [reflexivity|].
  cbn [List.filter fold_left]. unfold hasDataFinal at 1.
  unfold maxDate_step at 3. fold (dataFinalOf row).
  destruct (dataFinalOf row) as [t|] eqn:Ht.
  - rewrite bool_decide_eq_true_2 by (by eexists).
    cbn [fold_left]. unfold maxDate_step at 2. fold (dataFinalOf row). rewrite Ht.
    destruct (date_gt (Some t) (Some m)); apply IH.
  - rewrite bool_decide_eq_false_2 by (intros [? ?]; discriminate).
    rewrite date_gt_invalid. apply IH.
Qed.

Lemma filter_filter_implied {A : Type} (f g : A -> bool) (l : list A) :
  (forall x, f x = true -> g x = true) ->
  List.filter f (List.filter g l) = List.filter f l.
Proof.
  intros Himp. induction l as [|x l IH]; [reflexivity|].
  cbn [List.filter]. destruct (g x) eqn:Hg.
  - cbn [List.filter]. by rewrite IH.
  - destruct (f x) eqn:Hf; [|exact IH].
    apply Himp in Hf. congruence.
Qed.

Lemma isLatest_hasDataFinal (M : Z) (row : Row) :
  isLatest (Some M) row = true -> hasDataFinal row = true.
Proof.
  rewrite isLatest_endsAt. unfold endsAt, hasDataFinal.
  intros Hf%bool_decide_eq_true. apply bool_decide_eq_true. rewrite Hf. by eexists.
Qed.

(** X3. When the first row of the locality has a valid period end, the
    rows of the locality without one are passed over: the extraction gives
    what it gives on the rows of the locality that have a valid period
    end. *)
Theorem invalid_period_end_skipped (jsonData : list Row) (url : option string)
  (now : Z) (first : Row) :
  head (guarulhosData jsonData) = Some first ->
  hasDataFinal first = true ->
  processRows jsonData url now =
  processRows (List.filter hasDataFinal (guarulhosData jsonData)) url now.
Proof.
  intros Hhead Hfirst.
  destruct (guarulhosData jsonData) as [|r G] eqn:HG; [discriminate|].
  injection Hhead as ->.
  assert (HG' : guarulhosData (List.filter hasDataFinal (first :: G))
                = first :: List.filter hasDataFinal G).
  { cbn [List.filter]. rewrite Hfirst. apply filter_all.
    intros row Hin.
    assert (Hin0 : In row (first :: G)).
    { destruct Hin as [<-|Hin]; [by left|]. right. by apply filter_In in Hin as [? _]. }
    rewrite <- HG in Hin0. by apply filter_In in Hin0 as [_ ?]. }
  unfold hasDataFinal in Hfirst. apply bool_decide_eq_true in Hfirst as [t Ht].
  assert (Hfold : fold_left maxDate_step (first :: G) None =
                  fold_left maxDate_step G (Some (Some t))).
  { cbn [fold_left]. unfold maxDate_step at 2. fold (dataFinalOf first). by rewrite Ht. }
  assert (Hfold' : fold_left maxDate_step (first :: List.filter hasDataFinal G) None =
                   fold_left maxDate_step G (Some (Some t))).
  { cbn [fold_left]. unfold maxDate_step at 2. fold (dataFinalOf first). rewrite Ht.
    apply fold_maxDate_filter. }
  destruct (fold_maxDate_any G t) as (M & HM & _).
  rewrite HM in Hfold, Hfold'.
  rewrite (processRows_latest jsonData url now first G (Some M) HG Hfold).
  rewrite (processRows_latest _ url now first _ (Some M) HG' Hfold').
  assert (HL : List.filter (isLatest (Some M)) (first :: List.filter hasDataFinal G)
               = List.filter (isLatest (Some M)) (first :: G)).
  { cbn [List.filter]. rewrite (filter_filter_implied _ _ G (isLatest_hasDataFinal M)).
    reflexivity. }
  rewrite HL. reflexivity.
Qed.

Lemma fold_prices_source (l : list Row) :
  forall (prices : Prices) (c : Fuel) (v : number),
  field c (fold_left prices_step l prices) = Some v ->
  field c prices = Some v \/
  exists row, In row l /\ categoryOf (produtoOf row) = Some c /\
              priceOf (precoOf row) = Some v.
Proof.
  induction l as [|row l IH]; intros prices c v; cbn [fold_left]; [by left|].
  intros Hf. apply IH in Hf as [Hf|(r & Hr & Hc & Hp)].
  - rewrite prices_step_field in Hf.
    destruct (bool_decide (categoryOf (produtoOf row) = Some c)) eqn:Hc; [|by left].
    apply bool_decide_eq_true in Hc. right. exists row. split; [by left | by split].
  - right. exists r. split; [by right | by split].
Qed.

Lemma getTime_eq (a b : Date) : num_eq (getTime a) (getTime b) = true -> a = b.
Proof.
  destruct a as [x|], b as [y|]; cbn [getTime]; try discriminate.
  rewrite num_eq_ofZ. by intros ->%Z.eqb_eq.
Qed.

(** X4. Every price in the output comes from a row: when the extraction
    succeeds and the field of a category holds a number, some row of the
    locality whose period end is the reported [periodEnd] is of that
    category and has that number as its price.  A category without such a
    row is [null]. *)
Theorem price_provenance (jsonData : list Row) (url : option string) (now : Z)
  (p : Payload) (c : Fuel) (v : number) :
  processRows jsonData url now = Ok p ->
  field c (data p) = Some v ->
  exists row,
    In row (guarulhosData jsonData) /\
    formatDate (Some (dataFinalOf row)) = Ok (periodEnd p) /\
    categoryOf (produtoOf row) = Some c /\
    priceOf (precoOf row) = Some v.
Proof.
  intros Hok Hfield.
  destruct (guarulhosData jsonData) as [|first G] eqn:HG.
  { unfold processRows in Hok. rewrite HG in Hok. discriminate. }
  destruct (fold_left maxDate_step (first :: G) None) as [maxD|] eqn:Hmax.
  2:{ unfold processRows in Hok. rewrite HG in Hok. cbn [length Nat.eqb] in Hok.
      rewrite Hmax in Hok. discriminate. }
  rewrite (processRows_latest jsonData url now first G maxD HG Hmax) in Hok.
  set (L := List.filter (isLatest maxD) (first :: G)) in *.
  destruct (formatDate (fold_left minDate_step L None)) as [ps|]; [|discriminate].
  destruct (formatDate (Some maxD)) as [pe|] eqn:Hpe; [|discriminate].
  cbn [bind] in Hok. injection Hok as <-. cbn [data periodEnd] in *.
  apply fold_prices_source in Hfield as [Hnone|(row & Hin & Hc & Hp)]; [destruct c; discriminate|].
  unfold L in Hin. apply filter_In in Hin as [Hin Hlatest].
  exists row. split; [exact Hin|]. split; [|by split].
  unfold isLatest in Hlatest. apply getTime_eq in Hlatest.
  unfold dataFinalOf. rewrite Hlatest. exact Hpe.
Qed.

(** The rows of the locality carry valid dates: the period the extraction
    reports. *)
Lemma valid_period (jsonData : list Row) (url : option string) (now : Z) :
  (exists row, In row jsonData /\ isGuarulhos row = true) ->
  (forall row, In row jsonData -> isGuarulhos row = true ->
               is_Some (dataFinalOf row) /\ is_Some (dataInicialOf row)) ->
  exists (M m : Z) (p : Payload),
    processRows jsonData url now = Ok p /\
    periodEnd p = isoDate M /\ periodStart p = isoDate m /\
    (exists row, In row jsonData /\ isGuarulhos row = true /\ dataFinalOf row = Some M) /\
    (forall row t, In row jsonData -> isGuarulhos row = true ->
                   dataFinalOf row = Some t -> t <= M) /\
    (exists row, In row jsonData /\ isGuarulhos row = true /\
                 dataFinalOf row = Some M /\ dataInicialOf row = Some m) /\
    (forall row t, In row jsonData -> isGuarulhos row = true ->
                   dataFinalOf row = Some M -> dataInicialOf row = Some t -> m <= t).
Proof.
  intros (r0 & Hr0 & Hg0) Hval.
  set (G := guarulhosData jsonData).
  assert (HinG : forall row, In row G <-> In row jsonData /\ isGuarulhos row = true).
  { intros row. apply filter_In. }
  assert (HG : G <> []).
  { intros HG. assert (Hr : In r0 G) by (by apply HinG). rewrite HG in Hr. destruct Hr. }
  assert (HvF : Forall (fun row => is_Some (dataFinalOf row)) G).
  { apply List.Forall_forall. intros row [Hin Hg]%HinG. by apply Hval. }
  destruct (fold_maxDate_max G HG HvF) as (M & HM & (rM & HrM & HfM) & HallM).
  set (L := List.filter (endsAt M) G).
  assert (HinL : forall row, In row L <-> In row G /\ dataFinalOf row = Some M).
  { intros row. unfold L. rewrite filter_In. unfold endsAt.
    by rewrite bool_decide_eq_true. }
  assert (HL : L <> []).
  { intros HL. assert (Hr : In rM L) by (apply HinL; by split).
    rewrite HL in Hr. destruct Hr. }
  assert (HvI : Forall (fun row => is_Some (dataInicialOf row)) L).
  { apply List.Forall_forall. intros row [[Hin Hg]%HinG _]%HinL. by apply Hval. }
  destruct (fold_minDate_min L HL HvI) as (m & Hm & (rm & Hrm & Him) & Hallm).
  exists M, m. eexists. split.
  { apply (processRows_dates jsonData url now M m HG HM Hm). }
  cbn [periodEnd periodStart]. split; [reflexivity|]. split; [reflexivity|].
  repeat split.
  - apply HinG in HrM as [? ?]. by exists rM.
  - intros row t Hin Hg. apply HallM. by apply HinG.
  - apply HinL in Hrm as [[? ?]%HinG ?]. by exists rm.
  - intros row t Hin Hg Hf. apply Hallm. apply HinL. split; [by apply HinG | exact Hf].
Qed.

(** X5. The period does not depend on the order of the rows: when the rows
    of the locality carry valid dates, the extraction succeeds on every
    rearrangement of the rows and reports the same [periodStart] and
    [periodEnd]. *)
Theorem period_order_independent (jsonData jsonData' : list Row)
  (url : option string) (now : Z) :
  Permutation jsonData jsonData' ->
  existsb isGuarulhos jsonData = true ->
  forallb datesValid (guarulhosData jsonData) = true ->
  exists p p' : Payload,
    processRows jsonData url now = Ok p /\
    processRows jsonData' url now = Ok p' /\
    periodEnd p = periodEnd p' /\
    periodStart p = periodStart p'.
Proof.
  intros Hperm Hex Hval.
  apply existsb_exists in Hex.
  assert (Hv : forall row, In row jsonData -> isGuarulhos row = true ->
                 is_Some (dataFinalOf row) /\ is_Some (dataInicialOf row)).
  { intros row Hin Hg. rewrite forallb_forall in Hval.
    assert (HinG : In row (guarulhosData jsonData)) by (apply filter_In; by split).
    specialize (Hval row HinG). unfold datesValid in Hval.
    apply andb_true_iff in Hval as [Hf Hi].
    apply bool_decide_eq_true in Hf, Hi. by split. }
  assert (Hin' : forall row, In row jsonData' <-> In row jsonData).
  { intros row. split; apply Permutation_in; [symmetry|]; exact Hperm. }
  destruct (valid_period jsonData url now Hex Hv)
    as (M & m & p & Hp & Hpe & Hps & (rM & HrM & HgM & HfM) & HallM
        & (rm & Hrm & Hgm & Hfm & Him) & Hallm).
  destruct (valid_period jsonData' url now) as
    (M' & m' & p' & Hp' & Hpe' & Hps' & (rM' & HrM' & HgM' & HfM') & HallM'
     & (rm' & Hrm' & Hgm' & Hfm' & Him') & Hallm').
  { destruct Hex as (r & Hr & Hg). exists r. split; [by apply Hin' | exact Hg]. }
  { intros row Hin Hg. apply Hv; [by apply Hin' | exact Hg]. }
  assert (HM : M' = M).
  { apply Z.le_antisymm.
    - apply (HallM rM' M'); [by apply Hin' | assumption..].
    - apply (HallM' rM M); [by apply Hin' | assumption..]. }
  subst M'.
  assert (Hmm : m' = m).
  { apply Z.le_antisymm.
    - apply (Hallm' rm m); [by apply Hin' | assumption..].
    - apply (Hallm rm' m'); [by apply Hin' | assumption..]. }
  subst m'.
  exists p, p'. split; [exact Hp|]. split; [exact Hp'|]. split; congruence.
Qed.

End Extraction.

(** ** Dates *)

Lemma split_head_lacks (c : ascii) (a b : string) :
  lacks c a = true -> split_head c (a +:+ b) = a +:+ split_head c b.
Proof.
  induction a as [|x a IH]; [reflexivity|]. cbn [lacks].
  intros [Hx Ha]%andb_true_iff. apply negb_true_iff in Hx.
  change (String x a +:+ b) with (String x (a +:+ b)).
  cbn [split_head]. rewrite Hx, (IH Ha). reflexivity.
Qed.

Lemma lacks_T_uint (d : Decimal.uint) :
  lacks "T" (NilEmpty.string_of_uint d) = true.
Proof. induction d; cbn [NilEmpty.string_of_uint lacks]; try rewrite IHd; reflexivity. Qed.

Lemma lacks_T_Z (z : Z) : lacks "T" (Z_toString z) = true.
Proof.
  unfold Z_toString, NilZero.string_of_int, NilZero.string_of_uint.
  destruct (Z.to_int z) as [d|d]; destruct d; try reflexivity;
    cbn [lacks Ascii.eqb Bool.eqb negb andb];
    first [apply (lacks_T_uint (Decimal.D0 d)) | apply (lacks_T_uint (Decimal.D1 d))
          | apply (lacks_T_uint (Decimal.D2 d)) | apply (lacks_T_uint (Decimal.D3 d))
          | apply (lacks_T_uint (Decimal.D4 d)) | apply (lacks_T_uint (Decimal.D5 d))
          | apply (lacks_T_uint (Decimal.D6 d)) | apply (lacks_T_uint (Decimal.D7 d))
          | apply (lacks_T_uint (Decimal.D8 d)) | apply (lacks_T_uint (Decimal.D9 d))].
Qed.

Lemma lacks_T_pad (w : nat) (z : Z) : lacks "T" (pad w z) = true.
Proof.
  unfold pad. rewrite lacks_app, lacks_T_Z, andb_true_r.
  induction (w - String.length (Z_toString z))%nat as [|n IH]; [reflexivity|].
  cbn [zeros lacks]. exact IH.
Qed.

Lemma lacks_T_isoYear (y : Z) : lacks "T" (isoYear y) = true.
Proof.
  unfold isoYear. destruct ((0 <=? y) && (y <=? 9999)); [apply lacks_T_pad|].
  rewrite lacks_app, lacks_T_pad. destruct (y <? 0); reflexivity.
Qed.

Section FormatDate.
Context `{Host}.

(** The text [formatDate] returns is made of the day number alone. *)
Lemma formatDate_day (t : Z) :
  formatDate (Some (Some t)) =
    Ok (let y := YearFromDay (Day t) in
        let md := MonthAndDate (Day t - DayFromYear y) (DaysInYear y - 365) in
        isoYear y +:+ "-" +:+ pad 2 (fst md) +:+ "-" +:+ pad 2 (snd md) +:+ "").
Proof.
  cbn [formatDate]. f_equal. unfold toISOString. cbv zeta.
  destruct (MonthAndDate _ _) as [m d]. cbn [fst snd].
  rewrite split_head_lacks by apply lacks_T_isoYear.
  rewrite (split_head_lacks _ "-") by reflexivity.
  rewrite split_head_lacks by apply lacks_T_pad.
  rewrite (split_head_lacks _ "-") by reflexivity.
  rewrite split_head_lacks by apply lacks_T_pad.
  reflexivity.
Qed.

(** X6. [formatDate] keeps the UTC calendar day and drops the time of
    day: two valid dates on the same UTC day get the same text, and the
    text of a date is the text of the midnight that starts its day. *)
Theorem formatDate_same_day (t t' : Z) :
  Day t = Day t' ->
  formatDate (Some (Some t)) = formatDate (Some (Some t')) /\
  formatDate (Some (Some t)) = formatDate (Some (Some (Day t * msPerDay))).
Proof.
  intros Hday. rewrite !formatDate_day.
  assert (Hmid : Day (Day t * msPerDay) = Day t).
  { unfold Day at 1. apply Z.div_mul. discriminate. }
  rewrite Hmid, Hday. by split.
Qed.

(** X7. A cell that is neither a text nor a Date is read as a day serial
    and gives the Invalid Date or a UTC midnight.  An empty cell ([null])
    counts as serial 0, the valid date 1899-12-30; a column that is absent
    gives the Invalid Date. *)
Theorem serial_is_midnight (serial : value) :
  match serial with
  | Str _ | DateV _ => True
  | _ =>
      match excelDateToJS serial with
      | Some t => t mod msPerDay = 0
      | None => True
      end
  end /\
  excelDateToJS Null = Some (- 25569 * msPerDay) /\
  formatDate (Some (excelDateToJS Null)) = Ok "1899-12-30" /\
  excelDateToJS Undefined = None.
Proof.
  split; [|split; [vm_compute; reflexivity|split; [vm_compute; reflexivity|reflexivity]]].
  destruct serial as [| |b|n|s|d]; [exact I | | | | exact I | exact I].
  - vm_compute. reflexivity.
  - destruct b; vm_compute; reflexivity.
  - rewrite excelDateToJS_number.
    destruct (num_sub n (ofZ 25569)) as [|neg|q]; try exact I. cbv zeta.
    destruct (Z.abs _ <=? _); [|exact I].
    unfold msPerDay. apply Z.mod_mul. discriminate.
Qed.

End FormatDate.

(** ** Seconds until 07:00 *)

Section Seconds.
Context `{Host}.

Lemma target7AM_timeOfDay (now : Z) :
  target7AM now - now =
    if localTimeOfDay now <? 7 * 3600000
    then 7 * 3600000 - localTimeOfDay now
    else 31 * 3600000 - localTimeOfDay now.
Proof.
  unfold target7AM, setHours7, localTimeOfDay, Day, msPerDay.
  pose proof (Z.div_mod (now + LocalTZA) 86400000 ltac:(lia)) as Hdm.
  set (d := (now + LocalTZA) / 86400000) in *.
  set (r := (now + LocalTZA) mod 86400000) in *.
  destruct (Z.leb_spec (d * 86400000 + 7 * 3600000 - LocalTZA) now);
    destruct (Z.ltb_spec r (7 * 3600000)); lia.
Qed.

(** X8. The cache time depends on the local time of day alone: it is the
    whole seconds from that time to 07:00, of the same day before 07:00 and
    of the next day from 07:00 on, and 60 when that is less.  At 07:00
    sharp it is a full day. *)
Theorem seconds_by_time_of_day (now : Z) :
  let r := localTimeOfDay now in
  ApiApi1.getSecondsUntil7AM now =
    Z.max 60 ((if r <? 7 * 3600000 then 7 * 3600000 - r else 31 * 3600000 - r) / 1000) /\
  (r = 7 * 3600000 -> ApiApi1.getSecondsUntil7AM now = 86400) /\
  (7 * 3600000 - 61000 < r < 7 * 3600000 -> ApiApi1.getSecondsUntil7AM now = 60).
Proof.
  intros r. unfold ApiApi1.getSecondsUntil7AM. rewrite target7AM_timeOfDay. fold r.
  split; [reflexivity|]. split.
  - intros ->. reflexivity.
  - intros Hr. destruct (Z.ltb_spec r (7 * 3600000)); [|lia].
    assert ((7 * 3600000 - r) / 1000 <= 60).
    { apply Z.lt_succ_r. apply Z.div_lt_upper_bound; lia. }
    lia.
Qed.

(** X9. The cache time is between 60 and 86400 seconds, and the three
    copies of [getSecondsUntil7AM] return the same number: the upper clamp
    of the second copy of [api/api_fuel-prices.js] never takes effect when
    the local offset is constant. *)
Theorem seconds_bounds (now : Z) :
  60 <= ApiApi1.getSecondsUntil7AM now <= 86400 /\
  ApiApi2.getSecondsUntil7AM now = ApiApi1.getSecondsUntil7AM now /\
  Discovery.getSecondsUntil7AM now = ApiApi1.getSecondsUntil7AM now.
Proof.
  unfold ApiApi1.getSecondsUntil7AM, ApiApi2.getSecondsUntil7AM,
    Discovery.getSecondsUntil7AM.
  destruct (target7AM_next now) as ([Hlo Hhi] & _).
  unfold msPerDay in Hhi.
  assert (Hq : 0 <= (target7AM now - now) / 1000 <= 86400).
  { split; [apply Z.div_pos; lia|].
    apply Z.lt_succ_r. apply Z.div_lt_upper_bound; lia. }
  cbv zeta. lia.
Qed.

End Seconds.

(** ** The URL of the latest file *)

Lemma prefix_http_not_slash (u : string) :
  String.prefix "http" u = true -> String.prefix "/" u = false.
Proof.
  destruct u as [|a u]; [discriminate|]. cbn [String.prefix].
  destruct (ascii_dec "h" a) as [<-|]; [reflexivity | discriminate].
Qed.

Lemma absolute_http (latestUrl : string) :
  startsWith "http" (Discovery.absolute latestUrl) = true.
Proof.
  unfold Discovery.absolute, startsWith.
  destruct (String.prefix "/" latestUrl); [reflexivity|].
  by destruct (String.prefix "http" latestUrl) eqn:Hhttp.
Qed.

Lemma findLatestExcelUrl_ok (page : fetched string) (url : string) :
  Discovery.findLatestExcelUrl page = Ok url ->
  exists status html,
    page = Responded status html /\ ok status = true /\
    Discovery.latestIn html = Ok url.
Proof.
  unfold Discovery.findLatestExcelUrl.
  destruct page as [e|status html]; [discriminate|].
  destruct (ok status) eqn:Hok; cbn [negb]; [|discriminate].
  intros Hurl. by exists status, html.
Qed.

Lemma latestIn_http (html url : string) :
  Discovery.latestIn html = Ok url -> startsWith "http" url = true.
Proof.
  unfold Discovery.latestIn.
  destruct (length (Discovery.collect html) =? 0)%nat; [discriminate|].
  destruct (Discovery.sort Discovery.compareFn (Discovery.collect html)) as [|c cs];
    [discriminate|].
  intros [= <-]. apply absolute_http.
Qed.

(** X10. The URL [findLatestExcelUrl] returns is absolute: whatever the
    link, the result of the last step starts with [http]; the step changes
    nothing when applied again, and leaves alone a link that starts with
    [http]. *)
Theorem absolute_starts_with_http (latestUrl : string) :
  startsWith "http" (Discovery.absolute latestUrl) = true /\
  Discovery.absolute (Discovery.absolute latestUrl) = Discovery.absolute latestUrl /\
  (startsWith "http" latestUrl = true -> Discovery.absolute latestUrl = latestUrl).
Proof.
  unfold Discovery.absolute, startsWith.
  destruct (String.prefix "/" latestUrl) eqn:Hslash.
  - split; [reflexivity|]. split; [reflexivity|].
    intros Hh. apply prefix_http_not_slash in Hh. congruence.
  - destruct (String.prefix "http" latestUrl) eqn:Hhttp; cbn [negb].
    + split; [exact Hhttp|]. split; [|reflexivity]. by rewrite Hslash, Hhttp.
    + split; [reflexivity|]. split; [reflexivity | discriminate].
Qed.

(** The first element of the sorted array is the first, in the order of
    the array, of the candidates that none comes after. *)
Lemma sort_head_first (l : list Discovery.Candidate) :
  l <> [] -> Forall wholeYears l ->
  exists before best after rest,
    l = before ++ best :: after /\
    Discovery.sort Discovery.compareFn l = best :: rest /\
    (forall c, In c before -> ~ notLater best c) /\
    (forall c, In c after -> notLater c best).
Proof.
  induction l as [|x l IH]; [congruence|]. intros _ Hw.
  inversion Hw as [|? ? Hx Hl]; subst.
  unfold Discovery.sort. cbn [foldr]. fold (Discovery.sort Discovery.compareFn l).
  destruct l as [|y l'].
  - exists [], x, [], []. repeat split; intros c [].
  - destruct (IH ltac:(discriminate) Hl) as (b1 & b & a1 & rest & Heq & -> & Hb1 & Ha1).
    cbn [Discovery.insert].
    assert (Hwb : wholeYears b).
    { rewrite List.Forall_forall in Hl. apply Hl. rewrite Heq.
      apply in_or_app. right. by left. }
    destruct (num_lt (Discovery.compareFn b x) (ofZ 0)) eqn:Hlt.
    + apply compareFn_whole in Hlt; [|assumption..].
      exists (x :: b1), b, a1, (Discovery.insert Discovery.compareFn x rest).
      rewrite Heq. repeat split; [|exact Ha1].
      intros c [<-|Hc]; [exact Hlt | by apply Hb1].
    + assert (Hxb : notLater b x).
      { destruct (classic_notLater b x) as [|Hn]; [assumption|].
        apply compareFn_whole in Hn; [congruence|assumption..]. }
      exists [], x, (y :: l'), (b :: rest). repeat split; [intros c []|].
      intros c Hc. rewrite Heq in Hc. apply in_app_or in Hc as [Hc|[<-|Hc]].
      * eapply notLater_trans; [|exact Hxb]. apply notLater_total. by apply Hb1.
      * exact Hxb.
      * eapply notLater_trans; [by apply Ha1 | exact Hxb].
Qed.

(** X11. Among the candidates that none comes after, the one that stands
    first in the page is chosen: every candidate before the chosen one has a
    smaller end year, or the same end year and a smaller start year, and no
    candidate after it comes after it. *)
Theorem first_latest_wins (html : string) :
  match Discovery.collect html with
  | [] => True
  | _ :: _ =>
      exists (before : list Discovery.Candidate) (best : Discovery.Candidate)
             (after : list Discovery.Candidate),
        Discovery.collect html = before ++ best :: after /\
        Discovery.latestIn html = Ok (Discovery.absolute (Discovery.url best)) /\
        (forall c, In c before -> ~ notLater best c) /\
        (forall c, In c after -> notLater c best)
  end.
Proof.
  pose proof (collect_wholeYears html) as Hw.
  unfold Discovery.latestIn.
  destruct (Discovery.collect html) as [|c0 cs0] eqn:Hcs; [exact I|].
  cbn [length Nat.eqb].
  assert (HF : Forall wholeYears (c0 :: cs0)) by (by apply List.Forall_forall).
  destruct (sort_head_first (c0 :: cs0) ltac:(discriminate) HF)
    as (before & best & after & rest & Heq & Hsort & Hb & Ha).
  exists before, best, after. rewrite Hsort. by repeat split.
Qed.

(** X12. When the page has no link of the [href] form, the URL returned is
    built from the fixed directory and the years of the chosen file name,
    in lower case whatever the case of the name in the page. *)
Theorem fallback_url (html url : string) :
  execAll Discovery.municipioPattern html 0 = [] ->
  Discovery.latestIn html = Ok url ->
  exists y1 y2 : string,
    (String.length y1 = 4%nat /\ all_digits y1 = true) /\
    (String.length y2 = 4%nat /\ all_digits y2 = true) /\
    url = Discovery.shlpDir +:+ "semanal-municipio-" +:+ y1 +:+ "-" +:+ y2 +:+ ".xlsx".
Proof.
  intros Hhref Hok.
  pose proof (collect_wholeYears html) as Hw.
  unfold Discovery.latestIn in Hok.
  assert (Hcol : Discovery.collect html =
                 map Discovery.altCandidate (execAll Discovery.altPattern html 0)).
  { unfold Discovery.collect. rewrite Hhref. reflexivity. }
  destruct (Discovery.collect html) as [|c0 cs0] eqn:Hcs; [discriminate|].
  cbn [length Nat.eqb] in Hok.
  assert (HF : Forall wholeYears (c0 :: cs0)) by (by apply List.Forall_forall).
  destruct (sort_head_latest (c0 :: cs0) ltac:(discriminate) HF)
    as (best & rest & Hsort & Hin & _).
  rewrite Hsort in Hok. injection Hok as <-.
  rewrite Hcol in Hin. apply in_map_iff in Hin as (m & <- & Hm).
  apply execAll_matched in Hm as (before & s0 & r & _ & Hm).
  apply altPattern_groups in Hm as [H1 H2].
  exists (group m 1), (group m 2). split; [exact H1|]. split; [exact H2|].
  reflexivity.
Qed.

(** X13. [findLatestExcelUrl] returns a URL only for a page that was
    answered with a 2xx status, and never a relative one: what it returns
    starts with [http]. *)
Theorem found_url_is_absolute (page : fetched string) (url : string) :
  Discovery.findLatestExcelUrl page = Ok url ->
  startsWith "http" url = true /\
  exists status html, page = Responded status html /\ ok status = true.
Proof.
  intros Hurl. apply findLatestExcelUrl_ok in Hurl as (status & html & -> & Hok & Hurl).
  split; [by apply (latestIn_http html) | by exists status, html].
Qed.

(** X14. The years of every candidate collected from a page are whole
    numbers from 0 to 9999. *)
Theorem candidate_years_range (html : string) (c : Discovery.Candidate) :
  In c (Discovery.collect html) ->
  wholeYears c /\
  0 <= yearOf (Discovery.startYear c) <= 9999 /\
  0 <= yearOf (Discovery.endYear c) <= 9999.
Proof.
  intros Hin. split; [by apply collect_wholeYears in Hin|].
  unfold Discovery.collect in Hin.
  destruct (length (map Discovery.hrefCandidate
                        (execAll Discovery.municipioPattern html 0)) =? 0)%nat.
  - apply in_map_iff in Hin as (m & <- & Hm).
    apply execAll_matched in Hm as (before & s0 & rest & _ & Hm).
    apply altPattern_groups in Hm as [[Hl1 Hd1] [Hl2 Hd2]].
    unfold Discovery.altCandidate. cbn [Discovery.endYear Discovery.startYear].
    rewrite !parseInt_digits by assumption.
    rewrite !yearOf_ofZ. split; by apply four_digits_year.
  - apply in_map_iff in Hin as (m & <- & Hm).
    apply execAll_matched in Hm as (before & s0 & rest & _ & Hm).
    apply municipioPattern_groups in Hm as [[Hl2 Hd2] [Hl3 Hd3]].
    unfold Discovery.hrefCandidate. cbn [Discovery.endYear Discovery.startYear].
    rewrite !parseInt_digits by assumption.
    rewrite !yearOf_ofZ. split; by apply four_digits_year.
Qed.

(** A match consumes a prefix of the text. *)
Lemma matched_suffix (r : regex) :
  forall (s s' : string) (caps caps' : Captures),
  matched r s caps s' caps' -> exists pre, s = pre +:+ s'.
Proof.
  induction r as [|c| |c|r1 IH1 r2 IH2|i r1 IH1]; intros s s' caps caps';
    cbn [matched].
  - intros [-> _]. by exists EmptyString.
  - intros (a & -> & _). by exists (String a EmptyString).
  - intros (a & -> & _). by exists (String a EmptyString).
  - intros [(run & -> & _) _]. by exists run.
  - intros (s1 & caps1 & Hm1 & Hm2).
    apply IH1 in Hm1 as (p1 & ->). apply IH2 in Hm2 as (p2 & ->).
    exists (p1 +:+ p2). symmetry. apply append_assoc.
  - intros (caps1 & Hm1 & _). by apply IH1 in Hm1.
Qed.

Lemma prefix_app (p b : string) : String.prefix p (p +:+ b) = true.
Proof.
  induction p as [|a p IH].
  - change (EmptyString +:+ b) with b. by destruct b.
  - change (String a p +:+ b) with (String a (p +:+ b)). cbn [String.prefix].
    destruct (ascii_dec a a); [exact IH | congruence].
Qed.

Lemma includes_middle (a p b : string) : includes p (a +:+ p +:+ b) = true.
Proof.
  induction a as [|x a IH].
  - change (EmptyString +:+ p +:+ b) with (p +:+ b).
    destruct (p +:+ b) eqn:Heq; cbn [includes]; rewrite <- Heq, prefix_app; reflexivity.
  - change (String x a +:+ p +:+ b) with (String x (a +:+ p +:+ b)).
    cbn [includes]. rewrite IH. apply orb_true_r.
Qed.

(** The first group of a match of the pattern anchored on [href] is a
    piece of the text matched, right after the opening quote. *)
Lemma municipioPattern_link (s rest : string) (caps : Captures) :
  matched Discovery.municipioPattern s ∅ rest caps ->
  exists before after, s = before +:+ group caps 1 +:+ after.
Proof.
  unfold Discovery.municipioPattern. cbn [matched].
  intros (s1 & c1 & Hhref & s2 & c2 & (a2 & -> & _ & ->) &
          s3 & c3 & (c4 & Hinner & ->) & (a10 & -> & _ & ->)).
  apply matched_suffix in Hhref as (p0 & ->).
  destruct (matched_suffix
              (StarNot Discovery.dquote · lit "semanal-municipio-" ·
               Group 2 d4 · Chr "-" · Group 3 d4 · lit ".xlsx")%re
              _ _ _ _ Hinner) as (p1 & ->).
  unfold group. rewrite lookup_insert_eq. cbn [default].
  rewrite consumed_prefix.
  exists (p0 +:+ String a2 EmptyString), (String a10 rest).
  rewrite append_assoc. reflexivity.
Qed.

(** X15. A link of the [href] form is taken from the page as it stands:
    when the page has such links, the URL of every candidate is a piece of
    the text of the page. *)
Theorem href_url_from_page (html : string) (c : Discovery.Candidate) :
  execAll Discovery.municipioPattern html 0 <> [] ->
  In c (Discovery.collect html) ->
  includes (Discovery.url c) html = true.
Proof.
  intros Hne Hin. unfold Discovery.collect in Hin.
  destruct (length (map Discovery.hrefCandidate
                        (execAll Discovery.municipioPattern html 0)) =? 0)%nat eqn:Hlen.
  { exfalso. apply Hne. apply Nat.eqb_eq in Hlen.
    destruct (execAll Discovery.municipioPattern html 0); [reflexivity | discriminate]. }
  apply in_map_iff in Hin as (m & <- & Hm).
  apply execAll_matched in Hm as (before & s0 & rest & -> & Hm).
  apply municipioPattern_link in Hm as (b1 & a1 & ->).
  unfold Discovery.hrefCandidate. cbn [Discovery.url].
  rewrite <- append_assoc. apply includes_middle.
Qed.

(** ** The handlers *)

Section Responses.
Context `{Host}.

Lemma processRows_fields (jsonData : list Row) (url : option string) (now : Z)
  (p : Payload) :
  processRows jsonData url now = Ok p ->
  success p = true /\ sourceUrl p = url /\ updatedAt p = toISOString now.
Proof.
  unfold processRows.
  destruct (length (guarulhosData jsonData) =? 0)%nat; [discriminate|].
  destruct (fold_left maxDate_step _ None) as [maxD|]; [|discriminate].
  destruct (formatDate (fold_left minDate_step _ None)) as [ps|]; [|discriminate].
  destruct (formatDate (Some maxD)) as [pe|]; [|discriminate].
  cbn [bind]. by intros [= <-].
Qed.

Lemma fetchAndProcessExcel_ok (excel : fetched Workbook) (now : Z) (p : Payload) :
  fetchAndProcessExcel excel now = Ok p ->
  exists status jsonData,
    excel = Responded status (Ok jsonData) /\ ok status = true /\
    processRows jsonData None now = Ok p.
Proof.
  unfold fetchAndProcessExcel. destruct excel as [e|status [jsonData|e]];
    [discriminate| |]; destruct (ok status) eqn:Hok; cbn [negb bind];
    try discriminate.
  intros Hp. by exists status, jsonData.
Qed.

Lemma Discovery_fetchAndProcessExcel_ok (page : fetched string)
  (excelAt : string -> fetched Workbook) (now : Z) (p : Payload) :
  Discovery.fetchAndProcessExcel page excelAt now = Ok p ->
  exists url status jsonData,
    Discovery.findLatestExcelUrl page = Ok url /\
    excelAt url = Responded status (Ok jsonData) /\ ok status = true /\
    processRows jsonData (Some url) now = Ok p.
Proof.
  unfold Discovery.fetchAndProcessExcel.
  destruct (Discovery.findLatestExcelUrl page) as [url|e] eqn:Hurl; [|discriminate].
  cbn [bind]. destruct (excelAt url) as [e|status [jsonData|e]] eqn:Hex;
    [discriminate| |]; destruct (ok status) eqn:Hok; cbn [negb bind];
    try discriminate.
  intros Hp. by exists url, status, jsonData.
Qed.

(** X16. A success object is made from a 2xx answer whose workbook could
    be read, and from nothing else.  In the discovery variant its
    [sourceUrl] is the URL that was found on the page and fetched, an
    absolute URL; in the other variants there is no [sourceUrl]. *)
Theorem success_comes_from_upstream (page : fetched string)
  (excelAt : string -> fetched Workbook) (excel : fetched Workbook)
  (now : Z) (p : Payload) :
  (Discovery.fetchAndProcessExcel page excelAt now = Ok p ->
   exists url status jsonData,
     Discovery.findLatestExcelUrl page = Ok url /\
     startsWith "http" url = true /\
     excelAt url = Responded status (Ok jsonData) /\ ok status = true /\
     processRows jsonData (Some url) now = Ok p /\
     sourceUrl p = Some url) /\
  (fetchAndProcessExcel excel now = Ok p ->
   exists status jsonData,
     excel = Responded status (Ok jsonData) /\ ok status = true /\
     processRows jsonData None now = Ok p /\
     sourceUrl p = None).
Proof.
  split.
  - intros Hp. apply Discovery_fetchAndProcessExcel_ok in Hp
      as (url & status & jsonData & Hurl & Hex & Hok & Hp).
    exists url, status, jsonData.
    split; [exact Hurl|].
    split. { apply findLatestExcelUrl_ok in Hurl as (? & html & _ & _ & Hurl).
             by apply (latestIn_http html). }
    split; [exact Hex|]. split; [exact Hok|]. split; [exact Hp|].
    by apply processRows_fields in Hp as (_ & ? & _).
  - intros Hp. destruct (fetchAndProcessExcel_ok excel now p Hp)
      as (status & jsonData & -> & Hok & Hrows).
    exists status, jsonData. split; [reflexivity|]. split; [exact Hok|].
    split; [exact Hrows|]. by apply processRows_fields in Hrows as (_ & ? & _).
Qed.

Lemma cors_through_cache (cc : string) :
  <["Cache-Control" := cc]> corsHeaders !! "Access-Control-Allow-Origin" = Some "*" /\
  <["Cache-Control" := cc]> corsHeaders !! "Access-Control-Allow-Methods"
    = Some "GET, OPTIONS" /\
  <["Cache-Control" := cc]> corsHeaders !! "Access-Control-Allow-Headers"
    = Some "Content-Type".
Proof. rewrite !lookup_insert_ne by done. repeat split; reflexivity. Qed.

Lemma cors_plain :
  corsHeaders !! "Access-Control-Allow-Origin" = Some "*" /\
  corsHeaders !! "Access-Control-Allow-Methods" = Some "GET, OPTIONS" /\
  corsHeaders !! "Access-Control-Allow-Headers" = Some "Content-Type".
Proof. repeat split; reflexivity. Qed.

(** X17. Every answer of every handler carries the three CORS headers:
    on OPTIONS, on success and on failure, with or without a
    [Cache-Control] header. *)
Theorem cors_on_every_response (req : Request) (page : fetched string)
  (excelAt : string -> fetched Workbook) (excel : fetched Workbook)
  (now now7 : Z) (resp : Response) :
  In resp (responses req page excelAt excel now now7) ->
  headers resp !! "Access-Control-Allow-Origin" = Some "*" /\
  headers resp !! "Access-Control-Allow-Methods" = Some "GET, OPTIONS" /\
  headers resp !! "Access-Control-Allow-Headers" = Some "Content-Type".
Proof.
  unfold responses, Mnt.handler, Api.handler, ApiApi1.handler, ApiApi2.handler,
    Discovery.handler.
  intros [<-|[<-|[<-|[<-|[<-|[]]]]]];
    destruct (String.eqb (method req) "OPTIONS");
    try destruct (fetchAndProcessExcel excel now);
    try destruct (Discovery.fetchAndProcessExcel page excelAt now);
    cbn [headers]; first [apply cors_plain | apply cors_through_cache].
Qed.

(** X18. A handler answers in one of three ways: status 200 without a
    body, to an OPTIONS request and to no other; status 200 with a success
    object whose [success] is true; status 500 with an error object.  It
    never sends another status, and never a success object with
    status 500. *)
Theorem response_shapes (req : Request) (page : fetched string)
  (excelAt : string -> fetched Workbook) (excel : fetched Workbook)
  (now now7 : Z) (resp : Response) :
  In resp (responses req page excelAt excel now now7) ->
  match body resp with
  | NoBody => statusCode resp = 200 /\ method req = "OPTIONS"
  | JsonPayload p =>
      statusCode resp = 200 /\ method req <> "OPTIONS" /\ success p = true
  | JsonError _ => statusCode resp = 500 /\ method req <> "OPTIONS"
  end.
Proof.
  assert (Hfixed : forall p, fetchAndProcessExcel excel now = Ok p -> success p = true).
  { intros p Hp. apply fetchAndProcessExcel_ok in Hp as (? & ? & _ & _ & Hp).
    by apply processRows_fields in Hp as (? & _). }
  assert (Hdisc : forall p, Discovery.fetchAndProcessExcel page excelAt now = Ok p ->
                            success p = true).
  { intros p Hp.
    apply Discovery_fetchAndProcessExcel_ok in Hp as (? & ? & ? & _ & _ & _ & Hrows).
    by apply processRows_fields in Hrows as (? & _). }
  unfold responses, Mnt.handler, Api.handler, ApiApi1.handler, ApiApi2.handler,
    Discovery.handler.
  destruct (String.eqb_spec (method req) "OPTIONS") as [Hm|Hm].
  { intros [<-|[<-|[<-|[<-|[<-|[]]]]]]; by split. }
  destruct (fetchAndProcessExcel excel now) as [p|e] eqn:Hp;
    destruct (Discovery.fetchAndProcessExcel page excelAt now) as [p'|e'] eqn:Hp';
    intros [<-|[<-|[<-|[<-|[<-|[]]]]]]; cbn [body statusCode];
    repeat split; auto.
Qed.

(** X19. A failed fetch is answered with status 500 and the text of the
    failure: the message of the rejection, or the status of a non-2xx
    answer, whatever its body; in the discovery variant a failure on the
    page is reported without the spreadsheet being looked at. *)
Theorem upstream_failure_reported (req : Request) (now now7 : Z)
  (e : exn) (status : Z) (workbook : Workbook) (html : string)
  (excelAt : string -> fetched Workbook) (resp : Response) :
  method req <> "OPTIONS" ->
  ok status = false ->
  (In resp (responses req (Rejected e) excelAt (Rejected e) now now7) ->
   statusCode resp = 500 /\ body resp = JsonError (message e)) /\
  (In resp [ Mnt.handler req (Responded status workbook) now;
             Api.handler req (Responded status workbook) now;
             ApiApi1.handler req (Responded status workbook) now now7;
             ApiApi2.handler req (Responded status workbook) now now7 ] ->
   statusCode resp = 500 /\
   body resp = JsonError ("Failed to fetch Excel: " +:+ Z_toString status)) /\
  (resp = Discovery.handler req (Responded status html) excelAt now now7 ->
   statusCode resp = 500 /\
   body resp = JsonError ("Failed to fetch ANP page: " +:+ Z_toString status)).
Proof.
  intros Hm Hok. apply String.eqb_neq in Hm.
  unfold responses, Mnt.handler, Api.handler, ApiApi1.handler, ApiApi2.handler,
    Discovery.handler, Discovery.fetchAndProcessExcel, Discovery.findLatestExcelUrl,
    fetchAndProcessExcel.
  rewrite Hm, Hok. cbn [negb bind].
  split; [|split].
  - intros [<-|[<-|[<-|[<-|[<-|[]]]]]]; by split.
  - intros [<-|[<-|[<-|[<-|[]]]]]; by split.
  - intros ->. by split.
Qed.

End Responses.

Section LocalityColumn.
Context `{Host}.

(** X20. The column MUNICÍPIO comes first: when its cell is present and
    not empty, the cell of the column MUNICIPIO is not looked at, so that
    setting it to any value changes nothing in the choice of the row. *)
Theorem accented_column_first (row : Row) (v : value) :
  ToBoolean (get row "MUNICÍPIO") = true ->
  isGuarulhos (<["MUNICIPIO" := v]> row) = isGuarulhos row.
Proof.
  intros Hb. unfold isGuarulhos, or_else.
  assert (Hget : get (<["MUNICIPIO" := v]> row) "MUNICÍPIO" = get row "MUNICÍPIO").
  { unfold get. by rewrite lookup_insert_ne. }
  rewrite Hget, Hb. reflexivity.
Qed.

End LocalityColumn.

(** ** The further properties on the sample data *)

Lemma other_locality_ignored_witness :
  processRows (H:=sampleHost) ([gasolinePriced] ++ otherTownRow :: [dieselRow]) None 0 =
  processRows (H:=sampleHost) ([gasolinePriced] ++ [dieselRow]) None 0.
Proof.
  apply (other_locality_ignored (H:=sampleHost)). vm_compute. reflexivity.
Defined.

Lemma invalid_period_end_skipped_witness :
  processRows (H:=sampleHost) [gasolinePriced; noEndRow; dieselRow] None 0 =
  processRows (H:=sampleHost)
    (List.filter (hasDataFinal (H:=sampleHost))
       (guarulhosData (H:=sampleHost) [gasolinePriced; noEndRow; dieselRow])) None 0.
Proof.
  apply (invalid_period_end_skipped (H:=sampleHost) _ None 0 gasolinePriced).
  - reflexivity.
  - vm_compute. reflexivity.
Defined.

Lemma price_provenance_witness :
  exists row,
    In row (guarulhosData (H:=sampleHost) sampleRows) /\
    formatDate (Some (dataFinalOf (H:=sampleHost) row)) = Ok (periodEnd samplePayload) /\
    categoryOf (produtoOf (H:=sampleHost) row) = Some Diesel /\
    priceOf (H:=sampleHost) (precoOf row) = Some (round64 (599 # 100)).
Proof.
  apply (price_provenance (H:=sampleHost) sampleRows None 0 samplePayload Diesel).
  - vm_compute. reflexivity.
  - reflexivity.
Defined.

Lemma period_order_independent_witness :
  exists p p' : Payload,
    processRows (H:=sampleHost) sampleRows None 0 = Ok p /\
    processRows (H:=sampleHost) (rev sampleRows) None 0 = Ok p' /\
    periodEnd p = periodEnd p' /\
    periodStart p = periodStart p'.
Proof.
  apply (period_order_independent (H:=sampleHost) sampleRows (rev sampleRows) None 0).
  - apply Permutation_rev.
  - vm_compute. reflexivity.
  - vm_compute. reflexivity.
Defined.

Lemma formatDate_same_day_witness :
  formatDate (Some (Some may08)) = formatDate (Some (Some may08noon)) /\
  formatDate (Some (Some may08)) = formatDate (Some (Some (Day may08 * msPerDay))).
Proof. apply (formatDate_same_day may08 may08noon). vm_compute. reflexivity. Defined.

Lemma seconds_by_time_of_day_witness :
  ApiApi1.getSecondsUntil7AM (H:=sampleHost) (may08 + 10 * 3600000) = 86400.
Proof.
  destruct (seconds_by_time_of_day (H:=sampleHost) (may08 + 10 * 3600000))
    as (_ & Hseven & _).
  apply Hseven. vm_compute. reflexivity.
Defined.

Lemma absolute_starts_with_http_witness :
  Discovery.absolute latestUrl2026 = latestUrl2026.
Proof.
  destruct (absolute_starts_with_http latestUrl2026) as (_ & _ & Hsame).
  apply Hsame. vm_compute. reflexivity.
Defined.

Lemma fallback_url_witness :
  exists y1 y2 : string,
    (String.length y1 = 4%nat /\ all_digits y1 = true) /\
    (String.length y2 = 4%nat /\ all_digits y2 = true) /\
    Discovery.shlpDir +:+ "semanal-municipio-2024-2025.xlsx" =
      Discovery.shlpDir +:+ "semanal-municipio-" +:+ y1 +:+ "-" +:+ y2 +:+ ".xlsx".
Proof.
  apply (fallback_url plainPage); vm_compute; reflexivity.
Defined.

Lemma found_url_is_absolute_witness :
  startsWith "http" latestUrl2026 = true /\
  exists status html, Responded 200 pageOldFirst = Responded status html /\ ok status = true.
Proof.
  apply (found_url_is_absolute (Responded 200 pageOldFirst)). vm_compute. reflexivity.
Defined.

Lemma candidate_years_range_witness :
  wholeYears candidate2026 /\
  0 <= yearOf (Discovery.startYear candidate2026) <= 9999 /\
  0 <= yearOf (Discovery.endYear candidate2026) <= 9999.
Proof.
  apply (candidate_years_range pageOldFirst). vm_compute. right. left. reflexivity.
Defined.

Lemma href_url_from_page_witness :
  includes (Discovery.url candidate2026) pageOldFirst = true.
Proof.
  apply (href_url_from_page pageOldFirst candidate2026).
  - vm_compute. discriminate.
  - vm_compute. right. left. reflexivity.
Defined.

Lemma success_comes_from_upstream_witness :
  exists url status jsonData,
    Discovery.findLatestExcelUrl (Responded 200 pageOldFirst) = Ok url /\
    startsWith "http" url = true /\
    Responded 200 (Ok sampleRows) = Responded status (Ok jsonData) /\
    ok status = true /\
    processRows (H:=sampleHost) jsonData (Some url) 0 = Ok discoveredPayload /\
    sourceUrl discoveredPayload = Some url.
Proof.
  destruct (success_comes_from_upstream (H:=sampleHost) (Responded 200 pageOldFirst)
              (fun _ => Responded 200 (Ok sampleRows)) (Rejected (Error "")) 0
              discoveredPayload) as [Hdisc _].
  apply Hdisc. vm_compute. reflexivity.
Defined.

Lemma cors_on_every_response_witness :
  let resp := ApiApi1.handler (H:=sampleHost) getRequest (Rejected (Error "fetch failed")) 0 0 in
  headers resp !! "Access-Control-Allow-Origin" = Some "*" /\
  headers resp !! "Access-Control-Allow-Methods" = Some "GET, OPTIONS" /\
  headers resp !! "Access-Control-Allow-Headers" = Some "Content-Type".
Proof.
  apply (cors_on_every_response (H:=sampleHost) getRequest
           (Rejected (Error "fetch failed")) (fun _ => Rejected (Error "fetch failed"))
           (Rejected (Error "fetch failed")) 0 0).
  unfold responses. right. right. left. reflexivity.
Defined.

Lemma response_shapes_witness :
  let resp := Mnt.handler (H:=sampleHost) getRequest (Responded 200 (Ok sampleRows)) 0 in
  match body resp with
  | NoBody => statusCode resp = 200 /\ method getRequest = "OPTIONS"
  | JsonPayload p =>
      statusCode resp = 200 /\ method getRequest <> "OPTIONS" /\ success p = true
  | JsonError _ => statusCode resp = 500 /\ method getRequest <> "OPTIONS"
  end.
Proof.
  intros resp.
  apply (response_shapes (H:=sampleHost) getRequest
           (Rejected (Error "fetch failed")) (fun _ => Rejected (Error "fetch failed"))
           (Responded 200 (Ok sampleRows)) 0 0 resp).
  unfold responses. left. reflexivity.
Defined.

Lemma upstream_failure_reported_witness :
  let resp := Mnt.handler (H:=sampleHost) getRequest (Responded 404 (Ok sampleRows)) 0 in
  statusCode resp = 500 /\ body resp = JsonError "Failed to fetch Excel: 404".
Proof.
  intros resp.
  destruct (upstream_failure_reported (H:=sampleHost) getRequest 0 0
              (Error "fetch failed") 404 (Ok sampleRows) EmptyString
              (fun _ => Rejected (Error "fetch failed")) resp)
    as (_ & Hstatus & _).
  - discriminate.
  - reflexivity.
  - apply Hstatus. left. reflexivity.
Defined.

Lemma accented_column_first_witness :
  isGuarulhos (H:=sampleHost) twoColumnsRow = false.
Proof.
  unfold twoColumnsRow.
  rewrite (accented_column_first (H:=sampleHost)); vm_compute; reflexivity.
Defined.
